(** * Cisco Catalyst SD-WAN async client ([vmanage_async.py])

    A shallow embedding of the [Vmanage] client class: the login handshake,
    the typed request layer ([get], [post]), the semaphore-bounded fan-out
    ([get_all]) and the domain normalisers ([get_devices],
    [get_device_interfaces], [get_device_tlocs], [get_device_vrrp],
    [get_device_template_values]).

    Conventions.
    - A Python [str] is a [string]; a Python [int] is a [Z].
    - A value decoded from JSON is a [json]; Python's [None] is [JNull].
    - A JSON object is a [gmap string json]; the dictionaries the client
      builds itself and iterates over are insertion-ordered ([odict]).
    - An [await]able is a resumption ([coro]) whose only effect is an HTTP
      exchange; exceptions are the [Raise] leaves.
    - The HTTP peer, [json.loads] and the [ipaddress] constructors are
      external collaborators: Section variables. *)

From Stdlib Require Import ZArith String Ascii List Bool Lia DecimalString.
From stdpp Require Import gmap strings list fin_maps.
Import ListNotations.
Local Open Scope string_scope.
Local Open Scope Z_scope.
Local Open Scope list_scope.

(** ** Python strings *)

Module PyStr.

(** [s.startswith(p)] *)
Definition startswith (s p : string) : bool := String.prefix p s.

(** [p in s] for two strings: some suffix of [s] starts with [p]. *)
Fixpoint contains (p s : string) : bool :=
    String.prefix p s ||
    match s with
    | EmptyString => false
    | String _ s' => contains p s'
    end.

(** The scan of [str.replace] for a non-empty [old]: left to right, the
      matches do not overlap.  [skip] counts the characters of the current
      match that are still to be dropped. *)
Fixpoint replace_from (old new : string) (skip : nat) (s : string) : string :=
    match s with
    | EmptyString => EmptyString
    | String c s' =>
        match skip with
        | S k => replace_from old new k s'
        | O =>
            if String.prefix old s
            then String.append new (replace_from old new (Nat.pred (String.length old)) s')
            else String c (replace_from old new 0 s')
        end
    end.

(** [str.replace] with an empty [old] puts [new] around every character. *)
Fixpoint intersperse (new s : string) : string :=
    match s with
    | EmptyString => new
    | String c s' => String.append new (String c (intersperse new s'))
    end.

(** [s.replace(old, new)] *)
Definition replace (s old new : string) : string :=
    match old with
    | EmptyString => intersperse new s
    | String _ _ => replace_from old new 0 s
    end.

(** [s.split(sep)[0]] for a one-character separator: what comes before
      the first [sep], all of [s] when there is none. *)
Fixpoint split_head (sep : ascii) (s : string) : string :=
    match s with
    | EmptyString => EmptyString
    | String c s' => if Ascii.eqb c sep then EmptyString else String c (split_head sep s')
    end.

Definition lower_char (c : ascii) : ascii :=
    let n := nat_of_ascii c in
    if (Nat.leb 65 n && Nat.leb n 90)%bool then ascii_of_nat (n + 32) else c.

(** [s.lower()] on ASCII text. *)
Fixpoint lower (s : string) : string :=
    match s with
    | EmptyString => EmptyString
    | String c s' => String (lower_char c) (lower s')
    end.

(** [str(n)] for an [int]. *)
Definition of_int (n : Z) : string := NilZero.string_of_int (Z.to_int n).

End PyStr.

(** ** The model string of a device ([get_devices], the [model=] field)

    [v["deviceModel"].replace("vedge-", "").replace("cloud", "vbond")] *)

Definition normalize_model (m : string) : string :=
  PyStr.replace (PyStr.replace m "vedge-" "") "cloud" "vbond".


(** ** Values decoded from JSON

    [json.loads] yields [None], [bool], [int], [float], [str], [list] and
    [dict] with [str] keys.  No floating-point arithmetic is embedded: a
    [float] is carried as the numeral that denotes it. *)

#[warnings="-register-all"]
Inductive json : Type :=
| JNull
| JBool (b : bool)
| JInt (n : Z)
| JFloat (numeral : string)
| JStr (s : string)
| JList (l : list json)
| JDict (d : gmap string json).

(** A decoded JSON object. *)
Abbreviation record := (gmap string json).

(** ** Exceptions and results *)

Inductive exn : Type :=
| ConnectionError
| ValueError
| TypeError
| KeyError (k : string)
| IndexError
| AttributeError
| JSONDecodeError
| AddressValueError
| NetmaskValueError.

Inductive res (A : Type) : Type :=
| Ok (a : A)
| Err (e : exn).
Arguments Ok {A} a.
Arguments Err {A} e.

#[export] Instance res_ret : MRet res := λ A a, Ok a.

#[export] Instance res_fmap : FMap res := λ A B f r,
  match r with
  | Ok a => Ok (f a)
  | Err e => Err e
  end.

#[export] Instance res_bind : MBind res := λ A B f r,
  match r with
  | Ok a => f a
  | Err e => Err e
  end.

(** ** Python operators on decoded values *)

Module Py.

Definition is_digit_nonzero (c : ascii) : bool :=
  let n := nat_of_ascii c in (Nat.leb 49 n && Nat.leb n 57)%bool.

(** Whether the mantissa of a numeral (what precedes the exponent mark)
    has a non-zero digit; [NaN] and [Infinity] count as non-zero.  No
    rounding is embedded: a numeral so small that the float it denotes is
    zero still counts as non-zero. *)
Fixpoint numeral_nonzero (s : string) : bool :=
  match s with
  | EmptyString => false
  | String c s' =>
      if (Ascii.eqb c "e" || Ascii.eqb c "E")%bool then false
      else if (Ascii.eqb c "N" || Ascii.eqb c "I")%bool then true
      else (is_digit_nonzero c || numeral_nonzero s')%bool
  end.

(** [bool(v)]: [None], [False], zero, and the empty string, list and dict
    are false. *)
Definition truthy (v : json) : bool :=
  match v with
  | JNull => false
  | JBool b => b
  | JInt n => negb (n =? 0)
  | JFloat f => numeral_nonzero f
  | JStr s => negb (String.eqb s "")
  | JList l => match l with [] => false | _ :: _ => true end
  | JDict d => negb (Nat.eqb (size d) 0)
  end.

(** [bool(s)] for a [str]. *)
Definition str_truthy (s : string) : bool := negb (String.eqb s "").

(** [v == s] for a string literal [s]. *)
Definition eq_str (v : json) (s : string) : bool :=
  match v with
  | JStr t => String.eqb t s
  | _ => false
  end.

(** [v[k]] for a string [k]: only a [dict] can be subscripted by a [str]. *)
Definition getitem (v : json) (k : string) : res json :=
  match v with
  | JDict d => match d !! k with Some x => Ok x | None => Err (KeyError k) end
  | _ => Err TypeError
  end.

(** [d[k]] on a value known to be a [dict]. *)
Definition dict_getitem (d : record) (k : string) : res json :=
  match d !! k with Some x => Ok x | None => Err (KeyError k) end.

(** [k in d] *)
Definition has (d : record) (k : string) : bool :=
  match d !! k with Some _ => true | None => false end.

(** [v.get(k, default)] *)
Definition get_default (v : json) (k : string) (default : json) : res json :=
  match v with
  | JDict d => Ok (match d !! k with Some x => x | None => default end)
  | _ => Err AttributeError
  end.

(** [a | b] on two [dict]s: the entries of [b] win. *)
Definition union (a b : record) : record := b ∪ a.

Fixpoint chars (s : string) : list json :=
  match s with
  | EmptyString => []
  | String c s' => JStr (String c EmptyString) :: chars s'
  end.

(** What [for x in v] visits: the elements of a list, the characters of a
    string, the keys of a dict; anything else is not iterable. *)
Definition iter (v : json) : res (list json) :=
  match v with
  | JList l => Ok l
  | JStr s => Ok (chars s)
  | JDict d => Ok ((fun kv => JStr (fst kv)) <$> map_to_list d)
  | _ => Err TypeError
  end.

(** [v[0]] *)
Definition first (v : json) : res json :=
  match v with
  | JList (x :: _) => Ok x
  | JStr (String c _) => Ok (JStr (String c EmptyString))
  | JList [] | JStr EmptyString => Err IndexError
  | JDict _ => Err (KeyError "0")
  | _ => Err TypeError
  end.

End Py.

(** ** Dictionary keys

    What a decoded value hashes to as a [dict] key: [True] and [1] are the
    same key, a list or a dict is unhashable.  A float key is identified by
    its numeral (two numerals of one float, or of an integer, are kept
    apart). *)

Inductive key : Type :=
| KNone
| KInt (n : Z)
| KFloat (numeral : string)
| KStr (s : string).

#[export] Instance key_eq_dec : EqDecision key.
Proof. solve_decision. Defined.

Definition hashkey (v : json) : res key :=
  match v with
  | JNull => Ok KNone
  | JBool b => Ok (KInt (if b then 1 else 0))
  | JInt n => Ok (KInt n)
  | JFloat f => Ok (KFloat f)
  | JStr s => Ok (KStr s)
  | JList _ | JDict _ => Err TypeError
  end.

(** ** Insertion-ordered dictionaries

    The dictionaries the client builds and iterates over ([controllers],
    [vedges], [statuses], [merged], [devices]): a key keeps the position of
    its first insertion, an assignment to a present key replaces the value
    in place. *)

Module ODict.

Definition t (V : Type) : Type := list (key * V).

Definition empty {V} : t V := [].

(** [d.get(k)] *)
Fixpoint get {V} (d : t V) (k : key) : option V :=
  match d with
  | [] => None
  | (k', v) :: d' => if decide (k' = k) then Some v else get d' k
  end.

(** [d[k] = v] *)
Fixpoint set {V} (d : t V) (k : key) (v : V) : t V :=
  match d with
  | [] => [(k, v)]
  | (k', v') :: d' => if decide (k' = k) then (k, v) :: d' else (k', v') :: set d' k v
  end.

(** [list(d)] *)
Definition keys {V} (d : t V) : list key := fst <$> d.

(** [k in d] *)
Definition mem {V} (d : t V) (k : key) : bool :=
  match get d k with Some _ => true | None => false end.

(** [a | b]: a copy of [a] updated with the items of [b], in order. *)
Definition union {V} (a b : t V) : t V :=
  foldl (fun acc kv => set acc (fst kv) (snd kv)) a b.

End ODict.

(** ** HTTP exchanges

    What the client hands to [httpx] and what it reads back.  Of a response
    the client reads [status_code], [text] and [headers.get('Set-Cookie')].
    A peer is a function from requests to replies: asked the same thing
    again, it answers the same. *)

Inductive verb : Type := GET | POST.

(** An [ipaddress.IPv4Address] and an [ipaddress.IPv4Network]. *)
Record ipaddr : Type := IPv4 { ip_int : Z }.
Record ipnet : Type := IPv4Net { network_address : Z; prefixlen : Z }.

Record request : Type := Request {
  rq_verb : verb;
  rq_url : string;
  rq_headers : list (string * string);
  rq_params : list (string * option ipaddr);
  rq_form : list (string * string);
  rq_json : option json
}.

Record response : Type := Response {
  status_code : Z;
  text : string;
  set_cookie : option string
}.

(** The outcome of one exchange: [httpx.HTTPError] or a response. *)
Inductive reply : Type :=
| HTTPError
| Reply (r : response).

(** ** Awaitables

    A computation that returns, raises, or hands a request to the transport
    and resumes with the reply.  Every [await] of the client that suspends
    is such an exchange. *)

Inductive coro (A : Type) : Type :=
| Ret (a : A)
| Raise (e : exn)
| Await (rq : request) (k : reply → coro A).
Arguments Ret {A} a.
Arguments Raise {A} e.
Arguments Await {A} rq k.

Fixpoint coro_bind_def {A B} (f : A → coro B) (c : coro A) : coro B :=
  match c with
  | Ret a => f a
  | Raise e => Raise e
  | Await rq k => Await rq (fun rp => coro_bind_def f (k rp))
  end.

#[export] Instance coro_ret : MRet coro := λ A a, Ret a.
#[export] Instance coro_bind : MBind coro := λ A B f c, coro_bind_def f c.

Definition of_res {A} (r : res A) : coro A :=
  match r with
  | Ok a => Ret a
  | Err e => Raise e
  end.

(** One exchange, with the client's
    [try: ... except httpx.HTTPError as e: raise ConnectionError(...)]. *)
Definition exchange (rq : request) : coro response :=
  Await rq (fun rp =>
    match rp with
    | HTTPError => Raise ConnectionError
    | Reply r => Ret r
    end).

(** Running an awaitable to completion against a peer [net], one exchange
    after the other: its outcome and the requests it sent, oldest first. *)
Fixpoint run {A} (net : request → reply) (c : coro A) : res A * list request :=
  match c with
  | Ret a => (Ok a, [])
  | Raise e => (Err e, [])
  | Await rq k => let '(r, sent) := run net (k (net rq)) in (r, rq :: sent)
  end.

Definition outcome {A} (net : request → reply) (c : coro A) : res A := fst (run net c).
Definition sent {A} (net : request → reply) (c : coro A) : list request := snd (run net c).

(** ** The typed records *)

Record DeviceData : Type := mkDeviceData {
  uuid : json;
  persona : json;
  system_ip : option ipaddr;
  hostname : json;
  site_id : json;
  model : json;
  version : json;
  template_id : json;
  template_name : json;
  is_managed : bool;
  is_valid : bool;
  is_sync : bool;
  is_reachable : bool;
  raw_data : record;
  latitude : json;
  longitude : json
}.

Record InterfaceData : Type := mkInterfaceData {
  if_name : json;
  if_desc : json;
  if_type : json;
  if_mac : json;
  vpn_id : json;
  ip : ipaddr;
  network : ipnet;
  if_raw_data : json
}.

Record VrrpData : Type := mkVrrpData {
  vrrp_if_name : json;
  group : json;
  priority : json;
  preempt : json;
  master : bool;
  vrrp_ip : ipaddr;
  vrrp_raw_data : json
}.

Record TlocData : Type := mkTlocData {
  tloc_site_id : json;
  tloc_system_ip : ipaddr;
  private_ip : ipaddr;
  public_ip : ipaddr;
  preference : json;
  weight : json;
  encapsulation : json;
  color : string;
  tloc_raw_data : json
}.

(** ** The client object *)

Record Vmanage : Type := mkVmanage {
  base_url : string;
  semaphore : Z;
  verify : bool;
  connected : bool;
  headers : option (list (string * string));
  session : bool
}.

Definition set_headers (self : Vmanage) (h : list (string * string)) : Vmanage :=
  mkVmanage (base_url self) (semaphore self) (verify self) (connected self) (Some h) (session self).

Definition set_base_url (self : Vmanage) (u : string) : Vmanage :=
  mkVmanage u (semaphore self) (verify self) (connected self) (headers self) (session self).

Definition set_connected (self : Vmanage) (b : bool) : Vmanage :=
  mkVmanage (base_url self) (semaphore self) (verify self) b (headers self) (session self).

Definition set_session (self : Vmanage) (b : bool) : Vmanage :=
  mkVmanage (base_url self) (semaphore self) (verify self) (connected self) (headers self) b.

(** [self.headers], an [AttributeError] while the attribute is unset. *)
Definition get_headers (self : Vmanage) : res (list (string * string)) :=
  match headers self with
  | Some h => Ok h
  | None => Err AttributeError
  end.

(** [self.session], an [AttributeError] while the attribute is unset. *)
Definition get_session (self : Vmanage) : res unit :=
  if session self then Ok tt else Err AttributeError.

(** *** [Vmanage.__login] *)

Definition __login (self : Vmanage) (username password : string) : coro (bool * Vmanage) :=
  let headers := [("Content-Type", "application/x-www-form-urlencoded")] in
  let data := [("j_username", username); ("j_password", password)] in
  response ← exchange (Request POST (String.append (base_url self) "/j_security_check") headers [] data None);
  if ((status_code response =? 200) && negb (PyStr.startswith (text response) "<html>"))%bool then
    match set_cookie response with
    | None => Raise AttributeError
    | Some sc =>
        let cookie := PyStr.split_head ";" sc in
        let hdrs := [("Content-Type", "application/json"); ("Cookie", cookie)] in
        let self := set_headers self hdrs in
        response ← exchange (Request GET (String.append (base_url self) "/dataservice/client/token") hdrs [] [] None);
        if status_code response =? 200 then
          let self := set_headers self (hdrs ++ [("X-XSRF-TOKEN", text response)]) in
          let self := set_base_url self (String.append (base_url self) "/dataservice") in
          mret (true, self)
        else mret (false, self)
    end
  else mret (false, self).

(** *** [Vmanage.__init__]

    [verify=False], [port=443] and [semaphore=40] are the defaults of the
    signature; [None] stands for an argument left out.  The [debug] argument
    is not read. *)

Definition __init__ (host username password : string) (verify : option bool)
  (port semaphore : option Z) : coro Vmanage :=
  let self :=
    mkVmanage
      (String.append "https://" (String.append host (String.append ":" (PyStr.of_int (default 443 port)))))
      (default 40 semaphore) (default false verify) false None false in
  r ← __login self username password;
  let self := set_connected (snd r) (fst r) in
  mret (if connected self then set_session self true else self).

(** *** [Vmanage.__get] and [Vmanage.__post] *)

Definition __get (self : Vmanage) (path : string) (params : list (string * option ipaddr))
  : coro (option string) :=
  if negb (connected self) then mret None
  else
    _ ← of_res (get_session self);
    hdrs ← of_res (get_headers self);
    response ← exchange (Request GET (String.append (base_url self) path) hdrs params [] None);
    mret (if status_code response =? 200 then Some (text response) else None).

Definition __post (self : Vmanage) (path : string) (params : list (string * option ipaddr))
  (data : json) : coro (option string) :=
  if negb (connected self) then mret None
  else
    _ ← of_res (get_session self);
    hdrs ← of_res (get_headers self);
    response ← exchange (Request POST (String.append (base_url self) path) hdrs params [] (Some data));
    mret (if status_code response =? 200 then Some (text response) else None).

(** ** The event loop of [get_all]

    [asyncio.gather] over the wrappers [sem_task(task) for task in tasks],
    under one [asyncio.Semaphore].  A wrapper [sem_task] is [Waiting] until it has
    taken a permit, [Running] while it awaits its task inside
    [async with semaphore], and [Finished] once it has left the block, which
    gives the permit back whether the task returned or raised.  The loop is
    driven by a schedule: the list of wrappers it resumes, in order.  Any
    order is allowed, so every completion order is covered. *)

Inductive task (A : Type) : Type :=
| Waiting (c : coro A)
| Running (c : coro A)
| Finished (r : res A).
Arguments Waiting {A} c.
Arguments Running {A} c.
Arguments Finished {A} r.

Record loop (A : Type) : Type := mkLoop {
  tasks : list (task A);
  sem_value : Z;
  raised : option exn;
  wire : list request
}.
Arguments mkLoop {A}.
Arguments tasks {A}.
Arguments sem_value {A}.
Arguments raised {A}.
Arguments wire {A}.

Definition start {A} (limit : Z) (ops : list (coro A)) : loop A :=
  mkLoop (Waiting <$> ops) limit None [].

(** Resuming wrapper [i]. *)
Definition step {A} (net : request → reply) (st : loop A) (i : nat) : loop A :=
  match tasks st !! i with
  | Some (Waiting c) =>
      (* [Semaphore.acquire]: proceeds only while the value is positive *)
      if 0 <? sem_value st
      then mkLoop (<[i := Running c]> (tasks st)) (sem_value st - 1) (raised st) (wire st)
      else st
  | Some (Running (Await rq k)) =>
      mkLoop (<[i := Running (k (net rq))]> (tasks st)) (sem_value st) (raised st) (wire st ++ [rq])
  | Some (Running (Ret a)) =>
      mkLoop (<[i := Finished (Ok a)]> (tasks st)) (sem_value st + 1) (raised st) (wire st)
  | Some (Running (Raise e)) =>
      mkLoop (<[i := Finished (Err e)]> (tasks st)) (sem_value st + 1)
             (match raised st with Some e0 => Some e0 | None => Some e end) (wire st)
  | Some (Finished _) | None => st
  end.

Definition steps {A} (net : request → reply) (st : loop A) (sched : list nat) : loop A :=
  foldl (step net) st sched.

Definition returned {A} (t : task A) : option A :=
  match t with
  | Finished (Ok a) => Some a
  | _ => None
  end.

(** What the awaiter of [gather] has got: the first exception raised by a
    child, else the list of all results once every child has returned,
    else nothing yet. *)
Definition gather {A} (st : loop A) : option (res (list A)) :=
  match raised st with
  | Some e => Some (Err e)
  | None => Ok <$> mapM returned (tasks st)
  end.

(** The wrappers that hold a permit. *)
Definition is_running {A} (t : task A) : bool :=
  match t with
  | Running _ => true
  | _ => false
  end.

Definition in_flight {A} (st : loop A) : nat :=
  length (List.filter is_running (tasks st)).

(** [Vmanage.get_all]: [asyncio.Semaphore] rejects a negative value. *)
Definition get_all {A} (net : request → reply) (self : Vmanage) (ops : list (coro A))
  (sched : list nat) : option (res (list A)) :=
  if semaphore self <? 0 then Some (Err ValueError)
  else gather (steps net (start (semaphore self) ops) sched).

(** A loop over a list that stops at the first exception. *)
Fixpoint fold_res {A S} (f : S → A → res S) (s : S) (l : list A) : res S :=
  match l with
  | [] => Ok s
  | x :: l' => s' ← f s x; fold_res f s' l'
  end.

(** ** The accessors

    [json.loads] and the two [ipaddress] constructors are taken as given:
    [loads] answers [None] for a [JSONDecodeError]; [IPv4Network a m] stands
    for [IPv4Network(f'{a}/{m}', strict=False)]. *)

Section Client.

Variable loads : string → option json.
Variable IPv4Address : json → res ipaddr.
Variable IPv4Network : json → json → res ipnet.

(** [json.loads(response)['data']] *)
Definition unwrap (response : string) : res json :=
  match loads response with
  | Some v => Py.getitem v "data"
  | None => Err JSONDecodeError
  end.

(** *** [Vmanage.get] *)
Definition get (self : Vmanage) (endpoint : string) (params : list (string * option ipaddr))
  : coro json :=
  response ← __get self endpoint params;
  match response with
  | Some body =>
      if (Py.str_truthy body && PyStr.contains "data" body)%bool
      then of_res (unwrap body)
      else mret JNull
  | None => mret JNull
  end.

(** *** [Vmanage.post] *)
Definition post (self : Vmanage) (endpoint : string) (params : list (string * option ipaddr))
  (data : json) : coro json :=
  response ← __post self endpoint params data;
  match response with
  | Some body => if Py.str_truthy body then of_res (unwrap body) else mret JNull
  | None => mret JNull
  end.

(** *** [Vmanage.get_devices] *)

(** [{ e["uuid"]: e for e in result }] *)
Definition index_by_uuid (result : json) : res (ODict.t record) :=
  l ← Py.iter result;
  fold_res (fun d e =>
    u ← Py.getitem e "uuid";
    k ← hashkey u;
    match e with
    | JDict r => Ok (ODict.set d k r)
    | _ => Err TypeError
    end) ODict.empty l.

(** The body of [for e in merged: if e in statuses: ...]. *)
Definition overlay (statuses merged : ODict.t record) (e : key) : ODict.t record :=
  if ODict.mem statuses e then
    match ODict.get merged e, ODict.get statuses e with
    | Some r, Some s => ODict.set merged e (Py.union r s)
    | _, _ => merged
    end
  else merged.

Definition merge (controllers vedges statuses : ODict.t record) : ODict.t record :=
  let merged := ODict.union controllers vedges in
  foldl (overlay statuses) merged (ODict.keys merged).

(** [v[k] if k in v else default] *)
Definition field_or (v : record) (k : string) (default : json) : json :=
  match v !! k with
  | Some x => x
  | None => default
  end.

(** [True if k in v and v[k] == s else False] *)
Definition flag_is (v : record) (k s : string) : bool :=
  match v !! k with
  | Some x => Py.eq_str x s
  | None => false
  end.

(** The [DeviceData(...)] call; the arguments are evaluated in the order
    they are written. *)
Definition parse_device (v : record) : res DeviceData :=
  uuid ← Py.dict_getitem v "uuid";
  persona ← Py.dict_getitem v "personality";
  system_ip ← match v !! "system-ip" with
              | Some a => Some <$> IPv4Address a
              | None => Ok None
              end;
  let hostname := field_or v "host-name" JNull in
  let site_id := field_or v "site-id" JNull in
  model ← match v !! "deviceModel" with
          | Some (JStr m) => Ok (JStr (normalize_model m))
          | Some _ => Err AttributeError
          | None => Ok JNull
          end;
  let version := field_or v "version" JNull in
  let template_id := field_or v "templateId" JNull in
  let template_name := field_or v "template" JNull in
  let is_managed := match v !! "managed-by" with
                    | Some x => negb (Py.eq_str x "Unmanaged")
                    | None => false
                    end in
  validity ← Py.dict_getitem v "validity";
  let is_valid := Py.eq_str validity "valid" in
  let is_sync := flag_is v "configStatusMessage" "In Sync" in
  let is_reachable := flag_is v "reachability" "reachable" in
  let latitude := field_or v "latitude" (JFloat "0.0") in
  let longitude := field_or v "longitude" (JFloat "0.0") in
  Ok (mkDeviceData uuid persona system_ip hostname site_id model version template_id
        template_name is_managed is_valid is_sync is_reachable v latitude longitude).

(** [for i, (k,v) in enumerate(merged.items()): devices[v["uuid"]] = ...] *)
Definition parse_devices (merged : ODict.t record) : res (ODict.t DeviceData) :=
  fold_res (fun devices kv =>
    let v := snd kv in
    dev ← parse_device v;
    u ← Py.dict_getitem v "uuid";
    k ← hashkey u;
    Ok (ODict.set devices k dev)) ODict.empty merged.

(** What [get_devices] does with the three results of [get_all]. *)
Definition devices_of (results : list json) : res (ODict.t DeviceData) :=
  match results with
  | r0 :: r1 :: r2 :: _ =>
      controllers ← index_by_uuid r0;
      vedges ← index_by_uuid r1;
      statuses ← index_by_uuid r2;
      parse_devices (merge controllers vedges statuses)
  | _ => Err IndexError
  end.

Definition device_tasks (self : Vmanage) : list (coro json) :=
  [get self "/system/device/controllers" [];
   get self "/system/device/vedges" [];
   get self "/device" []].

(** [get_devices] awaits [get_all]: under a schedule that does not let the
    batch finish it has no outcome yet. *)
Definition get_devices (net : request → reply) (self : Vmanage) (sched : list nat)
  : option (res (ODict.t DeviceData)) :=
  match get_all net self (device_tasks self) sched with
  | Some (Ok results) => Some (devices_of results)
  | Some (Err e) => Some (Err e)
  | None => None
  end.

(** *** [Vmanage.get_device_interfaces] *)

Definition parse_interface (raw_interface : json) : res InterfaceData :=
  if_name ← Py.getitem raw_interface "ifname";
  if_desc ← Py.get_default raw_interface "description" (JStr "N/A");
  if_type ← Py.getitem raw_interface "interface-type";
  if_mac ← Py.getitem raw_interface "hwaddr";
  vpn_id ← Py.getitem raw_interface "vpn-id";
  a ← Py.getitem raw_interface "ip-address";
  ip ← IPv4Address a;
  a ← Py.getitem raw_interface "ip-address";
  m ← Py.getitem raw_interface "ipv4-subnet-mask";
  network ← IPv4Network a m;
  Ok (mkInterfaceData if_name if_desc if_type if_mac vpn_id ip network raw_interface).

Definition get_device_interfaces (self : Vmanage) (device : DeviceData)
  : coro (option (list InterfaceData)) :=
  raw_data ← get self "/device/interface/synced" [("deviceId", system_ip device)];
  if negb (Py.truthy raw_data) then mret None
  else of_res (l ← Py.iter raw_data; Some <$> mapM parse_interface l).

(** *** [Vmanage.get_device_tlocs] *)

Definition parse_tloc (tloc : json) : res TlocData :=
  site_id ← Py.getitem tloc "site-id";
  a ← Py.getitem tloc "ip";
  system_ip ← IPv4Address a;
  a ← Py.getitem tloc "tloc-private-ip";
  private_ip ← IPv4Address a;
  a ← Py.getitem tloc "tloc-public-ip";
  public_ip ← IPv4Address a;
  preference ← Py.getitem tloc "preference";
  weight ← Py.getitem tloc "weight";
  encapsulation ← Py.getitem tloc "encap";
  c ← Py.getitem tloc "color";
  color ← match c with
          | JStr s => Ok (PyStr.lower s)
          | _ => Err AttributeError
          end;
  Ok (mkTlocData site_id system_ip private_ip public_ip preference weight encapsulation
        color tloc).

Definition get_device_tlocs (self : Vmanage) (device : DeviceData)
  : coro (option (list TlocData)) :=
  raw_data ← get self "/device/omp/tlocs/advertised" [("deviceId", system_ip device)];
  if negb (Py.truthy raw_data) then mret None
  else of_res (l ← Py.iter raw_data; Some <$> mapM parse_tloc l).

(** *** [Vmanage.get_device_vrrp] *)

Definition parse_vrrp (vip : json) : res VrrpData :=
  state ← Py.getitem vip "vrrp-state";
  let master := if Py.eq_str state "proto-state-master" then true else false in
  if_name ← Py.getitem vip "if-name";
  a ← Py.getitem vip "virtual-ip";
  ip ← IPv4Address a;
  group ← Py.getitem vip "group-id";
  priority ← Py.getitem vip "priority";
  preempt ← Py.getitem vip "preempt";
  Ok (mkVrrpData if_name group priority preempt master ip vip).

Definition get_device_vrrp (self : Vmanage) (device : DeviceData)
  : coro (option (list VrrpData)) :=
  raw_data ← get self "/device/vrrp" [("deviceId", system_ip device)];
  if negb (Py.truthy raw_data) then mret None
  else of_res (l ← Py.iter raw_data; Some <$> mapM parse_vrrp l).

(** *** [Vmanage.get_device_template_values] *)

Definition template_payload (device : DeviceData) : json :=
  JDict (list_to_map
    [("templateId", template_id device);
     ("deviceIds", JList [uuid device]);
     ("isEdited", JBool false);
     ("isMasterEdited", JBool false)]).

Definition get_device_template_values (self : Vmanage) (device : DeviceData) : coro json :=
  if (negb (Py.truthy (uuid device)) || negb (Py.truthy (template_id device)))%bool
  then mret JNull
  else
    raw_data ← post self "/template/device/config/input" [] (template_payload device);
    (* try: return raw_data[0] / except: return None *)
    mret (match Py.first raw_data with Ok x => x | Err _ => JNull end).

End Client.

(** ** Reference collaborators

    Executable stand-ins for [json.loads] and the [ipaddress] constructors,
    used to run the client on concrete traffic.  The general results below
    hold for every [loads], [IPv4Address] and [IPv4Network]. *)

Module Json.

(** The quotation mark. *)
Definition dq : ascii := "034"%char.

(** [quote s] is [s] between quotation marks. *)
Definition quote (s : string) : string := String dq (String.append s (String dq EmptyString)).

Definition is_ws (c : ascii) : bool :=
  (Ascii.eqb c " " || Ascii.eqb c "009" || Ascii.eqb c "010" || Ascii.eqb c "013")%bool.

Definition is_digit (c : ascii) : bool :=
  let n := nat_of_ascii c in (Nat.leb 48 n && Nat.leb n 57)%bool.

Fixpoint skip_ws (s : string) : string :=
  match s with
  | String c s' => if is_ws c then skip_ws s' else s
  | EmptyString => s
  end.

(** The characters of a string literal up to its closing quotation mark,
    and what follows.  The escape [\u] is outside the fragment. *)
Fixpoint scan_string (s : string) : option (string * string) :=
  match s with
  | EmptyString => None
  | String c s' =>
      if Ascii.eqb c dq then Some (EmptyString, s')
      else if Ascii.eqb c "\" then
        match s' with
        | String e s'' =>
            let unescaped :=
              if Ascii.eqb e dq then Some dq
              else if Ascii.eqb e "\" then Some "\"%char
              else if Ascii.eqb e "/" then Some "/"%char
              else if Ascii.eqb e "b" then Some "008"%char
              else if Ascii.eqb e "f" then Some "012"%char
              else if Ascii.eqb e "n" then Some "010"%char
              else if Ascii.eqb e "r" then Some "013"%char
              else if Ascii.eqb e "t" then Some "009"%char
              else None in
            match unescaped, scan_string s'' with
            | Some u, Some (body, rest) => Some (String u body, rest)
            | _, _ => None
            end
        | EmptyString => None
        end
      else if Nat.ltb (nat_of_ascii c) 32 then None
      else
        match scan_string s' with
        | Some (body, rest) => Some (String c body, rest)
        | None => None
        end
  end.

(** The longest prefix of digits, and what follows. *)
Fixpoint span_digits (s : string) : string * string :=
  match s with
  | String c s' =>
      if is_digit c then let '(d, r) := span_digits s' in (String c d, r) else (EmptyString, s)
  | EmptyString => (EmptyString, EmptyString)
  end.

Definition digits_value (d : string) : Z :=
  fold_left (fun acc c => 10 * acc + Z.of_nat (nat_of_ascii c - 48))
            (list_ascii_of_string d) 0.

(** An optional fraction [.digits]: the text consumed and what follows. *)
Definition scan_frac (s : string) : option (string * string) :=
  match s with
  | String "." s' =>
      match span_digits s' with
      | (EmptyString, _) => None
      | (d, r) => Some (String "." d, r)
      end
  | _ => Some (EmptyString, s)
  end.

(** An optional exponent [e], [E] with a sign and digits. *)
Definition scan_exp (s : string) : option (string * string) :=
  match s with
  | String c s' =>
      if (Ascii.eqb c "e" || Ascii.eqb c "E")%bool then
        let '(sign, s'') :=
          match s' with
          | String g t => if (Ascii.eqb g "+" || Ascii.eqb g "-")%bool
                          then (String g EmptyString, t) else (EmptyString, s')
          | EmptyString => (EmptyString, s')
          end in
        match span_digits s'' with
        | (EmptyString, _) => None
        | (d, r) => Some (String c (String.append sign d), r)
        end
      else Some (EmptyString, s)
  | EmptyString => Some (EmptyString, s)
  end.

(** A number: an [int] when it has neither fraction nor exponent. *)
Definition scan_number (s : string) : option (json * string) :=
  let '(neg, s1) :=
    match s with
    | String "-" t => (true, t)
    | _ => (false, s)
    end in
  let '(d, s2) := span_digits s1 in
  match d with
  | EmptyString => None
  | String c0 more =>
      if (Ascii.eqb c0 "0" && negb (String.eqb more ""))%bool then None
      else
        match scan_frac s2 with
        | None => None
        | Some (f, s3) =>
            match scan_exp s3 with
            | None => None
            | Some (e, s4) =>
                if (String.eqb f "" && String.eqb e "")%bool
                then Some (JInt (if neg then - digits_value d else digits_value d), s4)
                else Some (JFloat (String.append (if neg then "-" else "")
                                     (String.append d (String.append f e))), s4)
            end
        end
  end.

(** [drop p s] is what follows [p] in [s] when [s] starts with [p]. *)
Fixpoint drop (p s : string) : option string :=
  match p, s with
  | EmptyString, _ => Some s
  | String a p', String b s' => if Ascii.eqb a b then drop p' s' else None
  | String _ _, EmptyString => None
  end.

Definition scan_literal (s : string) : option (json * string) :=
  match drop "true" s, drop "false" s, drop "null" s with
  | Some r, _, _ => Some (JBool true, r)
  | _, Some r, _ => Some (JBool false, r)
  | _, _, Some r => Some (JNull, r)
  | _, _, _ =>
      match drop "NaN" s, drop "Infinity" s, drop "-Infinity" s with
      | Some r, _, _ => Some (JFloat "NaN", r)
      | _, Some r, _ => Some (JFloat "Infinity", r)
      | _, _, Some r => Some (JFloat "-Infinity", r)
      | _, _, _ => scan_number s
      end
  end.

(** What the parser is reading: a value, the rest of an array, the rest of
    an object. *)
Inductive mode : Type :=
| MValue
| MElems (acc : list json)
| MMembers (acc : record).

Fixpoint parse (fuel : nat) (m : mode) (s : string) : option (json * string) :=
  match fuel with
  | O => None
  | S fuel =>
      match m with
      | MValue =>
          match skip_ws s with
          | String c rest =>
              if Ascii.eqb c "{" then
                match skip_ws rest with
                | String "}" r => Some (JDict ∅, r)
                | _ => parse fuel (MMembers ∅) rest
                end
              else if Ascii.eqb c "[" then
                match skip_ws rest with
                | String "]" r => Some (JList [], r)
                | _ => parse fuel (MElems []) rest
                end
              else if Ascii.eqb c dq then
                match scan_string rest with
                | Some (body, r) => Some (JStr body, r)
                | None => None
                end
              else scan_literal (String c rest)
          | EmptyString => None
          end
      | MElems acc =>
          match parse fuel MValue s with
          | Some (v, r) =>
              match skip_ws r with
              | String "," r' => parse fuel (MElems (acc ++ [v])) r'
              | String "]" r' => Some (JList (acc ++ [v]), r')
              | _ => None
              end
          | None => None
          end
      | MMembers acc =>
          match skip_ws s with
          | String c r =>
              if Ascii.eqb c dq then
                match scan_string r with
                | Some (k, r1) =>
                    match skip_ws r1 with
                    | String ":" r2 =>
                        match parse fuel MValue r2 with
                        | Some (v, r3) =>
                            match skip_ws r3 with
                            | String "," r4 => parse fuel (MMembers (<[k := v]> acc)) r4
                            | String "}" r4 => Some (JDict (<[k := v]> acc), r4)
                            | _ => None
                            end
                        | None => None
                        end
                    | _ => None
                    end
                | None => None
                end
              else None
          | EmptyString => None
          end
      end
  end.

(** [json.loads] on the fragment without [\u] escapes. *)
Definition loads (s : string) : option json :=
  match parse (2 * String.length s + 2) MValue s with
  | Some (v, r) => match skip_ws r with EmptyString => Some v | _ => None end
  | None => None
  end.

End Json.

Module IPRef.

(** [s.split('.')] *)
Fixpoint split_dots (cur s : string) : list string :=
  match s with
  | EmptyString => [cur]
  | String c s' =>
      if Ascii.eqb c "."
      then cur :: split_dots EmptyString s'
      else split_dots (String.append cur (String c EmptyString)) s'
  end.

Fixpoint all_digits (s : string) : bool :=
  match s with
  | EmptyString => true
  | String c s' => (Json.is_digit c && all_digits s')%bool
  end.

(** One octet: one to three decimal digits, no leading zero, at most 255. *)
Definition parse_octet (s : string) : option Z :=
  match s with
  | EmptyString => None
  | String c more =>
      if negb (all_digits s) then None
      else if Nat.ltb 3 (String.length s) then None
      else if (Ascii.eqb c "0" && negb (String.eqb more ""))%bool then None
      else if 255 <? Json.digits_value s then None
      else Some (Json.digits_value s)
  end.

Definition ip_int_from_string (s : string) : option Z :=
  match split_dots EmptyString s with
  | [a; b; c; d] =>
      match parse_octet a, parse_octet b, parse_octet c, parse_octet d with
      | Some a, Some b, Some c, Some d => Some (((a * 256 + b) * 256 + c) * 256 + d)
      | _, _, _, _ => None
      end
  | _ => None
  end.

(** [ipaddress.IPv4Address(v)] *)
Definition IPv4Address (v : json) : res ipaddr :=
  match v with
  | JStr s =>
      match ip_int_from_string s with
      | Some n => Ok (IPv4 n)
      | None => Err AddressValueError
      end
  | JInt n => if ((0 <=? n) && (n <? 2 ^ 32))%bool then Ok (IPv4 n) else Err AddressValueError
  | JBool b => Ok (IPv4 (if b then 1 else 0))
  | _ => Err AddressValueError
  end.

(** The prefix length [p] of a mask made of [p] ones followed by zeros. *)
Definition prefix_from_ip_int (m : Z) : option Z :=
  List.find (fun p => m =? (2 ^ p - 1) * 2 ^ (32 - p)) (Z.of_nat <$> seq 0 33).

(** The prefix length denoted by what follows the slash: a decimal prefix
    length, a netmask or a host mask. *)
Definition prefix_from_string (s : string) : option Z :=
  if (negb (String.eqb s "") && all_digits s && (Json.digits_value s <=? 32))%bool
  then Some (Json.digits_value s)
  else
    match ip_int_from_string s with
    | Some m =>
        match prefix_from_ip_int m with
        | Some p => Some p
        | None => prefix_from_ip_int (Z.lxor m (2 ^ 32 - 1))
        end
    | None => None
    end.

(** [ipaddress.IPv4Network(f'{a}/{m}', strict=False)] for the address and
    mask fields of an interface: the host bits of the address are masked
    off.  Of a list or dict mask only the failure is modelled, not which of
    the two address errors it is. *)
Definition IPv4Network (a m : json) : res ipnet :=
  let mask_text :=
    match m with
    | JStr s => s
    | JInt n => PyStr.of_int n
    | _ => "None"
    end in
  match a with
  | JStr s =>
      if (PyStr.contains "/" s || PyStr.contains "/" mask_text)%bool then Err AddressValueError
      else
        match ip_int_from_string s with
        | None => Err AddressValueError
        | Some n =>
            match prefix_from_string mask_text with
            | None => Err NetmaskValueError
            | Some p => Ok (IPv4Net (Z.land n ((2 ^ p - 1) * 2 ^ (32 - p))) p)
            end
        end
  | _ => Err AddressValueError
  end.

End IPRef.

(** * Specification vocabulary

    The predicates the facts below are stated with. *)

Section LoopSpec.

Context {A : Type} (net : request → reply).

(** What a wrapper has to do with the operation it was made from: it still
    is that operation, or it is what is left of it, or it holds its
    outcome. *)
Definition tracks (op : coro A) (t : task A) : Prop :=
  match t with
  | Waiting c => c = op
  | Running c => outcome net c = outcome net op
  | Finished r => r = outcome net op
  end.

(** The invariant of the loop: every wrapper tracks its own operation, the
    permits handed out and the permits left add up to the limit, and an
    exception recorded for the awaiter was raised by one of the
    operations. *)
Record loop_inv (limit : Z) (ops : list (coro A)) (st : loop A) : Prop := {
  inv_tracks : Forall2 tracks ops (tasks st);
  inv_permits : sem_value st + Z.of_nat (in_flight st) = limit;
  inv_nonneg : 0 ≤ sem_value st;
  inv_raised : ∀ e, raised st = Some e → ∃ op, op ∈ ops ∧ outcome net op = Err e
}.

(** The exchanges an awaitable goes through against [net]. *)
Fixpoint awaits (c : coro A) : nat :=
  match c with
  | Ret _ | Raise _ => 0%nat
  | Await rq k => S (awaits (k (net rq)))
  end.

End LoopSpec.

Arguments loop_inv {A} net limit ops st.

(** The requests a wrapper has still to send. *)
Definition unsent {A} (net : request → reply) (t : task A) : list request :=
  match t with
  | Waiting c | Running c => sent net c
  | Finished _ => []
  end.

(** The two requests of the handshake. *)
Definition login_request (base username password : string) : request :=
  Request POST (String.append base "/j_security_check")
    [("Content-Type", "application/x-www-form-urlencoded")] []
    [("j_username", username); ("j_password", password)] None.

Definition token_request (base cookie : string) : request :=
  Request GET (String.append base "/dataservice/client/token")
    [("Content-Type", "application/json"); ("Cookie", cookie)] [] [] None.

Definition base_of (host : string) (port : option Z) : string :=
  String.append "https://" (String.append host (String.append ":" (PyStr.of_int (default 443 port)))).

(** Every record sits under the key its own [uuid] hashes to. *)
Definition self_keyed (d : ODict.t record) : Prop :=
  Forall (fun kv => ∃ u, snd kv !! "uuid" = Some u ∧ hashkey u = Ok (fst kv)) d.

(** The status overlay of one record. *)
Definition patch (statuses : ODict.t record) (k : key) (r : record) : record :=
  match ODict.get statuses k with
  | Some s => Py.union r s
  | None => r
  end.

(** What "not available" means for a normaliser built on a fetch: it is
    returned exactly when the fetch yields a value that is false, an empty
    list among them, and an empty list is never returned. *)
Definition absent_iff_falsy {B} (net : request → reply) (fetch : coro json)
  (normaliser : coro (option (list B))) : Prop :=
  (outcome net normaliser = Ok None ↔
   ∃ raw, outcome net fetch = Ok raw ∧ Py.truthy raw = false) ∧
  (outcome net fetch = Ok (JList []) → outcome net normaliser = Ok None) ∧
  outcome net normaliser ≠ Ok (Some []).

(** What a normaliser built on a fetch and an element parser returns and
    raises: the records of the elements, in order, when the payload is
    true and every element parses; the exception of the fetch, of the
    iteration or of an element otherwise. *)
Definition parses_all {B} (net : request → reply) (fetch : coro json)
  (parse : json → res B) (normaliser : coro (option (list B))) : Prop :=
  (∀ xs, outcome net normaliser = Ok (Some xs) ↔
         ∃ payload l, outcome net fetch = Ok payload ∧ Py.truthy payload = true ∧
                      Py.iter payload = Ok l ∧
                      Forall2 (fun raw x => parse raw = Ok x) l xs) ∧
  (∀ e, outcome net fetch = Err e → outcome net normaliser = Err e) ∧
  (∀ payload e, outcome net fetch = Ok payload → Py.truthy payload = true →
                Py.iter payload = Err e → outcome net normaliser = Err e) ∧
  (∀ payload l raw e, outcome net fetch = Ok payload → Py.truthy payload = true →
                      Py.iter payload = Ok l → raw ∈ l → parse raw = Err e →
                      ∃ e', outcome net normaliser = Err e').

(** * Concrete traffic

    Peers, clients and schedules on which the client is run below. *)

Module Demo.

(** A peer at [https://vmanage:443]: its answer to the login form, to the
    token request, and to everything else. *)
Definition peer (login token : reply) (api : request → reply) : request → reply :=
  fun rq =>
    if String.eqb (rq_url rq) "https://vmanage:443/j_security_check" then login
    else if String.eqb (rq_url rq) "https://vmanage:443/dataservice/client/token" then token
    else api rq.

(** Answers 200 with the body listed for the URL, 404 otherwise. *)
Definition route (table : list (string * string)) : request → reply :=
  fun rq =>
    match List.find (fun e => String.eqb (fst e) (rq_url rq)) table with
    | Some e => Reply (Response 200 (snd e) None)
    | None => Reply (Response 404 "" None)
    end.

Definition accepted : reply :=
  Reply (Response 200 "" (Some "JSESSIONID=abc123; Path=/; Secure; HttpOnly")).

Definition rejected : reply :=
  Reply (Response 200 "<html><body>Invalid User or Password</body></html>" None).

Definition token : reply := Reply (Response 200 "7F3A9C" None).

(** The client after a successful handshake with [peer accepted token]. *)
Definition client : Vmanage :=
  mkVmanage "https://vmanage:443/dataservice" 40 false true
    (Some [("Content-Type", "application/json"); ("Cookie", "JSESSIONID=abc123");
           ("X-XSRF-TOKEN", "7F3A9C")])
    true.

Fixpoint join (sep : string) (l : list string) : string :=
  match l with
  | [] => EmptyString
  | [x] => x
  | x :: l' => String.append x (String.append sep (join sep l'))
  end.

(** A JSON object with string values, as text. *)
Definition object (fields : list (string * string)) : string :=
  String.append "{"
    (String.append
       (join ", " ((fun kv => String.append (Json.quote (fst kv))
                                (String.append ": " (Json.quote (snd kv)))) <$> fields))
       "}").

(** The envelope around a list of items, as text. *)
Definition envelope (items : list string) : string :=
  String.append "{"
    (String.append (Json.quote "data")
       (String.append ": [" (String.append (join ", " items) "]}"))).

End Demo.

(** Two operations under a limit of two, the second finishing first. *)
Definition demo_peer : request → reply := fun _ => Reply (Response 200 "" None).

Definition demo_ops : list (coro Z) :=
  [ _ ← exchange (Request GET "/a" [] [] [] None); mret 10;
    mret 20 ].

Definition demo_client (limit : Z) : Vmanage := mkVmanage "" limit false false None false.

(** Inventory traffic: controller [A], edge [B], and a status record for
    [A] that carries [reachability] and [system-ip]. *)
Definition inventory_peer : request → reply :=
  Demo.peer Demo.accepted Demo.token (Demo.route
    [("https://vmanage:443/dataservice/system/device/controllers",
      Demo.envelope [Demo.object [("uuid", "A"); ("personality", "vsmart");
                                  ("validity", "valid"); ("deviceModel", "vsmart")]]);
     ("https://vmanage:443/dataservice/system/device/vedges",
      Demo.envelope [Demo.object [("uuid", "B"); ("personality", "vedge");
                                  ("validity", "valid"); ("deviceModel", "vedge-cloud")]]);
     ("https://vmanage:443/dataservice/device",
      Demo.envelope [Demo.object [("uuid", "A"); ("reachability", "reachable");
                                  ("system-ip", "10.0.0.1")]])]).

(** The three requests answered in the reverse of the order submitted. *)
Definition reverse_schedule : list nat := [2; 1; 0; 2; 1; 0; 2; 1; 0]%nat.

(** Whether an awaited call has returned, and what the devices it returned
    look like. *)
Definition has_returned {A} (r : option (res A)) : bool :=
  match r with
  | Some (Ok _) => true
  | _ => false
  end.

Definition summary (r : option (res (ODict.t DeviceData)))
  : list (key * json * json * bool * option ipaddr) :=
  match r with
  | Some (Ok devices) =>
      (fun kv => (fst kv, persona (snd kv), model (snd kv), is_reachable (snd kv),
                  system_ip (snd kv))) <$> devices
  | _ => []
  end.

(** The same [uuid] listed as controller and as edge, with different
    [personality] and [deviceModel]; no status record. *)
Definition overlap_peer : request → reply :=
  Demo.peer Demo.accepted Demo.token (Demo.route
    [("https://vmanage:443/dataservice/system/device/controllers",
      Demo.envelope [Demo.object [("uuid", "A"); ("personality", "vsmart");
                                  ("validity", "valid"); ("deviceModel", "vsmart")]]);
     ("https://vmanage:443/dataservice/system/device/vedges",
      Demo.envelope [Demo.object [("uuid", "A"); ("personality", "vedge");
                                  ("validity", "valid"); ("deviceModel", "vedge-2000")]]);
     ("https://vmanage:443/dataservice/device", Demo.envelope [])]).

(** A record of the edge list with [uuid] and [personality] and nothing
    else. *)
Definition bare_peer : request → reply :=
  Demo.peer Demo.accepted Demo.token (Demo.route
    [("https://vmanage:443/dataservice/system/device/controllers", Demo.envelope []);
     ("https://vmanage:443/dataservice/system/device/vedges",
      Demo.envelope [Demo.object [("uuid", "B"); ("personality", "vedge")]]);
     ("https://vmanage:443/dataservice/device", Demo.envelope [])]).

(** The empty envelope at the three per-device endpoints. *)
Definition empty_peer : request → reply :=
  Demo.peer Demo.accepted Demo.token (Demo.route
    [("https://vmanage:443/dataservice/device/interface/synced", Demo.envelope []);
     ("https://vmanage:443/dataservice/device/omp/tlocs/advertised", Demo.envelope []);
     ("https://vmanage:443/dataservice/device/vrrp", Demo.envelope [])]).

Definition edge_device : DeviceData :=
  mkDeviceData (JStr "B") (JStr "vedge") (Some (IPv4 167772162)) JNull JNull JNull JNull
    JNull JNull false true false false
    {[ "uuid" := JStr "B"; "personality" := JStr "vedge"; "validity" := JStr "valid" ]}
    (JFloat "0.0") (JFloat "0.0").

(** A merged record with the three mandatory entries only, and the device
    built from it. *)
Definition bare_record : record :=
  {[ "uuid" := JStr "B"; "personality" := JStr "vedge"; "validity" := JStr "valid" ]}.

Definition bare_device : DeviceData :=
  mkDeviceData (JStr "B") (JStr "vedge") None JNull JNull JNull JNull JNull JNull
    false true false false bare_record (JFloat "0.0") (JFloat "0.0").

(** Raw elements of the three per-device payloads. *)
Definition backup_vip : json :=
  JDict {[ "vrrp-state" := JStr "proto-state-backup"; "if-name" := JStr "ge0/1";
           "virtual-ip" := JStr "10.0.0.254"; "group-id" := JInt 1;
           "priority" := JInt 100; "preempt" := JBool true ]}.


Definition ge0_interface : json :=
  JDict {[ "ifname" := JStr "ge0/0"; "interface-type" := JStr "physical";
           "hwaddr" := JStr "52:54:00:aa:bb:cc"; "vpn-id" := JStr "0";
           "ip-address" := JStr "10.0.0.5"; "ipv4-subnet-mask" := JStr "255.255.255.0" ]}.

(** Whether a call has given a result. *)
Definition is_ok {A} (r : res A) : bool :=
  match r with
  | Ok _ => true
  | Err _ => false
  end.

(** One interface at the interface endpoint. *)
Definition interface_peer : request → reply :=
  Demo.peer Demo.accepted Demo.token (Demo.route
    [("https://vmanage:443/dataservice/device/interface/synced",
      Demo.envelope [Demo.object [("ifname", "ge0/0"); ("interface-type", "physical");
                                  ("hwaddr", "52:54:00:aa:bb:cc"); ("vpn-id", "0");
                                  ("ip-address", "10.0.0.5");
                                  ("ipv4-subnet-mask", "255.255.255.0")]])]).

(** Two controller records with the same [uuid]. *)
Definition twice_listed : json :=
  JList [JDict {[ "uuid" := JStr "A"; "version" := JStr "1" ]};
         JDict {[ "uuid" := JStr "A"; "version" := JStr "2" ]}].

(** * Facts *)

(** ** Strings *)

Lemma contains_tail p c s :
  PyStr.contains p (String c s) = false → PyStr.contains p s = false.
Proof. cbn [PyStr.contains]. intros H. by apply orb_false_iff in H as [_ H]. Qed.

Lemma contains_head p s : PyStr.contains p s = false → String.prefix p s = false.
Proof. destruct s; cbn [PyStr.contains]; intros H; by apply orb_false_iff in H as [H _]. Qed.

(** Without an occurrence of [old] the scan of [replace] copies its input. *)
Lemma replace_from_absent old new s :
  PyStr.contains old s = false → PyStr.replace_from old new 0 s = s.
Proof.
  induction s as [|c s IH]; intros H; [done|].
  cbn [PyStr.replace_from]. rewrite (contains_head _ _ H).
  f_equal. apply IH. by eapply contains_tail.
Qed.

Lemma replace_absent s old new :
  old ≠ EmptyString → PyStr.contains old s = false → PyStr.replace s old new = s.
Proof. intros Hne H. destruct old; [done|]. by apply replace_from_absent. Qed.

(** C8, as the code has it: the model string ["vedge-cloud"] becomes
    ["vbond"], ["vedge-2000"] becomes ["2000"], and a string in which
    neither ["vedge-"] nor ["cloud"] occurs anywhere is left unchanged. *)
Theorem normalize_model_spec :
  normalize_model "vedge-cloud" = "vbond" ∧
  normalize_model "vedge-2000" = "2000" ∧
  ∀ m, PyStr.contains "vedge-" m = false → PyStr.contains "cloud" m = false →
       normalize_model m = m.
Proof.
  split; [reflexivity|]. split; [reflexivity|].
  intros m Hv Hc. unfold normalize_model.
  rewrite (replace_absent m "vedge-" "") by done.
  by apply replace_absent.
Qed.

Lemma normalize_model_spec_witness : normalize_model "vsmart" = "vsmart".
Proof. apply normalize_model_spec; reflexivity. Defined.

(** C8 as claimed fails: ["cloud"] has no ["vedge-"] prefix and is rewritten
    all the same. *)
Lemma normalize_model_unprefixed_changes :
  ¬ (∀ m, PyStr.startswith m "vedge-" = false → normalize_model m = m).
Proof. intros H. by specialize (H "cloud" eq_refl). Qed.

(** ** Awaitables *)

Lemma run_bind {A B} net (c : coro A) (f : A → coro B) :
  run net (c ≫= f) =
  match run net c with
  | (Ok a, s) => let '(r, s') := run net (f a) in (r, s ++ s')
  | (Err e, s) => (Err e, s)
  end.
Proof.
  induction c as [a|e|rq k IH]; cbn.
  - by destruct (run net (f a)).
  - done.
  - change (coro_bind_def f (k (net rq))) with (k (net rq) ≫= f).
    rewrite IH. destruct (run net (k (net rq))) as [[a|e] s]; [|done].
    by destruct (run net (f a)).
Qed.

Lemma outcome_bind {A B} net (c : coro A) (f : A → coro B) :
  outcome net (c ≫= f) = outcome net c ≫= (fun a => outcome net (f a)).
Proof.
  unfold outcome. rewrite run_bind.
  destruct (run net c) as [[a|e] s]; [|done]. cbn. by destruct (run net (f a)).
Qed.

Lemma outcome_of_res {A} net (r : res A) : outcome net (of_res r) = r.
Proof. by destruct r. Qed.

Lemma outcome_await {A} net rq (k : reply → coro A) :
  outcome net (Await rq k) = outcome net (k (net rq)).
Proof. unfold outcome. cbn. by destruct (run net (k (net rq))). Qed.

(** ** The event loop of [get_all] *)

Section Loop.

Context {A : Type} (net : request → reply).

Lemma running_insert (l : list (task A)) i t t' :
  l !! i = Some t →
  (length (List.filter is_running (<[i := t']> l)) + (if is_running t then 1 else 0) =
   length (List.filter is_running l) + (if is_running t' then 1 else 0))%nat.
Proof.
  revert i. induction l as [|x l IH]; intros [|i] H; try done.
  - cbn in H. injection H as ->. cbn. destruct (is_running t), (is_running t'); cbn; lia.
  - cbn in H. specialize (IH i H). cbn. destruct (is_running x); cbn; [f_equal|]; exact IH.
Qed.

Lemma tracks_insert (ops : list (coro A)) (l : list (task A)) i op t' :
  Forall2 (tracks net) ops l → ops !! i = Some op → tracks net op t' →
  Forall2 (tracks net) ops (<[i := t']> l).
Proof.
  intros HF Hop Ht. rewrite <- (list_insert_id ops i op Hop).
  by apply Forall2_insert.
Qed.

Lemma inv_start limit (ops : list (coro A)) : 0 ≤ limit → loop_inv net limit ops (start limit ops).
Proof.
  intros Hl. split; cbn; [| |done..].
  - induction ops; constructor; [done|]. apply IHops.
  - unfold in_flight. cbn.
    replace (List.filter is_running (Waiting <$> ops)) with (@nil (task A)); [cbn; lia|].
    induction ops; [done|]. cbn. apply IHops.
Qed.

Lemma inv_step limit (ops : list (coro A)) st i :
  loop_inv net limit ops st → loop_inv net limit ops (step net st i).
Proof.
  intros [HF HP HN HR]. unfold step.
  destruct (tasks st !! i) as [t|] eqn:Hi; [|by split].
  destruct (Forall2_lookup_r _ _ _ _ _ HF Hi) as (op & Hop & Ht).
  pose proof (fun t' => running_insert (tasks st) i t t' Hi) as Hrun.
  destruct t as [c|c|r]; cbn in Ht.
  - destruct (0 <? sem_value st) eqn:Hs; [|by split].
    apply Z.ltb_lt in Hs. specialize (Hrun (Running c)). cbn in Hrun.
    split; cbn; [|unfold in_flight in *; cbn; lia|lia|done].
    eapply tracks_insert; [done..|]. cbn. by subst.
  - destruct c as [a|e|rq k].
    + specialize (Hrun (Finished (Ok a))). cbn in Hrun.
      split; cbn; [|unfold in_flight in *; cbn; lia|lia|done].
      eapply tracks_insert; done.
    + specialize (Hrun (Finished (Err e))). cbn in Hrun.
      split; cbn; [|unfold in_flight in *; cbn; lia|lia|].
      * eapply tracks_insert; done.
      * intros e'. destruct (raised st) as [e0|]; [by apply HR|].
        intros [= <-]. exists op. split; [by eapply list_elem_of_lookup_2|done].
    + specialize (Hrun (Running (k (net rq)))). cbn in Hrun.
      split; cbn; [|unfold in_flight in *; cbn; lia|lia|done].
      eapply tracks_insert; [done..|]. cbn. by rewrite <- Ht, outcome_await.
  - by split.
Qed.

Lemma inv_steps limit (ops : list (coro A)) st sched :
  loop_inv net limit ops st → loop_inv net limit ops (steps net st sched).
Proof.
  revert st. induction sched as [|i sched IH]; intros st H; [done|].
  apply IH. by apply inv_step.
Qed.

(** Every state the loop can be in keeps the invariant. *)
Lemma inv_reachable limit (ops : list (coro A)) sched :
  0 ≤ limit → loop_inv net limit ops (steps net (start limit ops) sched).
Proof. intros. by apply inv_steps, inv_start. Qed.

End Loop.

(** *** Progress: a schedule that lets every operation finish *)

Section Progress.

Context {A : Type} (net : request → reply).

Lemma steps_app (st : loop A) s1 s2 :
  steps net st (s1 ++ s2) = steps net (steps net st s1) s2.
Proof. apply foldl_app. Qed.

Lemma step_acquire ts sv r w i (c : coro A) :
  ts !! i = Some (Waiting c) → 0 < sv →
  step net (mkLoop ts sv r w) i = mkLoop (<[i := Running c]> ts) (sv - 1) r w.
Proof. intros Hi Hsv. unfold step. simpl. rewrite Hi. by apply Z.ltb_lt in Hsv as ->. Qed.

Lemma step_exchange ts sv r w i rq (k : reply → coro A) :
  ts !! i = Some (Running (Await rq k)) →
  step net (mkLoop ts sv r w) i = mkLoop (<[i := Running (k (net rq))]> ts) sv r (w ++ [rq]).
Proof. intros Hi. unfold step. simpl. by rewrite Hi. Qed.

Lemma step_return ts sv r w i (a : A) :
  ts !! i = Some (Running (Ret a)) →
  step net (mkLoop ts sv r w) i = mkLoop (<[i := Finished (Ok a)]> ts) (sv + 1) r w.
Proof. intros Hi. unfold step. simpl. by rewrite Hi. Qed.

Lemma steps_cons (st : loop A) i sched :
  steps net st (i :: sched) = steps net (step net st i) sched.
Proof. done. Qed.

(** Resumed often enough, a running wrapper that returns finishes and
    gives its permit back. *)
Lemma finish_running (c : coro A) : ∀ ts sv w i v,
  ts !! i = Some (Running c) → outcome net c = Ok v →
  steps net (mkLoop ts sv None w) (replicate (S (awaits net c)) i) =
  mkLoop (<[i := Finished (Ok v)]> ts) (sv + 1) None (w ++ sent net c).
Proof.
  induction c as [a|e|rq k IH]; intros ts sv w i v Hi Hv.
  - cbn in Hv. injection Hv as ->.
    cbn [awaits replicate]. rewrite steps_cons, (step_return _ _ _ _ _ _ Hi).
    by rewrite app_nil_r.
  - done.
  - rewrite outcome_await in Hv.
    change (awaits net (Await rq k)) with (S (awaits net (k (net rq)))).
    cbn [replicate]. rewrite steps_cons, (step_exchange _ _ _ _ _ _ _ Hi).
    change (i :: replicate (awaits net (k (net rq))) i)
      with (replicate (S (awaits net (k (net rq)))) i).
    erewrite (IH (net rq)); [|by apply list_lookup_insert_eq, lookup_lt_is_Some; eauto|done].
    rewrite list_insert_insert_eq. f_equal.
    unfold sent. cbn. destruct (run net (k (net rq))). cbn. by rewrite <- app_assoc.
Qed.

(** The same for a wrapper that still waits, when a permit is free. *)
Lemma finish_waiting (c : coro A) ts sv w i v :
  ts !! i = Some (Waiting c) → outcome net c = Ok v → 0 < sv →
  steps net (mkLoop ts sv None w) (replicate (S (S (awaits net c))) i) =
  mkLoop (<[i := Finished (Ok v)]> ts) sv None (w ++ sent net c).
Proof.
  intros Hi Hv Hsv.
  cbn [replicate]. rewrite steps_cons, (step_acquire _ _ _ _ _ _ Hi Hsv).
  change (i :: replicate (awaits net c) i) with (replicate (S (awaits net c)) i).
  erewrite finish_running; [|by apply list_lookup_insert_eq, lookup_lt_is_Some; eauto|done].
  rewrite list_insert_insert_eq. f_equal. lia.
Qed.

Lemma all_returned (fin : list (task A)) :
  Forall (fun t => is_Some (returned t)) fin → is_Some (mapM returned fin).
Proof.
  induction 1 as [|t fin [v Hv] _ [vs Hvs]]; [by eexists|].
  exists (v :: vs). cbn. by rewrite Hv, Hvs.
Qed.

(** One operation after the other, every operation gets to its end. *)
Lemma finish_all (ops : list (coro A)) : ∀ (fin : list (task A)) sv w,
  Forall (fun t => is_Some (returned t)) fin →
  Forall (fun op => ∃ v, outcome net op = Ok v) ops →
  0 < sv →
  ∃ sched st,
    steps net (mkLoop (fin ++ (Waiting <$> ops)) sv None w) sched = st ∧
    raised st = None ∧ is_Some (mapM returned (tasks st)).
Proof.
  induction ops as [|op ops IH]; intros fin sv w Hfin Hops Hsv.
  - exists [], (mkLoop (fin ++ []) sv None w). split; [done|]. split; [done|].
    cbn. rewrite app_nil_r. by apply all_returned.
  - apply Forall_cons in Hops as [[v Hv] Hops].
    destruct (IH (fin ++ [Finished (Ok v)]) sv (w ++ sent net op)) as (sched & st & Hst & Hr & Hm);
      [|done..|].
    { apply Forall_app. split; [done|]. constructor; [by eexists|constructor]. }
    exists (replicate (S (S (awaits net op))) (length fin) ++ sched), st.
    split; [|done]. rewrite steps_app.
    erewrite finish_waiting; [| |done..].
    + rewrite <- Hst. f_equal. f_equal.
      rewrite <- (Nat.add_0_r (length fin)) at 1. rewrite insert_app_r. cbn.
      by rewrite <- app_assoc.
    + rewrite lookup_app_r by lia. by rewrite Nat.sub_diag.
Qed.

End Progress.

(** What [get_all] returns lines up with what was submitted. *)
Lemma get_all_returned {A} (net : request → reply) (self : Vmanage) (ops : list (coro A))
  sched results :
  get_all net self ops sched = Some (Ok results) →
  length results = length ops ∧
  ∀ i op, ops !! i = Some op → ∃ v, results !! i = Some v ∧ outcome net op = Ok v.
Proof.
  unfold get_all, gather.
  destruct (semaphore self <? 0) eqn:Hneg; [done|]. apply Z.ltb_ge in Hneg.
  pose proof (inv_reachable net _ ops sched Hneg) as [HF _ _ _].
  destruct (raised _); [done|].
  destruct (mapM returned _) as [vs|] eqn:Hm; [|done].
  intros [= <-]. apply mapM_Some in Hm.
  split; [by rewrite <- (Forall2_length _ _ _ Hm), (Forall2_length _ _ _ HF)|].
  intros i op Hop.
  destruct (Forall2_lookup_l _ _ _ _ _ HF Hop) as (t & Ht & Htr).
  destruct (Forall2_lookup_l _ _ _ _ _ Hm Ht) as (v & Hv & Hret).
  exists v. split; [done|].
  destruct t as [c|c|[a|e]]; try done. cbn in Hret, Htr. by injection Hret as ->.
Qed.

(** With a permit to hand out, some schedule lets [get_all] return. *)
Lemma get_all_progress {A} (net : request → reply) (self : Vmanage) (ops : list (coro A)) :
  0 < semaphore self →
  Forall (fun op => ∃ v, outcome net op = Ok v) ops →
  ∃ sched results, get_all net self ops sched = Some (Ok results).
Proof.
  intros Hpos Hops. unfold get_all.
  replace (semaphore self <? 0) with false by (symmetry; apply Z.ltb_ge; lia).
  destruct (finish_all net ops [] (semaphore self) [] (List.Forall_nil _) Hops Hpos)
    as (sched & st & Hst & Hr & [vs Hvs]).
  exists sched, vs. unfold start, gather. cbn in Hst. by rewrite Hst, Hr, Hvs.
Qed.

(** C1: whatever the schedule, hence whatever the order in which the
    operations complete, the list [get_all] returns has one result per
    operation submitted and its i-th entry is the value operation i
    produces; and with a positive limit there is a schedule under which
    [get_all] does return, whenever every operation returns a value. *)
Theorem get_all_aligned {A} (net : request → reply) (self : Vmanage) (ops : list (coro A)) :
  (∀ sched results,
     get_all net self ops sched = Some (Ok results) →
     length results = length ops ∧
     ∀ i op, ops !! i = Some op → ∃ v, results !! i = Some v ∧ outcome net op = Ok v) ∧
  (0 < semaphore self →
   Forall (fun op => ∃ v, outcome net op = Ok v) ops →
   ∃ sched results, get_all net self ops sched = Some (Ok results)).
Proof.
  split.
  - intros sched results. apply get_all_returned.
  - apply get_all_progress.
Qed.

Lemma get_all_aligned_witness :
  get_all demo_peer (demo_client 2) demo_ops [0; 1; 1; 0; 0]%nat = Some (Ok [10; 20]) ∧
  (length [10; 20] = length demo_ops ∧
   ∀ i op, demo_ops !! i = Some op →
           ∃ v, [10; 20] !! i = Some v ∧ outcome demo_peer op = Ok v) ∧
  ∃ sched results, get_all demo_peer (demo_client 2) demo_ops sched = Some (Ok results).
Proof.
  split; [reflexivity|]. split.
  - apply (proj1 (get_all_aligned demo_peer (demo_client 2) demo_ops) [0; 1; 1; 0; 0]%nat).
    reflexivity.
  - apply (proj2 (get_all_aligned demo_peer (demo_client 2) demo_ops)); [reflexivity|].
    repeat constructor; eexists; reflexivity.
Defined.

(** ** The handshake keeps the limit *)

Lemma login_semaphore net self username password r :
  outcome net (__login self username password) = Ok r → semaphore (snd r) = semaphore self.
Proof.
  unfold __login, exchange. cbn. rewrite !outcome_await.
  destruct (net _) as [|r1]; [done|]. cbn.
  destruct (_ && _)%bool; [|by intros [= <-]].
  destruct (set_cookie r1) as [sc|]; [|done]. cbn. rewrite outcome_await.
  destruct (net _) as [|r2]; [done|]. cbn.
  destruct (status_code r2 =? 200); by intros [= <-].
Qed.

Lemma init_semaphore net host username password verify port semaphore0 self :
  outcome net (__init__ host username password verify port semaphore0) = Ok self →
  semaphore self = default 40 semaphore0.
Proof.
  unfold __init__. rewrite outcome_bind.
  destruct (outcome net (__login _ _ _)) as [r|e] eqn:Hr; [|done].
  apply login_semaphore in Hr. cbn in *. intros [= <-].
  by destruct (fst r).
Qed.

(** C2: a client built without a [semaphore] argument has the limit 40;
    and in every state [get_all] goes through, under every schedule, the
    wrappers inside [async with semaphore] are at most the limit: a wrapper
    that waits is let in exactly when fewer than the limit are inside, and
    is left waiting when the limit is reached. *)
Theorem get_all_bounded {A} (net : request → reply) :
  (∀ host username password verify port self,
     outcome net (__init__ host username password verify port None) = Ok self →
     semaphore self = 40) ∧
  ∀ (self : Vmanage) (ops : list (coro A)) (sched : list nat),
    0 ≤ semaphore self →
    let st := steps net (start (semaphore self) ops) sched in
    Z.of_nat (in_flight st) ≤ semaphore self ∧
    ∀ i c, tasks st !! i = Some (Waiting c) →
      (tasks (step net st i) !! i = Some (Running c) ↔
       Z.of_nat (in_flight st) < semaphore self) ∧
      (Z.of_nat (in_flight st) = semaphore self → step net st i = st).
Proof.
  split.
  { intros host username password verify port self H.
    exact (init_semaphore net host username password verify port None self H). }
  intros self ops sched HK st.
  destruct (inv_reachable net _ ops sched HK) as [HF HP HN _]. fold st in HF, HP, HN.
  split; [lia|]. intros i c Hi. unfold step. rewrite Hi.
  destruct (0 <? sem_value st) eqn:Hs.
  - apply Z.ltb_lt in Hs. split; [|lia]. split; [lia|]. intros _. cbn.
    apply list_lookup_insert_eq. by eapply lookup_lt_Some.
  - apply Z.ltb_ge in Hs. split; [|done]. rewrite Hi. split; [done|lia].
Qed.

Lemma get_all_bounded_witness :
  let st := steps demo_peer (start (semaphore (demo_client 1)) demo_ops) [0; 1; 0]%nat in
  tasks st !! 1%nat = Some (Waiting (mret 20)) ∧
  Z.of_nat (in_flight st) ≤ 1 ∧
  step demo_peer st 1 = st.
Proof.
  intros st. split; [reflexivity|].
  destruct (proj2 (get_all_bounded demo_peer) (demo_client 1) demo_ops [0; 1; 0]%nat) as [H1 H2];
    [cbn; lia|].
  split; [exact H1|]. by apply (H2 1%nat (mret 20)).
Defined.

(** What [get_all] raises is the [ValueError] of a negative limit or an
    exception one of the operations raises. *)
Lemma get_all_raises {A} (net : request → reply) self (ops : list (coro A)) sched e :
  get_all net self ops sched = Some (Err e) →
  (semaphore self < 0 ∧ e = ValueError) ∨ ∃ op, op ∈ ops ∧ outcome net op = Err e.
Proof.
  unfold get_all, gather. destruct (semaphore self <? 0) eqn:Hneg.
  - apply Z.ltb_lt in Hneg. intros [= <-]. by left.
  - apply Z.ltb_ge in Hneg.
    pose proof (inv_reachable net _ ops sched Hneg) as [_ _ _ HR].
    destruct (raised _) as [e0|]; [|by destruct (mapM _ _)].
    intros [= <-]. right. by apply HR.
Qed.

(** ** The request layer *)

Section Requests.

Variable loads : string → option json.
Variable net : request → reply.

(** The outcome of [get] on a connected client, read off the reply. *)
Lemma get_connected self endpoint params h :
  connected self = true → session self = true → headers self = Some h →
  outcome net (get loads self endpoint params) =
  match net (Request GET (String.append (base_url self) endpoint) h params [] None) with
  | HTTPError => Err ConnectionError
  | Reply r =>
      if status_code r =? 200 then
        if (Py.str_truthy (text r) && PyStr.contains "data" (text r))%bool
        then unwrap loads (text r) else Ok JNull
      else Ok JNull
  end.
Proof.
  intros Hc Hs Hh. unfold get, __get, get_session, get_headers, exchange.
  rewrite Hc, Hs, Hh. cbn. rewrite outcome_await.
  destruct (net _) as [|r]; [done|]. cbn.
  destruct (status_code r =? 200); [|done]. cbn.
  destruct (_ && _)%bool; [|done]. apply outcome_of_res.
Qed.

(** The same for [post]: no test for the [data] key stands before the
    subscript. *)
Lemma post_connected self endpoint params data h :
  connected self = true → session self = true → headers self = Some h →
  outcome net (post loads self endpoint params data) =
  match net (Request POST (String.append (base_url self) endpoint) h params [] (Some data)) with
  | HTTPError => Err ConnectionError
  | Reply r =>
      if status_code r =? 200 then
        if Py.str_truthy (text r) then unwrap loads (text r) else Ok JNull
      else Ok JNull
  end.
Proof.
  intros Hc Hs Hh. unfold post, __post, get_session, get_headers, exchange.
  rewrite Hc, Hs, Hh. cbn. rewrite outcome_await.
  destruct (net _) as [|r]; [done|]. cbn.
  destruct (status_code r =? 200); [|done]. cbn.
  destruct (Py.str_truthy _); [|done]. apply outcome_of_res.
Qed.

(** A status other than 200 gives [None]. *)
Lemma get_not_200 self endpoint params h r :
  connected self = true → session self = true → headers self = Some h →
  net (Request GET (String.append (base_url self) endpoint) h params [] None) = Reply r →
  status_code r ≠ 200 →
  outcome net (get loads self endpoint params) = Ok JNull.
Proof.
  intros Hc Hs Hh Hr Hst. rewrite (get_connected _ _ _ h), Hr by done.
  by apply Z.eqb_neq in Hst as ->.
Qed.

(** Status 200 and a body that decodes to an object with a [data] entry:
    [get] returns the entry. *)
Lemma get_data self endpoint params h r d v :
  connected self = true → session self = true → headers self = Some h →
  net (Request GET (String.append (base_url self) endpoint) h params [] None) = Reply r →
  status_code r = 200 → PyStr.contains "data" (text r) = true →
  loads (text r) = Some (JDict d) → d !! "data" = Some v →
  outcome net (get loads self endpoint params) = Ok v.
Proof.
  intros Hc Hs Hh Hr Hst Hin Hl Hd. rewrite (get_connected _ _ _ h), Hr, Hst by done.
  cbn. rewrite Hin. unfold unwrap. rewrite Hl. cbn. rewrite Hd.
  by destruct (text r).
Qed.

(** Status 200 and a body that decodes to an object without a [data]
    entry, while the four letters occur somewhere in its text: [get]
    raises [KeyError]. *)
Lemma get_data_elsewhere self endpoint params h r d :
  connected self = true → session self = true → headers self = Some h →
  net (Request GET (String.append (base_url self) endpoint) h params [] None) = Reply r →
  status_code r = 200 → PyStr.contains "data" (text r) = true →
  loads (text r) = Some (JDict d) → d !! "data" = None →
  outcome net (get loads self endpoint params) = Err (KeyError "data").
Proof.
  intros Hc Hs Hh Hr Hst Hin Hl Hd. rewrite (get_connected _ _ _ h), Hr, Hst by done.
  cbn. rewrite Hin. unfold unwrap. rewrite Hl. cbn. rewrite Hd.
  by destruct (text r).
Qed.

(** Status 200 and a body that decodes to an object without a [data]
    entry: [post] raises [KeyError]. *)
Lemma post_no_data self endpoint params data h r d :
  connected self = true → session self = true → headers self = Some h →
  net (Request POST (String.append (base_url self) endpoint) h params [] (Some data)) = Reply r →
  status_code r = 200 → text r ≠ "" →
  loads (text r) = Some (JDict d) → d !! "data" = None →
  outcome net (post loads self endpoint params data) = Err (KeyError "data").
Proof.
  intros Hc Hs Hh Hr Hst Hne Hl Hd. rewrite (post_connected _ _ _ _ h), Hr, Hst by done.
  cbn. unfold unwrap. rewrite Hl. cbn. rewrite Hd.
  unfold Py.str_truthy. by apply String.eqb_neq in Hne as ->.
Qed.

(** *** A client that is not connected *)

Lemma unauthenticated_get self endpoint params :
  connected self = false → get loads self endpoint params = Ret JNull.
Proof. intros H. unfold get, __get. by rewrite H. Qed.

Lemma unauthenticated_post self endpoint params data :
  connected self = false → post loads self endpoint params data = Ret JNull.
Proof. intros H. unfold post, __post. by rewrite H. Qed.

End Requests.

(** ** The handshake *)

Section Handshake.

Variable net : request → reply.
Variables (host username password : string) (verify : option bool) (port sem : option Z).

(** A login answered with a status other than 200, or with an HTML page:
    construction completes, one request was sent, and the client is not
    connected. *)
Lemma init_login_rejected r :
  net (login_request (base_of host port) username password) = Reply r →
  status_code r ≠ 200 ∨ PyStr.startswith (text r) "<html>" = true →
  ∃ self,
    run net (__init__ host username password verify port sem) =
      (Ok self, [login_request (base_of host port) username password]) ∧
    connected self = false ∧ session self = false.
Proof.
  intros Hr Hrej. eexists. unfold __init__, __login, exchange. cbn.
  fold (base_of host port). fold (login_request (base_of host port) username password).
  rewrite Hr. cbn.
  replace ((status_code r =? 200) && negb (PyStr.startswith (text r) "<html>"))%bool with false.
  - cbn. done.
  - symmetry. apply andb_false_iff. destruct Hrej as [H|H].
    + left. by apply Z.eqb_neq.
    + right. by rewrite H.
Qed.

(** A login accepted and a token request answered with a status other than
    200: construction completes and the client is not connected. *)
Lemma init_token_rejected r1 sc r2 :
  net (login_request (base_of host port) username password) = Reply r1 →
  status_code r1 = 200 → PyStr.startswith (text r1) "<html>" = false →
  set_cookie r1 = Some sc →
  net (token_request (base_of host port) (PyStr.split_head ";" sc)) = Reply r2 →
  status_code r2 ≠ 200 →
  ∃ self,
    outcome net (__init__ host username password verify port sem) = Ok self ∧
    connected self = false ∧ session self = false.
Proof.
  intros Hr1 Hs1 Hh1 Hsc Hr2 Hs2. eexists. unfold outcome, __init__, __login, exchange. cbn.
  fold (base_of host port). fold (login_request (base_of host port) username password).
  rewrite Hr1. cbn. rewrite Hs1, Hh1, Hsc. cbn.
  fold (base_of host port). fold (token_request (base_of host port) (PyStr.split_head ";" sc)).
  rewrite Hr2. cbn. apply Z.eqb_neq in Hs2 as ->. cbn. done.
Qed.

(** A transport failure of either request raises [ConnectionError]. *)
Lemma init_transport_failure :
  net (login_request (base_of host port) username password) = HTTPError →
  outcome net (__init__ host username password verify port sem) = Err ConnectionError.
Proof.
  intros Hr. unfold outcome, __init__, __login, exchange. cbn.
  fold (base_of host port). fold (login_request (base_of host port) username password).
  by rewrite Hr.
Qed.

(** A login answered 200 with a body that is not HTML and no [Set-Cookie]
    header: [None.split] raises [AttributeError], with no transport failure
    involved. *)
Lemma init_missing_cookie r :
  net (login_request (base_of host port) username password) = Reply r →
  status_code r = 200 → PyStr.startswith (text r) "<html>" = false →
  set_cookie r = None →
  outcome net (__init__ host username password verify port sem) = Err AttributeError.
Proof.
  intros Hr Hs Hh Hsc. unfold outcome, __init__, __login, exchange. cbn.
  fold (base_of host port). fold (login_request (base_of host port) username password).
  rewrite Hr. cbn. by rewrite Hs, Hh, Hsc.
Qed.

End Handshake.

(** ** The accessors of a client that is not connected *)

Section Unauthenticated.

Variable loads : string → option json.
Variable IPv4Address : json → res ipaddr.
Variable IPv4Network : json → json → res ipnet.
Variable net : request → reply.
Variable self : Vmanage.
Hypothesis not_connected : connected self = false.

Lemma unauthenticated_interfaces device :
  get_device_interfaces loads IPv4Address IPv4Network self device = Ret None.
Proof. unfold get_device_interfaces. by rewrite unauthenticated_get. Qed.

Lemma unauthenticated_tlocs device :
  get_device_tlocs loads IPv4Address self device = Ret None.
Proof. unfold get_device_tlocs. by rewrite unauthenticated_get. Qed.

Lemma unauthenticated_vrrp device :
  get_device_vrrp loads IPv4Address self device = Ret None.
Proof. unfold get_device_vrrp. by rewrite unauthenticated_get. Qed.

Lemma unauthenticated_template_values device :
  get_device_template_values loads self device = Ret JNull.
Proof.
  unfold get_device_template_values. destruct (_ || _)%bool; [done|].
  by rewrite unauthenticated_post.
Qed.

(** [get_devices] has no test for an absent result: whenever the batch
    finishes it iterates over [None] and raises [TypeError]. *)
Lemma unauthenticated_get_devices sched r :
  0 ≤ semaphore self →
  get_devices loads IPv4Address net self sched = Some r → r = Err TypeError.
Proof.
  intros Hsem. unfold get_devices, device_tasks.
  rewrite !unauthenticated_get by done.
  destruct (get_all _ _ _ _) as [[results|e]|] eqn:Hg; [| |done]; intros [= <-].
  - apply get_all_returned in Hg as [Hlen Hres].
    destruct (Hres 0%nat _ eq_refl) as (v0 & H0 & [= <-]).
    destruct (Hres 1%nat _ eq_refl) as (v1 & H1 & [= <-]).
    destruct (Hres 2%nat _ eq_refl) as (v2 & H2 & [= <-]).
    destruct results as [|? [|? [|? [|]]]]; try done.
    cbn in H0, H1, H2. by injection H0 as ->; injection H1 as ->; injection H2 as ->.
  - apply get_all_raises in Hg as [[Hneg _]|(op & Hop & Hraise)]; [lia|].
    by repeat (apply elem_of_cons in Hop as [->|Hop]; [done|]); apply elem_of_nil in Hop.
Qed.

Lemma unauthenticated_get_devices_finishes :
  0 < semaphore self →
  ∃ sched, get_devices loads IPv4Address net self sched = Some (Err TypeError).
Proof.
  intros Hsem.
  destruct (get_all_progress net self (device_tasks loads self) Hsem) as (sched & results & Hg).
  { unfold device_tasks. rewrite !unauthenticated_get by done.
    repeat constructor; by exists JNull. }
  exists sched. destruct (get_devices loads IPv4Address net self sched) as [r|] eqn:Hd.
  - f_equal. eapply unauthenticated_get_devices; [lia|done].
  - unfold get_devices in Hd. by rewrite Hg in Hd.
Qed.

End Unauthenticated.

Example handshake_accepted api :
  run (Demo.peer Demo.accepted Demo.token api) (__init__ "vmanage" "admin" "secret" None None None) =
  (Ok Demo.client,
   [login_request "https://vmanage:443" "admin" "secret";
    token_request "https://vmanage:443" "JSESSIONID=abc123"]).
Proof. reflexivity. Qed.

(** C3 fails on the code: after a login answered 200 with an HTML page the
    client is built and not connected, [get] returns [None] without a
    request, and [get_devices] raises [TypeError]. *)
Theorem rejected_login_get_devices_raises :
  let net := Demo.peer Demo.rejected Demo.token (Demo.route []) in
  ∃ self,
    run net (__init__ "vmanage" "admin" "wrong" None None None) =
      (Ok self, [login_request "https://vmanage:443" "admin" "wrong"]) ∧
    connected self = false ∧
    run net (get Json.loads self "/device" []) = (Ok JNull, []) ∧
    get_devices Json.loads IPRef.IPv4Address net self [0; 0; 1; 1; 2; 2]%nat =
      Some (Err TypeError).
Proof. eexists. repeat split. Qed.

(** C4 fails on the code: a 200 answer whose body is the object
    [{"error": "no data"}] has no [data] key, but the letters occur in its
    text, so [get] subscripts the decoded object and raises [KeyError]. *)
Theorem get_data_in_text_raises :
  let body := Demo.object [("error", "no data")] in
  let net := Demo.peer Demo.accepted Demo.token
               (Demo.route [("https://vmanage:443/dataservice/device", body)]) in
  outcome net (__init__ "vmanage" "admin" "secret" None None None) = Ok Demo.client ∧
  Json.loads body = Some (JDict {[ "error" := JStr "no data" ]}) ∧
  outcome net (get Json.loads Demo.client "/device" []) = Err (KeyError "data").
Proof. repeat split. Qed.

(** C5 fails on the code: a 200 answer whose body is an object without a
    [data] key makes [post] raise [KeyError]; [get] returns [None] for the
    same body. *)
Theorem post_without_data_raises :
  let body := Demo.object [("error", "Template not found")] in
  let net := Demo.peer Demo.accepted Demo.token
               (Demo.route [("https://vmanage:443/dataservice/template/device/config/input", body)]) in
  Json.loads body = Some (JDict {[ "error" := JStr "Template not found" ]}) ∧
  outcome net (post Json.loads Demo.client "/template/device/config/input" [] (JDict ∅)) =
    Err (KeyError "data") ∧
  outcome net (get Json.loads Demo.client "/template/device/config/input" []) = Ok JNull.
Proof. repeat split. Qed.

(** ** Insertion-ordered dictionaries *)

Section ODictFacts.

Context {V : Type}.
Implicit Types (d a b : ODict.t V) (k : key) (v : V).

Lemma keys_cons k v d : ODict.keys ((k, v) :: d) = k :: ODict.keys d.
Proof. done. Qed.

Lemma get_set d k v k' :
  ODict.get (ODict.set d k v) k' = if decide (k = k') then Some v else ODict.get d k'.
Proof.
  induction d as [|[k0 v0] d IH]; cbn.
  - by destruct (decide (k = k')).
  - destruct (decide (k0 = k)) as [->|Hne]; cbn.
    + by destruct (decide (k = k')).
    + rewrite IH. destruct (decide (k0 = k')) as [->|]; [|done].
      by destruct (decide (k = k')).
Qed.

Lemma get_None d k : ODict.get d k = None ↔ k ∉ ODict.keys d.
Proof.
  induction d as [|[k0 v0] d IH]; cbn.
  - split; [intros _; apply not_elem_of_nil|done].
  - rewrite not_elem_of_cons. destruct (decide (k0 = k)) as [->|Hne].
    + split; [done|]. by intros [? _].
    + rewrite IH. split; [by intros; split|by intros [_ ?]].
Qed.

Lemma get_Some d k v : NoDup (ODict.keys d) → ODict.get d k = Some v ↔ (k, v) ∈ d.
Proof.
  induction d as [|[k0 v0] d IH]; intros Hnd.
  - split; [done|]. by intros ?%elem_of_nil.
  - rewrite keys_cons in Hnd. apply NoDup_cons in Hnd as [Hk0 Hnd].
    rewrite elem_of_cons. cbn.
    destruct (decide (k0 = k)) as [->|Hne].
    + split; [intros [= ->]; by left|]. intros [[= ->]|Hin]; [done|].
      destruct Hk0. apply list_elem_of_fmap. by exists (k, v).
    + rewrite (IH Hnd). split; [by right|]. intros [[= ? ?]|?]; [by subst|done].
Qed.

Lemma keys_set_present d k v :
  k ∈ ODict.keys d → ODict.keys (ODict.set d k v) = ODict.keys d.
Proof.
  induction d as [|[k0 v0] d IH]; cbn; intros Hin.
  - by apply elem_of_nil in Hin.
  - destruct (decide (k0 = k)) as [->|Hne]; [done|]. cbn. f_equal.
    apply IH. apply elem_of_cons in Hin as [->|]; done.
Qed.

Lemma keys_set_absent d k v :
  k ∉ ODict.keys d → ODict.keys (ODict.set d k v) = ODict.keys d ++ [k].
Proof.
  induction d as [|[k0 v0] d IH]; cbn; intros Hin; [done|].
  apply not_elem_of_cons in Hin as [Hne Hin].
  destruct (decide (k0 = k)) as [->|_]; [done|]. cbn. f_equal. by apply IH.
Qed.

Lemma NoDup_keys_set d k v : NoDup (ODict.keys d) → NoDup (ODict.keys (ODict.set d k v)).
Proof.
  intros Hnd. destruct (decide (k ∈ ODict.keys d)) as [Hin|Hout].
  - by rewrite keys_set_present.
  - rewrite keys_set_absent by done. apply NoDup_app. split; [done|].
    split; [|apply NoDup_singleton]. intros k' Hk' ->%list_elem_of_singleton. done.
Qed.

Lemma Forall_set (P : key * V → Prop) d k v :
  Forall P d → P (k, v) → Forall P (ODict.set d k v).
Proof.
  intros Hd Hkv. induction Hd as [|[k0 v0] d H0 Hd IH]; cbn.
  - by constructor.
  - destruct (decide (k0 = k)); by constructor.
Qed.

(** [a | b]: the entry of [b] when it has one, else the entry of [a]. *)
Lemma get_union a b k :
  NoDup (ODict.keys b) →
  ODict.get (ODict.union a b) k =
  match ODict.get b k with Some v => Some v | None => ODict.get a k end.
Proof.
  unfold ODict.union. revert a. induction b as [|[k0 v0] b IH]; intros a Hnd; [done|].
  rewrite keys_cons in Hnd. apply NoDup_cons in Hnd as [Hk0 Hnd].
  cbn. rewrite (IH _ Hnd), get_set.
  destruct (decide (k0 = k)) as [->|Hne]; [|done].
  by apply get_None in Hk0 as ->.
Qed.

Lemma NoDup_keys_union a b :
  NoDup (ODict.keys a) → NoDup (ODict.keys (ODict.union a b)).
Proof.
  unfold ODict.union. revert a. induction b as [|[k0 v0] b IH]; intros a Hnd; [done|].
  cbn. by apply IH, NoDup_keys_set.
Qed.

Lemma Forall_union (P : key * V → Prop) a b :
  Forall P a → Forall P b → Forall P (ODict.union a b).
Proof.
  unfold ODict.union. intros Ha Hb. revert a Ha.
  induction Hb as [|[k0 v0] b H0 Hb IH]; intros a Ha; [done|].
  cbn. by apply IH, Forall_set.
Qed.

Lemma mem_keys d k : ODict.mem d k = true ↔ k ∈ ODict.keys d.
Proof.
  unfold ODict.mem. destruct (ODict.get d k) eqn:Hg.
  - split; [intros _|done]. destruct (decide (k ∈ ODict.keys d)) as [|Hn]; [done|].
    apply get_None in Hn. congruence.
  - split; [done|]. intros Hin. by apply get_None in Hg.
Qed.

(** A key occurs once among the keys of a dictionary that holds it. *)
Lemma count_keys d k :
  NoDup (ODict.keys d) → k ∈ ODict.keys d →
  length (List.filter (fun k' => bool_decide (k' = k)) (ODict.keys d)) = 1%nat.
Proof.
  induction (ODict.keys d) as [|k0 l IH]; intros Hnd Hin; [by apply elem_of_nil in Hin|].
  apply NoDup_cons in Hnd as [Hk0 Hnd]. cbn.
  destruct (decide (k0 = k)) as [->|Hne].
  - rewrite bool_decide_eq_true_2 by done. cbn. f_equal.
    clear IH Hin Hnd. induction l as [|k1 l IH]; [done|].
    apply not_elem_of_cons in Hk0 as [Hne Hk0]. cbn.
    rewrite bool_decide_eq_false_2 by done. by apply IH.
  - rewrite bool_decide_eq_false_2 by done. apply IH; [done|].
    apply elem_of_cons in Hin as [->|]; done.
Qed.

End ODictFacts.

(** ** The device inventory *)

(** A loop that stops at the first exception keeps what every completed
    round keeps. *)
Lemma fold_res_inv {A S} (P : S → Prop) (f : S → A → res S) l : ∀ s r,
  P s → (∀ s x s', P s → f s x = Ok s' → P s') → fold_res f s l = Ok r → P r.
Proof.
  induction l as [|x l IH]; intros s r Hs Hf; cbn.
  - by intros [= <-].
  - destruct (f s x) as [s'|e] eqn:Hfx; [|done]. cbn. apply IH; [|done]. by eapply Hf.
Qed.

Lemma index_by_uuid_wf result d :
  index_by_uuid result = Ok d → NoDup (ODict.keys d) ∧ self_keyed d.
Proof.
  unfold index_by_uuid. destruct (Py.iter result) as [l|e]; [|done]. cbn.
  apply (fold_res_inv (fun d => NoDup (ODict.keys d) ∧ self_keyed d)).
  - split; [apply NoDup_nil_2|constructor].
  - intros s x s' [Hnd Hsk]. destruct x as [| | | | | |r]; try done. cbn.
    destruct (r !! "uuid") as [u|] eqn:Hu; [|done]. cbn.
    destruct (hashkey u) as [k|] eqn:Hk; [|done]. cbn. intros [= <-].
    split; [by apply NoDup_keys_set|]. apply Forall_set; [done|]. by exists u.
Qed.

Lemma keys_set_mono {V} (d : ODict.t V) k v k' :
  k' ∈ ODict.keys d → k' ∈ ODict.keys (ODict.set d k v).
Proof.
  intros Hin. destruct (decide (k ∈ ODict.keys d)).
  - by rewrite keys_set_present.
  - rewrite keys_set_absent by done. apply elem_of_app. by left.
Qed.

Lemma keys_set_here {V} (d : ODict.t V) k v : k ∈ ODict.keys (ODict.set d k v).
Proof.
  destruct (decide (k ∈ ODict.keys d)).
  - by rewrite keys_set_present.
  - rewrite keys_set_absent by done. apply elem_of_app. right. by left.
Qed.

(** The map built from a list of records: every entry is a record of the
    list, and every record of the list has its identifier among the keys. *)
Lemma index_by_uuid_list l d :
  index_by_uuid (JList l) = Ok d →
  (∀ k r, ODict.get d k = Some r → JDict r ∈ l) ∧
  (∀ r u k, JDict r ∈ l → r !! "uuid" = Some u → hashkey u = Ok k → k ∈ ODict.keys d).
Proof.
  unfold index_by_uuid. cbn.
  set (f := fun (d : ODict.t record) (e : json) =>
              u ← Py.getitem e "uuid"; k ← hashkey u;
              match e with JDict r => Ok (ODict.set d k r) | _ => Err TypeError end).
  assert (∀ acc d,
    fold_res f acc l = Ok d →
    (∀ k r, ODict.get d k = Some r → ODict.get acc k = Some r ∨ JDict r ∈ l) ∧
    (∀ k, k ∈ ODict.keys acc → k ∈ ODict.keys d) ∧
    (∀ r u k, JDict r ∈ l → r !! "uuid" = Some u → hashkey u = Ok k → k ∈ ODict.keys d))
    as Hgen.
  { induction l as [|x l IH]; intros acc d'; cbn.
    - intros [= <-]. split; [by left|]. split; [done|]. by intros r u k ?%elem_of_nil.
    - destruct (f acc x) as [acc'|] eqn:Hf; [|done]. cbn. intros Hfold.
      destruct (IH _ _ Hfold) as (H1 & H2 & H3).
      unfold f in Hf. destruct x as [| | | | | |r0]; try done. cbn in Hf.
      destruct (r0 !! "uuid") as [u0|] eqn:Hu0; [|done]. cbn in Hf.
      destruct (hashkey u0) as [k0|] eqn:Hk0; [|done]. cbn in Hf. injection Hf as <-.
      split; [|split].
      + intros k r Hget. destruct (H1 _ _ Hget) as [Hacc|Hin]; [|right; by right].
        rewrite get_set in Hacc. destruct (decide (k0 = k)) as [->|]; [|by left].
        injection Hacc as ->. right. by left.
      + intros k Hin. by apply H2, keys_set_mono.
      + intros r u k [[= ->]|Hin]%elem_of_cons Hu Hk; [|by eapply H3].
        rewrite Hu0 in Hu. injection Hu as <-. rewrite Hk0 in Hk. injection Hk as <-.
        apply H2, keys_set_here. }
  intros Hfold. destruct (Hgen _ _ Hfold) as (H1 & _ & H3). split; [|done].
  intros k r Hget. by destruct (H1 _ _ Hget).
Qed.

Lemma union_lookup (r s : record) f :
  Py.union r s !! f = match s !! f with Some x => Some x | None => r !! f end.
Proof.
  unfold Py.union. destruct (s !! f) as [x|] eqn:Hs.
  - by apply lookup_union_Some_l.
  - by rewrite lookup_union_r.
Qed.

Lemma keys_overlay statuses merged e :
  ODict.keys (overlay statuses merged e) = ODict.keys merged.
Proof.
  unfold overlay. destruct (ODict.mem statuses e); [|done].
  destruct (ODict.get merged e) as [r|] eqn:Hr; [|done].
  destruct (ODict.get statuses e); [|done].
  apply keys_set_present. destruct (decide (e ∈ ODict.keys merged)) as [|Hn]; [done|].
  apply get_None in Hn. congruence.
Qed.

Lemma get_overlay statuses merged e k :
  ODict.get (overlay statuses merged e) k =
  if decide (e = k) then patch statuses k <$> ODict.get merged k else ODict.get merged k.
Proof.
  unfold overlay, patch, ODict.mem.
  destruct (decide (e = k)) as [->|Hne].
  - destruct (ODict.get statuses k) as [s|]; [|by destruct (ODict.get merged k)].
    destruct (ODict.get merged k) as [r|] eqn:Hr; [|by rewrite Hr].
    rewrite get_set. by destruct (decide (k = k)).
  - destruct (ODict.get statuses e) as [s|]; [|done].
    destruct (ODict.get merged e) as [r|]; [|done].
    rewrite get_set. by destruct (decide (e = k)).
Qed.

Lemma self_keyed_overlay statuses merged e :
  self_keyed statuses → NoDup (ODict.keys statuses) →
  self_keyed merged → self_keyed (overlay statuses merged e).
Proof.
  intros Hst Hnd Hm. unfold overlay. destruct (ODict.mem statuses e); [|done].
  destruct (ODict.get merged e) as [r|]; [|done].
  destruct (ODict.get statuses e) as [s|] eqn:Hs; [|done].
  apply Forall_set; [done|]. cbn.
  apply get_Some in Hs; [|done].
  apply (proj1 (Forall_forall _ _) Hst) in Hs as (u & Hu & Hk). cbn in Hu, Hk.
  exists u. split; [|done]. by rewrite union_lookup, Hu.
Qed.

Lemma foldl_overlay statuses l : ∀ merged,
  NoDup l →
  ODict.keys (foldl (overlay statuses) merged l) = ODict.keys merged ∧
  ∀ k, ODict.get (foldl (overlay statuses) merged l) k =
       if decide (k ∈ l) then patch statuses k <$> ODict.get merged k
       else ODict.get merged k.
Proof.
  induction l as [|e l IH]; intros merged Hnd.
  - split; [done|]. intros k. destruct (decide (k ∈ [])) as [Hin|]; [|done].
    by apply elem_of_nil in Hin.
  - apply NoDup_cons in Hnd as [He Hnd]. cbn [foldl].
    destruct (IH (overlay statuses merged e) Hnd) as [Hk Hg].
    split; [by rewrite Hk, keys_overlay|].
    intros k. rewrite Hg, get_overlay.
    destruct (decide (e = k)) as [->|Hne].
    + destruct (decide (k ∈ l)); [done|].
      destruct (decide (k ∈ k :: l)) as [|Hn]; [done|]. destruct Hn. by left.
    + destruct (decide (k ∈ l)) as [Hin|Hout].
      * destruct (decide (k ∈ e :: l)) as [|Hn]; [done|]. destruct Hn. by right.
      * destruct (decide (k ∈ e :: l)) as [Hin|]; [|done].
        apply elem_of_cons in Hin as [->|]; done.
Qed.

Lemma self_keyed_foldl_overlay statuses l : ∀ merged,
  self_keyed statuses → NoDup (ODict.keys statuses) →
  self_keyed merged → self_keyed (foldl (overlay statuses) merged l).
Proof.
  induction l as [|e l IH]; intros merged Hst Hnd Hm; [done|].
  cbn. apply IH; [done..|]. by apply self_keyed_overlay.
Qed.

Section Merge.

Variables controllers vedges statuses : ODict.t record.
Hypothesis controllers_nodup : NoDup (ODict.keys controllers).
Hypothesis vedges_nodup : NoDup (ODict.keys vedges).
Hypothesis statuses_nodup : NoDup (ODict.keys statuses).

Lemma merge_keys :
  ODict.keys (merge controllers vedges statuses) =
  ODict.keys (ODict.union controllers vedges).
Proof.
  unfold merge. apply foldl_overlay. by apply NoDup_keys_union.
Qed.

Lemma merge_nodup : NoDup (ODict.keys (merge controllers vedges statuses)).
Proof. rewrite merge_keys. by apply NoDup_keys_union. Qed.

(** The merged record of an identifier: the edge record when there is one,
    else the controller record, overlaid with the status record. *)
Lemma merge_get k :
  ODict.get (merge controllers vedges statuses) k =
  patch statuses k <$>
    match ODict.get vedges k with
    | Some r => Some r
    | None => ODict.get controllers k
    end.
Proof.
  unfold merge.
  destruct (foldl_overlay statuses (ODict.keys (ODict.union controllers vedges))
              (ODict.union controllers vedges)) as [_ Hg]; [by apply NoDup_keys_union|].
  rewrite Hg, get_union by done.
  destruct (decide (k ∈ _)) as [|Hn]; [done|].
  apply get_None in Hn. rewrite get_union in Hn by done. by rewrite Hn.
Qed.

Lemma merge_self_keyed :
  self_keyed controllers → self_keyed vedges → self_keyed statuses →
  self_keyed (merge controllers vedges statuses).
Proof.
  intros Hc Hv Hs. unfold merge. apply self_keyed_foldl_overlay; [done..|].
  by apply Forall_union.
Qed.

End Merge.

Section Devices.

Variable IPv4Address : json → res ipaddr.

#[local] Arguments normalize_model : simpl never.

(** What a successful [DeviceData(...)] call has put in each field. *)
Lemma parse_device_fields v dev :
  parse_device IPv4Address v = Ok dev →
  raw_data dev = v ∧
  v !! "uuid" = Some (uuid dev) ∧
  v !! "personality" = Some (persona dev) ∧
  hostname dev = field_or v "host-name" JNull ∧
  site_id dev = field_or v "site-id" JNull ∧
  version dev = field_or v "version" JNull ∧
  template_id dev = field_or v "templateId" JNull ∧
  template_name dev = field_or v "template" JNull ∧
  latitude dev = field_or v "latitude" (JFloat "0.0") ∧
  longitude dev = field_or v "longitude" (JFloat "0.0") ∧
  is_sync dev = flag_is v "configStatusMessage" "In Sync" ∧
  is_reachable dev = flag_is v "reachability" "reachable" ∧
  (v !! "managed-by" = None → is_managed dev = false) ∧
  (v !! "system-ip" = None → system_ip dev = None) ∧
  (v !! "deviceModel" = None → model dev = JNull) ∧
  ∃ x, v !! "validity" = Some x ∧ is_valid dev = Py.eq_str x "valid".
Proof.
  unfold parse_device, Py.dict_getitem.
  destruct (v !! "uuid") as [u|]; [|done]. cbn.
  destruct (v !! "personality") as [p|]; [|done]. cbn.
  destruct (match v !! "system-ip" with Some a => Some <$> IPv4Address a | None => Ok None end)
    as [sip|] eqn:Hsip; [|done]. cbn.
  destruct (match v !! "deviceModel" with
            | Some (JStr m) => Ok (JStr (normalize_model m))
            | Some _ => Err AttributeError
            | None => Ok JNull
            end) as [mo|] eqn:Hmo; [|done]. cbn.
  destruct (v !! "validity") as [x|]; [|done]. cbn.
  intros [= <-]. cbn. repeat split.
  - by intros ->.
  - intros H. rewrite H in Hsip. by injection Hsip as <-.
  - intros H. rewrite H in Hmo. by injection Hmo as <-.
  - by exists x.
Qed.

(** A record without a [validity] entry cannot be parsed. *)
Lemma parse_device_needs_validity v :
  v !! "validity" = None → ∀ dev, parse_device IPv4Address v ≠ Ok dev.
Proof.
  intros Hv dev Hdev. apply parse_device_fields in Hdev.
  destruct Hdev as (_ & _ & _ & _ & _ & _ & _ & _ & _ & _ & _ & _ & _ & _ & _ & x & Hx & _).
  congruence.
Qed.

Lemma parse_devices_from (l : ODict.t record) : ∀ acc devices,
  fold_res (fun devices kv =>
    let v := snd kv in
    dev ← parse_device IPv4Address v;
    u ← Py.dict_getitem v "uuid";
    k ← hashkey u;
    Ok (ODict.set devices k dev)) acc l = Ok devices →
  self_keyed l → NoDup (ODict.keys acc ++ ODict.keys l) →
  ODict.keys devices = ODict.keys acc ++ ODict.keys l ∧
  (∀ k, k ∉ ODict.keys l → ODict.get devices k = ODict.get acc k) ∧
  (∀ k v, (k, v) ∈ l →
     ∃ dev, parse_device IPv4Address v = Ok dev ∧ ODict.get devices k = Some dev).
Proof.
  induction l as [|[k0 v0] l IH]; intros acc devices Hfold Hsk Hnd.
  - cbn in Hfold. injection Hfold as <-. split; [by rewrite app_nil_r|].
    split; [done|]. by intros k v ?%elem_of_nil.
  - apply Forall_cons in Hsk as [(u & Hu & Hk) Hsk]. cbn in Hu, Hk.
    rewrite keys_cons in Hnd. cbn in Hfold.
    destruct (parse_device IPv4Address v0) as [dev0|] eqn:Hdev; [|done]. cbn in Hfold.
    unfold Py.dict_getitem in Hfold. rewrite Hu in Hfold. cbn in Hfold.
    rewrite Hk in Hfold. cbn in Hfold.
    assert (k0 ∉ ODict.keys acc) as Hk0acc.
    { apply NoDup_app in Hnd as (_ & Hdisj & _). intros Hin. apply (Hdisj _ Hin). by left. }
    assert (k0 ∉ ODict.keys l) as Hk0l.
    { apply NoDup_app in Hnd as (_ & _ & Hl). by apply NoDup_cons in Hl as [? _]. }
    destruct (IH _ _ Hfold Hsk) as (Hkeys & Hget & Hall).
    { rewrite keys_set_absent by done. rewrite <- app_assoc. done. }
    rewrite keys_set_absent in Hkeys by done. rewrite <- app_assoc in Hkeys.
    split; [by rewrite keys_cons|]. split.
    + intros k Hk'. rewrite keys_cons in Hk'. apply not_elem_of_cons in Hk' as [Hne Hk'].
      rewrite (Hget _ Hk'), get_set. by destruct (decide (k0 = k)).
    + intros k v [[= -> ->]|Hin]%elem_of_cons; [|by apply Hall].
      exists dev0. split; [done|]. rewrite (Hget _ Hk0l), get_set.
      by destruct (decide (k0 = k0)).
Qed.

(** The devices built from the merged records: one per merged key, in the
    same order, each parsed from the merged record of its key. *)
Lemma parse_devices_spec merged devices :
  parse_devices IPv4Address merged = Ok devices →
  self_keyed merged → NoDup (ODict.keys merged) →
  ODict.keys devices = ODict.keys merged ∧
  ∀ k v, ODict.get merged k = Some v →
    ∃ dev, parse_device IPv4Address v = Ok dev ∧ ODict.get devices k = Some dev ∧
           raw_data dev = v.
Proof.
  intros Hp Hsk Hnd.
  destruct (parse_devices_from merged ODict.empty devices Hp Hsk Hnd) as (Hkeys & _ & Hall).
  split; [done|]. intros k v Hget. apply get_Some in Hget; [|done].
  destruct (Hall _ _ Hget) as (dev & Hdev & Hd). exists dev. split; [done|]. split; [done|].
  by apply parse_device_fields in Hdev as [? _].
Qed.

End Devices.

(** *** [get_devices] end to end *)

Section Inventory.

Variable loads : string → option json.
Variable IPv4Address : json → res ipaddr.
Variable net : request → reply.

(** When [get_devices] returns, the three payloads were fetched, each was
    indexed by [uuid], and the devices were parsed from the merge. *)
Lemma get_devices_returns self sched devices :
  get_devices loads IPv4Address net self sched = Some (Ok devices) →
  ∃ r0 r1 r2 controllers vedges statuses,
    outcome net (get loads self "/system/device/controllers" []) = Ok r0 ∧
    outcome net (get loads self "/system/device/vedges" []) = Ok r1 ∧
    outcome net (get loads self "/device" []) = Ok r2 ∧
    index_by_uuid r0 = Ok controllers ∧
    index_by_uuid r1 = Ok vedges ∧
    index_by_uuid r2 = Ok statuses ∧
    parse_devices IPv4Address (merge controllers vedges statuses) = Ok devices.
Proof.
  unfold get_devices.
  destruct (get_all _ _ _ _) as [[results|e]|] eqn:Hg; [|done..].
  intros [= Hd]. apply get_all_returned in Hg as [Hlen Hres].
  destruct (Hres 0%nat _ eq_refl) as (r0 & H0 & Ho0).
  destruct (Hres 1%nat _ eq_refl) as (r1 & H1 & Ho1).
  destruct (Hres 2%nat _ eq_refl) as (r2 & H2 & Ho2).
  destruct results as [|? [|? [|? [|]]]]; try done.
  cbn in H0, H1, H2. injection H0 as ->; injection H1 as ->; injection H2 as ->.
  cbn in Hd.
  destruct (index_by_uuid r0) as [controllers|] eqn:Hc; [|done]. cbn in Hd.
  destruct (index_by_uuid r1) as [vedges|] eqn:Hv; [|done]. cbn in Hd.
  destruct (index_by_uuid r2) as [statuses|] eqn:Hs; [|done]. cbn in Hd.
  by exists r0, r1, r2, controllers, vedges, statuses.
Qed.

(** The devices, key by key, in terms of the three indexed payloads. *)
Lemma devices_by_key controllers vedges statuses devices r0 r1 r2 :
  index_by_uuid r0 = Ok controllers →
  index_by_uuid r1 = Ok vedges →
  index_by_uuid r2 = Ok statuses →
  parse_devices IPv4Address (merge controllers vedges statuses) = Ok devices →
  NoDup (ODict.keys devices) ∧
  ODict.keys devices = ODict.keys (ODict.union controllers vedges) ∧
  ∀ k,
    match (match ODict.get vedges k with Some r => Some r | None => ODict.get controllers k end) with
    | None => ODict.get devices k = None
    | Some r =>
        ∃ dev, ODict.get devices k = Some dev ∧
          parse_device IPv4Address (raw_data dev) = Ok dev ∧
          ∀ f, raw_data dev !! f =
               match ODict.get statuses k ≫= (fun s => s !! f) with
               | Some x => Some x
               | None => r !! f
               end
    end.
Proof.
  intros [Hcn Hck]%index_by_uuid_wf [Hvn Hvk]%index_by_uuid_wf [Hsn Hsk]%index_by_uuid_wf Hp.
  pose proof (merge_nodup controllers vedges statuses Hcn) as Hmn.
  destruct (parse_devices_spec IPv4Address _ _ Hp) as [Hkeys Hall]; [by apply merge_self_keyed|done|].
  split; [by rewrite Hkeys|]. split; [by rewrite Hkeys, merge_keys|].
  intros k. pose proof (merge_get controllers vedges statuses Hcn Hvn k) as Hg.
  destruct (match ODict.get vedges k with Some r => Some r | None => ODict.get controllers k end)
    as [r|].
  - cbn in Hg. destruct (Hall _ _ Hg) as (dev & Hdev & Hd & Hraw).
    exists dev. split; [done|]. split; [by rewrite Hraw|].
    intros f. rewrite Hraw. unfold patch.
    destruct (ODict.get statuses k) as [s|]; cbn; [apply union_lookup|done].
  - cbn in Hg. apply get_None. rewrite Hkeys. by apply get_None.
Qed.

End Inventory.

(** C6: when [get_devices] returns, its devices are keyed without
    repetition by the identifiers of the controller and edge maps taken
    together, and the raw record of each device is the controller-or-edge
    record of its identifier with every field of the status record of the
    same identifier laid over it, the status value winning. *)
Theorem get_devices_merges (loads : string → option json) (IPv4Address : json → res ipaddr)
  (net : request → reply) (self : Vmanage) (sched : list nat) (devices : ODict.t DeviceData) :
  get_devices loads IPv4Address net self sched = Some (Ok devices) →
  ∃ r0 r1 r2 controllers vedges statuses,
    (outcome net (get loads self "/system/device/controllers" []) = Ok r0 ∧
     outcome net (get loads self "/system/device/vedges" []) = Ok r1 ∧
     outcome net (get loads self "/device" []) = Ok r2) ∧
    (index_by_uuid r0 = Ok controllers ∧
     index_by_uuid r1 = Ok vedges ∧
     index_by_uuid r2 = Ok statuses) ∧
    NoDup (ODict.keys devices) ∧
    ODict.keys devices = ODict.keys (ODict.union controllers vedges) ∧
    ∀ k,
      match (match ODict.get vedges k with Some r => Some r | None => ODict.get controllers k end) with
      | None => ODict.get devices k = None
      | Some r =>
          ∃ dev, ODict.get devices k = Some dev ∧
            parse_device IPv4Address (raw_data dev) = Ok dev ∧
            ∀ f, raw_data dev !! f =
                 match ODict.get statuses k ≫= (fun s => s !! f) with
                 | Some x => Some x
                 | None => r !! f
                 end
      end.
Proof.
  intros (r0 & r1 & r2 & controllers & vedges & statuses & H0 & H1 & H2 & Hc & Hv & Hs & Hp)
    %get_devices_returns.
  exists r0, r1, r2, controllers, vedges, statuses.
  split; [done|]. split; [done|]. by eapply devices_by_key.
Qed.

(** Controller [A], edge [B], status [A] with [reachability]: device [A]
    is reachable and has the status address, device [B] is not reachable
    and has no address, and each appears once. *)
Lemma get_devices_merges_witness :
  summary (get_devices Json.loads IPRef.IPv4Address inventory_peer Demo.client reverse_schedule) =
    [(KStr "A", JStr "vsmart", JStr "vsmart", true, Some (IPv4 167772161));
     (KStr "B", JStr "vedge", JStr "vbond", false, None)] ∧
  ∃ devices,
    get_devices Json.loads IPRef.IPv4Address inventory_peer Demo.client reverse_schedule =
      Some (Ok devices) ∧
    NoDup (ODict.keys devices).
Proof.
  split; [vm_compute; reflexivity|].
  assert (has_returned (get_devices Json.loads IPRef.IPv4Address inventory_peer Demo.client
                          reverse_schedule) = true) as Hok by (vm_compute; reflexivity).
  destruct (get_devices _ _ _ _ _) as [[devices|e]|] eqn:Hd; [|discriminate Hok..].
  exists devices. split; [reflexivity|].
  by destruct (get_devices_merges _ _ _ _ _ _ Hd) as (_ & _ & _ & _ & _ & _ & _ & _ & Hnd & _).
Defined.

(** C10: when an identifier is a key of both the controller map and the
    edge map, that is when it is the [uuid] of a record in both lists,
    [get_devices] returns one device for it, built from the edge record: a
    field present in both records has the edge value (the status value when
    the status record of the identifier has the field too), never the
    controller value. *)
Theorem get_devices_edge_over_controller (loads : string → option json)
  (IPv4Address : json → res ipaddr) (net : request → reply) (self : Vmanage)
  (sched : list nat) (devices : ODict.t DeviceData) :
  get_devices loads IPv4Address net self sched = Some (Ok devices) →
  ∃ r0 r1 r2 controllers vedges statuses,
    (outcome net (get loads self "/system/device/controllers" []) = Ok r0 ∧
     outcome net (get loads self "/system/device/vedges" []) = Ok r1 ∧
     outcome net (get loads self "/device" []) = Ok r2) ∧
    (index_by_uuid r0 = Ok controllers ∧
     index_by_uuid r1 = Ok vedges ∧
     index_by_uuid r2 = Ok statuses) ∧
    ∀ k rc re,
      ODict.get controllers k = Some rc → ODict.get vedges k = Some re →
      length (List.filter (fun k' => bool_decide (k' = k)) (ODict.keys devices)) = 1%nat ∧
      ODict.get (ODict.union controllers vedges) k = Some re ∧
      ∃ dev, ODict.get devices k = Some dev ∧
        (∀ f x y, rc !! f = Some x → re !! f = Some y →
           raw_data dev !! f =
           Some (match ODict.get statuses k ≫= (fun s => s !! f) with
                 | Some z => z
                 | None => y
                 end)) ∧
        (∀ f, raw_data dev !! f =
              match ODict.get statuses k ≫= (fun s => s !! f) with
              | Some z => Some z
              | None => re !! f
              end).
Proof.
  intros (r0 & r1 & r2 & controllers & vedges & statuses & H0 & H1 & H2 & Hc & Hv & Hs & Hp)
    %get_devices_returns.
  exists r0, r1, r2, controllers, vedges, statuses.
  split; [done|]. split; [done|]. intros k rc re Hrc Hre.
  destruct (devices_by_key IPv4Address _ _ _ _ _ _ _ Hc Hv Hs Hp) as (Hnd & Hkeys & Hall).
  pose proof (index_by_uuid_wf _ _ Hv) as [Hvn _].
  assert (ODict.get (ODict.union controllers vedges) k = Some re) as Hu
    by (by rewrite get_union, Hre).
  split; [|split; [done|]].
  - apply count_keys; [done|]. rewrite Hkeys.
    destruct (decide (k ∈ ODict.keys (ODict.union controllers vedges))) as [|Hn]; [done|].
    apply get_None in Hn. congruence.
  - specialize (Hall k). rewrite Hre in Hall. destruct Hall as (dev & Hd & _ & Hraw).
    exists dev. split; [done|]. split; [|done]. intros f x y _ Hy. rewrite Hraw, Hy.
    by destruct (ODict.get statuses k ≫= _).
Qed.

Lemma get_devices_edge_over_controller_witness :
  summary (get_devices Json.loads IPRef.IPv4Address overlap_peer Demo.client reverse_schedule) =
    [(KStr "A", JStr "vedge", JStr "2000", false, None)] ∧
  ∃ devices r0 r1 r2 controllers vedges statuses,
    get_devices Json.loads IPRef.IPv4Address overlap_peer Demo.client reverse_schedule =
      Some (Ok devices) ∧
    (outcome overlap_peer (get Json.loads Demo.client "/system/device/controllers" []) = Ok r0 ∧
     outcome overlap_peer (get Json.loads Demo.client "/system/device/vedges" []) = Ok r1 ∧
     outcome overlap_peer (get Json.loads Demo.client "/device" []) = Ok r2) ∧
    (index_by_uuid r0 = Ok controllers ∧
     index_by_uuid r1 = Ok vedges ∧
     index_by_uuid r2 = Ok statuses).
Proof.
  split; [vm_compute; reflexivity|].
  assert (has_returned (get_devices Json.loads IPRef.IPv4Address overlap_peer Demo.client
                          reverse_schedule) = true) as Hok by (vm_compute; reflexivity).
  destruct (get_devices _ _ _ _ _) as [[devices|e]|] eqn:Hd; [|discriminate Hok..].
  destruct (get_devices_edge_over_controller _ _ _ _ _ _ Hd)
    as (r0 & r1 & r2 & controllers & vedges & statuses & Hget & Hidx & _).
  by exists devices, r0, r1, r2, controllers, vedges, statuses.
Defined.

(** C7 fails on the code for the validity flag: a record without a
    [validity] entry makes [get_devices] raise [KeyError]; with the entry,
    and every other optional field absent, the device is built from the
    defaults. *)
Theorem get_devices_without_validity_raises :
  get_devices Json.loads IPRef.IPv4Address bare_peer Demo.client reverse_schedule =
    Some (Err (KeyError "validity")) ∧
  parse_device IPRef.IPv4Address
    {[ "uuid" := JStr "B"; "personality" := JStr "vedge" ]} = Err (KeyError "validity") ∧
  parse_device IPRef.IPv4Address
    {[ "uuid" := JStr "B"; "personality" := JStr "vedge"; "validity" := JStr "valid" ]} =
    Ok (mkDeviceData (JStr "B") (JStr "vedge") None JNull JNull JNull JNull JNull JNull
          false true false false
          {[ "uuid" := JStr "B"; "personality" := JStr "vedge"; "validity" := JStr "valid" ]}
          (JFloat "0.0") (JFloat "0.0")).
Proof. split; [|split]; vm_compute; reflexivity. Qed.

(** ** The per-device normalisers *)

Lemma mapM_res_length {A B} (f : A → res B) l : ∀ l',
  mapM f l = Ok l' → length l' = length l.
Proof.
  induction l as [|x l IH]; intros l'; cbn.
  - by intros [= <-].
  - destruct (f x) as [y|]; [|done]. cbn.
    destruct (mapM f l) as [k|]; [|done]. cbn. intros [= <-]. cbn. f_equal. by apply IH.
Qed.

(** Iterating over a value that is true visits something. *)
Lemma truthy_iter raw l : Py.truthy raw = true → Py.iter raw = Ok l → l ≠ [].
Proof.
  destruct raw as [| | | |s|l0|d]; try done; cbn.
  - destruct s; [done|]. by intros _ [= <-].
  - destruct l0; [done|]. by intros _ [= <-].
  - intros Hsize [= <-] Hnil. apply fmap_nil_inv in Hnil.
    apply (f_equal length) in Hnil. rewrite length_map_to_list in Hnil.
    by rewrite Hnil in Hsize.
Qed.

Lemma guard_absent_iff_falsy {B} (net : request → reply) (fetch : coro json)
  (parse : json → res B) :
  absent_iff_falsy net fetch
    (raw_data ← fetch;
     if negb (Py.truthy raw_data) then mret None
     else of_res (l ← Py.iter raw_data; Some <$> mapM parse l)).
Proof.
  unfold absent_iff_falsy. rewrite outcome_bind.
  destruct (outcome net fetch) as [raw|e]; cbn.
  - destruct (Py.truthy raw) eqn:Ht; cbn.
    + rewrite outcome_of_res. destruct (Py.iter raw) as [l|] eqn:Hl; cbn.
      * destruct (mapM parse l) as [l'|] eqn:Hm; cbn.
        -- split; [|split].
           ++ split; [done|]. intros (raw' & [= <-] & ?). congruence.
           ++ intros [= ->]. done.
           ++ intros [= ->]. apply mapM_res_length in Hm.
              by destruct l; [eapply truthy_iter|].
        -- split; [|split]; [|by intros [= ->]|done].
           split; [done|]. intros (raw' & [= <-] & ?). congruence.
      * split; [|split]; [|by intros [= ->]|done].
        split; [done|]. intros (raw' & [= <-] & ?). congruence.
    + split; [|split]; [|done..]. split; [|done]. intros _. by exists raw.
  - split; [|split]; [|done..]. split; [done|]. by intros (raw & ? & _).
Qed.

(** C9, as the code has it: each of the three normalisers returns "not
    available" exactly when [get] yields a value that is false, which an
    empty list is; a query that runs and yields zero results gives "not
    available", and no normaliser returns an empty list. *)
Theorem normalisers_absent_iff_falsy (loads : string → option json)
  (IPv4Address : json → res ipaddr) (IPv4Network : json → json → res ipnet)
  (net : request → reply) (self : Vmanage) (device : DeviceData) :
  absent_iff_falsy net
    (get loads self "/device/interface/synced" [("deviceId", system_ip device)])
    (get_device_interfaces loads IPv4Address IPv4Network self device) ∧
  absent_iff_falsy net
    (get loads self "/device/omp/tlocs/advertised" [("deviceId", system_ip device)])
    (get_device_tlocs loads IPv4Address self device) ∧
  absent_iff_falsy net
    (get loads self "/device/vrrp" [("deviceId", system_ip device)])
    (get_device_vrrp loads IPv4Address self device).
Proof. repeat split; apply guard_absent_iff_falsy. Qed.

Lemma normalisers_absent_iff_falsy_witness :
  outcome empty_peer
    (get Json.loads Demo.client "/device/interface/synced" [("deviceId", system_ip edge_device)]) =
    Ok (JList []) ∧
  outcome empty_peer
    (get_device_interfaces Json.loads IPRef.IPv4Address IPRef.IPv4Network Demo.client edge_device) =
    Ok None.
Proof.
  assert (outcome empty_peer
            (get Json.loads Demo.client "/device/interface/synced"
               [("deviceId", system_ip edge_device)]) = Ok (JList [])) as Hget
    by (vm_compute; reflexivity).
  split; [exact Hget|].
  destruct (normalisers_absent_iff_falsy Json.loads IPRef.IPv4Address IPRef.IPv4Network
              empty_peer Demo.client edge_device) as [(_ & Hempty & _) _].
  exact (Hempty Hget).
Defined.

(** C9 as claimed fails: the query runs and yields zero results, and each
    normaliser returns "not available", not the empty list. *)
Lemma empty_result_is_not_available :
  (outcome empty_peer
     (get Json.loads Demo.client "/device/interface/synced" [("deviceId", system_ip edge_device)]) =
     Ok (JList []) ∧
   outcome empty_peer
     (get_device_interfaces Json.loads IPRef.IPv4Address IPRef.IPv4Network Demo.client edge_device) =
     Ok None) ∧
  (outcome empty_peer
     (get Json.loads Demo.client "/device/omp/tlocs/advertised" [("deviceId", system_ip edge_device)]) =
     Ok (JList []) ∧
   outcome empty_peer
     (get_device_tlocs Json.loads IPRef.IPv4Address Demo.client edge_device) = Ok None) ∧
  (outcome empty_peer
     (get Json.loads Demo.client "/device/vrrp" [("deviceId", system_ip edge_device)]) =
     Ok (JList []) ∧
   outcome empty_peer
     (get_device_vrrp Json.loads IPRef.IPv4Address Demo.client edge_device) = Ok None).
Proof. repeat split; vm_compute; reflexivity. Qed.

(** * Further facts *)

(** ** The handshake, case by case *)

(** X1: a login answered 200 with a body that is not HTML and a
    [Set-Cookie] header, followed by a token request answered 200, gives a
    connected client: two requests were sent, the base URL has
    [/dataservice] appended, and the headers are the JSON content type, the
    cookie up to its first semicolon and the token. *)
Theorem init_connected (net : request → reply) (host username password : string)
  (verify : option bool) (port sem : option Z) (r1 r2 : response) (sc : string) :
  net (login_request (base_of host port) username password) = Reply r1 →
  status_code r1 = 200 → PyStr.startswith (text r1) "<html>" = false →
  set_cookie r1 = Some sc →
  net (token_request (base_of host port) (PyStr.split_head ";" sc)) = Reply r2 →
  status_code r2 = 200 →
  run net (__init__ host username password verify port sem) =
    (Ok (mkVmanage (String.append (base_of host port) "/dataservice")
           (default 40 sem) (default false verify) true
           (Some [("Content-Type", "application/json");
                  ("Cookie", PyStr.split_head ";" sc);
                  ("X-XSRF-TOKEN", text r2)])
           true),
     [login_request (base_of host port) username password;
      token_request (base_of host port) (PyStr.split_head ";" sc)]).
Proof.
  intros Hr1 Hs1 Hh1 Hsc Hr2 Hs2. unfold __init__, __login, exchange. cbn.
  fold (base_of host port). fold (login_request (base_of host port) username password).
  rewrite Hr1. cbn. rewrite Hs1, Hh1, Hsc. cbn.
  fold (base_of host port). fold (token_request (base_of host port) (PyStr.split_head ";" sc)).
  rewrite Hr2. cbn. rewrite Hs2. cbn. done.
Qed.

Lemma init_connected_witness :
  run (Demo.peer Demo.accepted Demo.token demo_peer)
      (__init__ "vmanage" "admin" "secret" None None None) =
    (Ok Demo.client,
     [login_request "https://vmanage:443" "admin" "secret";
      token_request "https://vmanage:443" "JSESSIONID=abc123"]).
Proof.
  apply (init_connected (Demo.peer Demo.accepted Demo.token demo_peer)
           "vmanage" "admin" "secret" None None None
           (Response 200 "" (Some "JSESSIONID=abc123; Path=/; Secure; HttpOnly"))
           (Response 200 "7F3A9C" None)
           "JSESSIONID=abc123; Path=/; Secure; HttpOnly"); reflexivity.
Defined.

(** X2: a login accepted and a token request answered with a status other
    than 200 leave a client that is not connected and has no session; its
    base URL is unchanged and its headers hold the cookie without a
    token. *)
Theorem init_token_refused (net : request → reply) (host username password : string)
  (verify : option bool) (port sem : option Z) (r1 r2 : response) (sc : string) :
  net (login_request (base_of host port) username password) = Reply r1 →
  status_code r1 = 200 → PyStr.startswith (text r1) "<html>" = false →
  set_cookie r1 = Some sc →
  net (token_request (base_of host port) (PyStr.split_head ";" sc)) = Reply r2 →
  status_code r2 ≠ 200 →
  run net (__init__ host username password verify port sem) =
    (Ok (mkVmanage (base_of host port) (default 40 sem) (default false verify) false
           (Some [("Content-Type", "application/json");
                  ("Cookie", PyStr.split_head ";" sc)])
           false),
     [login_request (base_of host port) username password;
      token_request (base_of host port) (PyStr.split_head ";" sc)]).
Proof.
  intros Hr1 Hs1 Hh1 Hsc Hr2 Hs2. unfold __init__, __login, exchange. cbn.
  fold (base_of host port). fold (login_request (base_of host port) username password).
  rewrite Hr1. cbn. rewrite Hs1, Hh1, Hsc. cbn.
  fold (base_of host port). fold (token_request (base_of host port) (PyStr.split_head ";" sc)).
  rewrite Hr2. cbn. apply Z.eqb_neq in Hs2 as ->. cbn. done.
Qed.

Lemma init_token_refused_witness :
  run (Demo.peer Demo.accepted (Reply (Response 403 "" None)) demo_peer)
      (__init__ "vmanage" "admin" "secret" (Some true) None (Some 5)) =
    (Ok (mkVmanage "https://vmanage:443" 5 true false
           (Some [("Content-Type", "application/json"); ("Cookie", "JSESSIONID=abc123")])
           false),
     [login_request "https://vmanage:443" "admin" "secret";
      token_request "https://vmanage:443" "JSESSIONID=abc123"]).
Proof.
  apply (init_token_refused
           (Demo.peer Demo.accepted (Reply (Response 403 "" None)) demo_peer)
           "vmanage" "admin" "secret" (Some true) None (Some 5)
           (Response 200 "" (Some "JSESSIONID=abc123; Path=/; Secure; HttpOnly"))
           (Response 403 "" None)
           "JSESSIONID=abc123; Path=/; Secure; HttpOnly"); try reflexivity. cbn. lia.
Defined.

(** X3: what construction raises.  A transport failure of the login
    request or of the token request raises [ConnectionError]; a login
    answered 200 with a body that is not HTML and without a [Set-Cookie]
    header raises [AttributeError] before any token request. *)
Theorem init_raises (net : request → reply) (host username password : string)
  (verify : option bool) (port sem : option Z) :
  (net (login_request (base_of host port) username password) = HTTPError →
   run net (__init__ host username password verify port sem) =
     (Err ConnectionError, [login_request (base_of host port) username password])) ∧
  (∀ r1 sc,
     net (login_request (base_of host port) username password) = Reply r1 →
     status_code r1 = 200 → PyStr.startswith (text r1) "<html>" = false →
     set_cookie r1 = Some sc →
     net (token_request (base_of host port) (PyStr.split_head ";" sc)) = HTTPError →
     run net (__init__ host username password verify port sem) =
       (Err ConnectionError,
        [login_request (base_of host port) username password;
         token_request (base_of host port) (PyStr.split_head ";" sc)])) ∧
  (∀ r1,
     net (login_request (base_of host port) username password) = Reply r1 →
     status_code r1 = 200 → PyStr.startswith (text r1) "<html>" = false →
     set_cookie r1 = None →
     run net (__init__ host username password verify port sem) =
       (Err AttributeError, [login_request (base_of host port) username password])).
Proof.
  split; [|split].
  - intros Hr. unfold __init__, __login, exchange. cbn.
    fold (base_of host port). fold (login_request (base_of host port) username password).
    by rewrite Hr.
  - intros r1 sc Hr1 Hs1 Hh1 Hsc Hr2. unfold __init__, __login, exchange. cbn.
    fold (base_of host port). fold (login_request (base_of host port) username password).
    rewrite Hr1. cbn. rewrite Hs1, Hh1, Hsc. cbn.
    fold (base_of host port).
    fold (token_request (base_of host port) (PyStr.split_head ";" sc)).
    by rewrite Hr2.
  - intros r1 Hr1 Hs1 Hh1 Hsc. unfold __init__, __login, exchange. cbn.
    fold (base_of host port). fold (login_request (base_of host port) username password).
    rewrite Hr1. cbn. by rewrite Hs1, Hh1, Hsc.
Qed.

Lemma init_raises_witness :
  run (fun _ => HTTPError) (__init__ "vmanage" "admin" "secret" None None None) =
    (Err ConnectionError, [login_request "https://vmanage:443" "admin" "secret"]) ∧
  run (Demo.peer Demo.accepted HTTPError demo_peer)
      (__init__ "vmanage" "admin" "secret" None None None) =
    (Err ConnectionError,
     [login_request "https://vmanage:443" "admin" "secret";
      token_request "https://vmanage:443" "JSESSIONID=abc123"]) ∧
  run demo_peer (__init__ "vmanage" "admin" "secret" None None None) =
    (Err AttributeError, [login_request "https://vmanage:443" "admin" "secret"]).
Proof.
  split; [|split].
  - by apply (proj1 (init_raises (fun _ => HTTPError) "vmanage" "admin" "secret" None None None)).
  - apply (proj1 (proj2 (init_raises (Demo.peer Demo.accepted HTTPError demo_peer)
                           "vmanage" "admin" "secret" None None None))
             (Response 200 "" (Some "JSESSIONID=abc123; Path=/; Secure; HttpOnly"))
             "JSESSIONID=abc123; Path=/; Secure; HttpOnly"); reflexivity.
  - apply (proj2 (proj2 (init_raises demo_peer "vmanage" "admin" "secret" None None None))
             (Response 200 "" None)); reflexivity.
Defined.

(** X4: whatever the peer answers, a client that construction returns has
    a session exactly when it is connected, has the limit and the TLS
    policy it was given, and either is connected, with [/dataservice]
    appended to its base URL and the three headers set, or is not
    connected, with the base URL as built from host and port. *)
Theorem init_invariant (net : request → reply) (host username password : string)
  (tls : option bool) (port sem : option Z) (self : Vmanage) :
  outcome net (__init__ host username password tls port sem) = Ok self →
  session self = connected self ∧
  semaphore self = default 40 sem ∧
  verify self = default false tls ∧
  if connected self
  then base_url self = String.append (base_of host port) "/dataservice" ∧
       ∃ cookie token,
         headers self = Some [("Content-Type", "application/json"); ("Cookie", cookie);
                              ("X-XSRF-TOKEN", token)]
  else base_url self = base_of host port.
Proof.
  unfold outcome, __init__, __login, exchange. cbn.
  fold (base_of host port).
  destruct (net _) as [|r1]; [done|]. cbn.
  destruct (_ && _)%bool; [|by intros [= <-]].
  destruct (set_cookie r1) as [sc|]; [|done]. cbn.
  destruct (net _) as [|r2]; [done|]. cbn.
  destruct (status_code r2 =? 200); cbn; intros [= <-]; cbn; [|done].
  repeat split. by eexists _, _.
Qed.

Lemma init_invariant_witness :
  session Demo.client = connected Demo.client ∧
  semaphore Demo.client = 40 ∧
  verify Demo.client = false ∧
  base_url Demo.client = "https://vmanage:443/dataservice" ∧
  ∃ cookie token,
    headers Demo.client = Some [("Content-Type", "application/json"); ("Cookie", cookie);
                                ("X-XSRF-TOKEN", token)].
Proof.
  destruct (init_invariant (Demo.peer Demo.accepted Demo.token demo_peer)
              "vmanage" "admin" "secret" None None None Demo.client eq_refl)
    as (H1 & H2 & H3 & H4 & H5).
  by repeat split.
Defined.

(** ** The cookie *)

(** X5: the cookie sent back is the [Set-Cookie] value cut at its first
    semicolon: it has no semicolon in it, and the header value is the
    cookie followed by nothing or by a semicolon and the attributes. *)
Theorem cookie_is_first_segment (sc : string) :
  PyStr.contains ";" (PyStr.split_head ";" sc) = false ∧
  ∃ rest, sc = String.append (PyStr.split_head ";" sc) rest ∧
          (rest = EmptyString ∨ ∃ attributes, rest = String ";" attributes).
Proof.
  induction sc as [|c sc [IHc (rest & IHeq & IHrest)]]; cbn.
  - split; [done|]. exists EmptyString. split; [done|by left].
  - destruct (Ascii.eqb c ";") eqn:Hc.
    + apply Ascii.eqb_eq in Hc as ->. split; [done|].
      exists (String ";" sc). split; [done|]. right. by exists sc.
    + split.
      * cbn [PyStr.contains String.prefix].
        destruct (ascii_dec ";" c) as [<-|_]; [by rewrite Ascii.eqb_refl in Hc|].
        exact IHc.
      * exists rest. split; [|done].
        change (String c sc = String c (String.append (PyStr.split_head ";" sc) rest)).
        f_equal. exact IHeq.
Qed.

(** ** What goes on the wire *)

Lemma run_of_res {A} net (r : res A) : run net (of_res r) = (r, []).
Proof. by destruct r. Qed.

Lemma sent_bind {A B} net (c : coro A) (f : A → coro B) :
  sent net (c ≫= f) =
  sent net c ++ match outcome net c with Ok a => sent net (f a) | Err _ => [] end.
Proof.
  unfold sent, outcome. rewrite run_bind.
  destruct (run net c) as [[a|e] s]; cbn; [|by rewrite app_nil_r].
  by destruct (run net (f a)).
Qed.

Lemma get_sent loads net self endpoint params h :
  connected self = true → session self = true → headers self = Some h →
  sent net (get loads self endpoint params) =
  [Request GET (String.append (base_url self) endpoint) h params [] None].
Proof.
  intros Hc Hs Hh. unfold sent, get, __get, get_session, get_headers, exchange.
  rewrite Hc, Hs, Hh. cbn.
  destruct (net _) as [|r]; [done|]. cbn.
  destruct (status_code r =? 200); [|done]. cbn.
  destruct (_ && _)%bool; [|done]. by rewrite run_of_res.
Qed.

Lemma post_sent loads net self endpoint params data h :
  connected self = true → session self = true → headers self = Some h →
  sent net (post loads self endpoint params data) =
  [Request POST (String.append (base_url self) endpoint) h params [] (Some data)].
Proof.
  intros Hc Hs Hh. unfold sent, post, __post, get_session, get_headers, exchange.
  rewrite Hc, Hs, Hh. cbn.
  destruct (net _) as [|r]; [done|]. cbn.
  destruct (status_code r =? 200); [|done]. cbn.
  destruct (Py.str_truthy _); [|done]. by rewrite run_of_res.
Qed.

(** A fetch followed by the guard and the parsing loop sends what the
    fetch sends. *)
Lemma guard_sent {B} net (fetch : coro json) (parse : json → res B) :
  sent net (raw_data ← fetch;
            if negb (Py.truthy raw_data) then mret None
            else of_res (l ← Py.iter raw_data; Some <$> mapM parse l)) =
  sent net fetch.
Proof.
  rewrite sent_bind. destruct (outcome net fetch) as [raw|e]; [|by rewrite app_nil_r].
  destruct (negb (Py.truthy raw)); cbn; [by rewrite app_nil_r|].
  unfold sent. by rewrite run_of_res, app_nil_r.
Qed.

(** X6: on a connected client every accessor sends exactly one request,
    to the base URL followed by its path, with the headers of the session:
    [get] and the three per-device normalisers a GET (the normalisers with
    the device's system address as [deviceId]), [post] a POST with its
    JSON body. *)
Theorem accessors_send_one_request (loads : string → option json)
  (IPv4Address : json → res ipaddr) (IPv4Network : json → json → res ipnet)
  (net : request → reply) (self : Vmanage) (h : list (string * string))
  (endpoint : string) (params : list (string * option ipaddr)) (data : json)
  (device : DeviceData) :
  connected self = true → session self = true → headers self = Some h →
  sent net (get loads self endpoint params) =
    [Request GET (String.append (base_url self) endpoint) h params [] None] ∧
  sent net (post loads self endpoint params data) =
    [Request POST (String.append (base_url self) endpoint) h params [] (Some data)] ∧
  sent net (get_device_interfaces loads IPv4Address IPv4Network self device) =
    [Request GET (String.append (base_url self) "/device/interface/synced") h
       [("deviceId", system_ip device)] [] None] ∧
  sent net (get_device_tlocs loads IPv4Address self device) =
    [Request GET (String.append (base_url self) "/device/omp/tlocs/advertised") h
       [("deviceId", system_ip device)] [] None] ∧
  sent net (get_device_vrrp loads IPv4Address self device) =
    [Request GET (String.append (base_url self) "/device/vrrp") h
       [("deviceId", system_ip device)] [] None].
Proof.
  intros Hc Hs Hh.
  split; [by apply get_sent|]. split; [by apply post_sent|].
  unfold get_device_interfaces, get_device_tlocs, get_device_vrrp.
  rewrite !guard_sent. repeat split; by apply get_sent.
Qed.

Lemma accessors_send_one_request_witness :
  sent empty_peer (get_device_vrrp Json.loads IPRef.IPv4Address Demo.client edge_device) =
    [Request GET "https://vmanage:443/dataservice/device/vrrp"
       [("Content-Type", "application/json"); ("Cookie", "JSESSIONID=abc123");
        ("X-XSRF-TOKEN", "7F3A9C")]
       [("deviceId", Some (IPv4 167772162))] [] None].
Proof.
  apply (accessors_send_one_request Json.loads IPRef.IPv4Address IPRef.IPv4Network
           empty_peer Demo.client _ "" [] JNull edge_device); reflexivity.
Defined.

(** ** The outcomes of [get] and [post] *)

Lemma contains_truthy p c body :
  PyStr.contains (String c p) body = true → Py.str_truthy body = true.
Proof. by destruct body. Qed.

(** X7: on a connected client a transport failure makes [get] and [post]
    raise [ConnectionError]; a status other than 200 or an empty body gives
    [None]; and [get] gives [None] for every body in which the letters
    [data] do not occur, without decoding it. *)
Theorem request_layer_absent (loads : string → option json) (net : request → reply)
  (self : Vmanage) (h : list (string * string)) (endpoint : string)
  (params : list (string * option ipaddr)) (data : json) :
  connected self = true → session self = true → headers self = Some h →
  let rq_get := Request GET (String.append (base_url self) endpoint) h params [] None in
  let rq_post :=
    Request POST (String.append (base_url self) endpoint) h params [] (Some data) in
  (net rq_get = HTTPError →
   outcome net (get loads self endpoint params) = Err ConnectionError) ∧
  (∀ r, net rq_get = Reply r →
        status_code r ≠ 200 ∨ text r = "" ∨ PyStr.contains "data" (text r) = false →
        outcome net (get loads self endpoint params) = Ok JNull) ∧
  (net rq_post = HTTPError →
   outcome net (post loads self endpoint params data) = Err ConnectionError) ∧
  (∀ r, net rq_post = Reply r →
        status_code r ≠ 200 ∨ text r = "" →
        outcome net (post loads self endpoint params data) = Ok JNull).
Proof.
  intros Hc Hs Hh rq_get rq_post.
  rewrite (get_connected loads net self endpoint params h Hc Hs Hh).
  rewrite (post_connected loads net self endpoint params data h Hc Hs Hh).
  fold rq_get rq_post. repeat split.
  - by intros ->.
  - intros r -> [Hst|[Ht|Hd]].
    + by apply Z.eqb_neq in Hst as ->.
    + rewrite Ht. by destruct (status_code r =? 200).
    + rewrite Hd, andb_false_r. by destruct (status_code r =? 200).
  - by intros ->.
  - intros r -> [Hst|Ht].
    + by apply Z.eqb_neq in Hst as ->.
    + rewrite Ht. by destruct (status_code r =? 200).
Qed.

Lemma request_layer_absent_witness :
  outcome (Demo.route []) (get Json.loads Demo.client "/device" []) = Ok JNull ∧
  outcome (Demo.route []) (post Json.loads Demo.client "/device" [] JNull) = Ok JNull ∧
  outcome (fun _ => HTTPError) (get Json.loads Demo.client "/device" []) = Err ConnectionError.
Proof.
  split; [|split].
  - destruct (request_layer_absent Json.loads (Demo.route []) Demo.client _ "/device" [] JNull
                eq_refl eq_refl eq_refl) as (_ & H & _).
    apply (H (Response 404 "" None)); [reflexivity|]. left. cbn. lia.
  - destruct (request_layer_absent Json.loads (Demo.route []) Demo.client _ "/device" [] JNull
                eq_refl eq_refl eq_refl) as (_ & _ & _ & H).
    apply (H (Response 404 "" None)); [reflexivity|]. left. cbn. lia.
  - destruct (request_layer_absent Json.loads (fun _ => HTTPError) Demo.client _ "/device" []
                JNull eq_refl eq_refl eq_refl) as (H & _).
    by apply H.
Defined.

(** X8: a 200 answer that is decoded and is not an object with a [data]
    entry makes the call raise: [JSONDecodeError] when the body is not
    JSON, [TypeError] when it decodes to something [str] cannot subscript.
    [get] decodes the bodies in which the letters [data] occur, [post]
    every body that is not empty. *)
Theorem request_layer_raises (loads : string → option json) (net : request → reply)
  (self : Vmanage) (h : list (string * string)) (endpoint : string)
  (params : list (string * option ipaddr)) (data : json) (r : response) :
  connected self = true → session self = true → headers self = Some h →
  status_code r = 200 →
  (net (Request GET (String.append (base_url self) endpoint) h params [] None) = Reply r →
   PyStr.contains "data" (text r) = true →
   (loads (text r) = None →
    outcome net (get loads self endpoint params) = Err JSONDecodeError) ∧
   (∀ v, loads (text r) = Some v → (∀ d, v ≠ JDict d) →
         outcome net (get loads self endpoint params) = Err TypeError)) ∧
  (net (Request POST (String.append (base_url self) endpoint) h params [] (Some data)) =
     Reply r →
   text r ≠ "" →
   (loads (text r) = None →
    outcome net (post loads self endpoint params data) = Err JSONDecodeError) ∧
   (∀ v, loads (text r) = Some v → (∀ d, v ≠ JDict d) →
         outcome net (post loads self endpoint params data) = Err TypeError)).
Proof.
  intros Hc Hs Hh Hst.
  rewrite (get_connected loads net self endpoint params h Hc Hs Hh).
  rewrite (post_connected loads net self endpoint params data h Hc Hs Hh).
  split.
  - intros -> Hd. rewrite Hst, Hd, (contains_truthy _ _ _ Hd). cbn. unfold unwrap. split.
    + by intros ->.
    + intros v -> Hv. destruct v; try done. by destruct (Hv d).
  - intros -> Hne. rewrite Hst. cbn.
    unfold Py.str_truthy. apply String.eqb_neq in Hne as ->. cbn. unfold unwrap. split.
    + by intros ->.
    + intros v -> Hv. destruct v; try done. by destruct (Hv d).
Qed.

Lemma request_layer_raises_witness :
  outcome (Demo.route [("https://vmanage:443/dataservice/device", "<html>no data</html>")])
          (get Json.loads Demo.client "/device" []) = Err JSONDecodeError ∧
  outcome (Demo.route [("https://vmanage:443/dataservice/device", "[1, 2]")])
          (post Json.loads Demo.client "/device" [] JNull) = Err TypeError.
Proof.
  split.
  - destruct (request_layer_raises Json.loads
                (Demo.route [("https://vmanage:443/dataservice/device", "<html>no data</html>")])
                Demo.client _ "/device" [] JNull (Response 200 "<html>no data</html>" None)
                eq_refl eq_refl eq_refl eq_refl) as [H _].
    by apply H.
  - destruct (request_layer_raises Json.loads
                (Demo.route [("https://vmanage:443/dataservice/device", "[1, 2]")])
                Demo.client _ "/device" [] JNull (Response 200 "[1, 2]" None)
                eq_refl eq_refl eq_refl eq_refl) as [_ H].
    destruct (H eq_refl) as [_ H']; [done|].
    by apply (H' (JList [JInt 1; JInt 2])).
Defined.

(** X9: a 200 answer whose body decodes to an object with a [data] entry
    is unwrapped: [post] returns the entry, and so does [get] when the
    letters [data] occur in the body as sent. *)
Theorem request_layer_unwraps (loads : string → option json) (net : request → reply)
  (self : Vmanage) (h : list (string * string)) (endpoint : string)
  (params : list (string * option ipaddr)) (data : json) (r : response)
  (d : record) (v : json) :
  connected self = true → session self = true → headers self = Some h →
  status_code r = 200 → loads (text r) = Some (JDict d) → d !! "data" = Some v →
  (net (Request GET (String.append (base_url self) endpoint) h params [] None) = Reply r →
   PyStr.contains "data" (text r) = true →
   outcome net (get loads self endpoint params) = Ok v) ∧
  (net (Request POST (String.append (base_url self) endpoint) h params [] (Some data)) =
     Reply r →
   text r ≠ "" →
   outcome net (post loads self endpoint params data) = Ok v).
Proof.
  intros Hc Hs Hh Hst Hl Hd.
  rewrite (get_connected loads net self endpoint params h Hc Hs Hh).
  rewrite (post_connected loads net self endpoint params data h Hc Hs Hh).
  split.
  - intros -> Hin. rewrite Hst, Hin, (contains_truthy _ _ _ Hin). cbn.
    unfold unwrap. rewrite Hl. cbn. by rewrite Hd.
  - intros -> Hne. rewrite Hst. cbn.
    unfold Py.str_truthy. apply String.eqb_neq in Hne as ->. cbn.
    unfold unwrap. rewrite Hl. cbn. by rewrite Hd.
Qed.

Lemma request_layer_unwraps_witness :
  outcome empty_peer (get Json.loads Demo.client "/device/vrrp" []) = Ok (JList []).
Proof.
  refine (proj1 (request_layer_unwraps Json.loads empty_peer Demo.client
                   [("Content-Type", "application/json"); ("Cookie", "JSESSIONID=abc123");
                    ("X-XSRF-TOKEN", "7F3A9C")]
                   "/device/vrrp" [] JNull (Response 200 (Demo.envelope []) None)
                   {[ "data" := JList [] ]} (JList []) _ _ _ _ _ _) _ _);
    vm_compute; reflexivity.
Defined.

(** ** A client that is not connected, and the template values *)

(** X10: on a client that is not connected, [get], [post], the three
    per-device normalisers and [get_device_template_values] return the
    absent value and send nothing. *)
Theorem unauthenticated_sends_nothing (loads : string → option json)
  (IPv4Address : json → res ipaddr) (IPv4Network : json → json → res ipnet)
  (net : request → reply) (self : Vmanage) (endpoint : string)
  (params : list (string * option ipaddr)) (data : json) (device : DeviceData) :
  connected self = false →
  run net (get loads self endpoint params) = (Ok JNull, []) ∧
  run net (post loads self endpoint params data) = (Ok JNull, []) ∧
  run net (get_device_interfaces loads IPv4Address IPv4Network self device) = (Ok None, []) ∧
  run net (get_device_tlocs loads IPv4Address self device) = (Ok None, []) ∧
  run net (get_device_vrrp loads IPv4Address self device) = (Ok None, []) ∧
  run net (get_device_template_values loads self device) = (Ok JNull, []).
Proof.
  intros Hc.
  rewrite unauthenticated_get, unauthenticated_post, unauthenticated_interfaces,
    unauthenticated_tlocs, unauthenticated_vrrp, unauthenticated_template_values by done.
  done.
Qed.

Lemma unauthenticated_sends_nothing_witness :
  run inventory_peer
      (get_device_template_values Json.loads (demo_client 40) edge_device) = (Ok JNull, []).
Proof.
  by apply (unauthenticated_sends_nothing Json.loads IPRef.IPv4Address IPRef.IPv4Network
              inventory_peer (demo_client 40) "" [] JNull edge_device).
Defined.

(** X11: [get_device_template_values] sends nothing and returns [None]
    for a device whose [uuid] or [template_id] is false (absent, empty).
    Otherwise it posts the lookup payload; an exception of [post] is raised
    as it is, the first element of a returned list is returned, and an
    empty list or an absent result gives [None]. *)
Theorem template_values_spec (loads : string → option json) (net : request → reply)
  (self : Vmanage) (device : DeviceData) :
  (Py.truthy (uuid device) = false ∨ Py.truthy (template_id device) = false →
   run net (get_device_template_values loads self device) = (Ok JNull, [])) ∧
  (Py.truthy (uuid device) = true → Py.truthy (template_id device) = true →
   let lookup := post loads self "/template/device/config/input" [] (template_payload device) in
   sent net (get_device_template_values loads self device) = sent net lookup ∧
   (∀ e, outcome net lookup = Err e →
         outcome net (get_device_template_values loads self device) = Err e) ∧
   (∀ x l, outcome net lookup = Ok (JList (x :: l)) →
           outcome net (get_device_template_values loads self device) = Ok x) ∧
   (outcome net lookup = Ok (JList []) ∨ outcome net lookup = Ok JNull →
    outcome net (get_device_template_values loads self device) = Ok JNull)).
Proof.
  unfold get_device_template_values. split.
  - intros [H|H]; rewrite H; cbn; [done|]. by rewrite orb_true_r.
  - intros Hu Ht. rewrite Hu, Ht. cbn.
    set (lookup := post loads self "/template/device/config/input" [] (template_payload device)).
    rewrite sent_bind, outcome_bind. repeat split.
    + destruct (outcome net lookup); cbn; by rewrite app_nil_r.
    + by intros e ->.
    + by intros x l ->.
    + by intros [->| ->].
Qed.

Lemma template_values_spec_witness :
  run inventory_peer
      (get_device_template_values Json.loads Demo.client edge_device) = (Ok JNull, []).
Proof.
  apply (proj1 (template_values_spec Json.loads inventory_peer Demo.client edge_device)).
  by right.
Defined.

(** ** The fields of a device *)

Lemma eq_str_true x s : Py.eq_str x s = true ↔ x = JStr s.
Proof.
  destruct x; cbn; try (split; [done|by intros [=]]).
  rewrite String.eqb_eq. split; [by intros ->|by intros [= ->]].
Qed.

Section DeviceFields.

Variable IPv4Address : json → res ipaddr.

#[local] Arguments normalize_model : simpl never.

Lemma parse_device_managed v dev :
  parse_device IPv4Address v = Ok dev →
  is_managed dev = match v !! "managed-by" with
                   | Some x => negb (Py.eq_str x "Unmanaged")
                   | None => false
                   end ∧
  (∀ a, v !! "system-ip" = Some a → Some <$> IPv4Address a = Ok (system_ip dev)) ∧
  (∀ x, v !! "deviceModel" = Some x → ∃ m, x = JStr m ∧ model dev = JStr (normalize_model m)).
Proof.
  unfold parse_device, Py.dict_getitem.
  destruct (v !! "uuid") as [u|]; [|done]. cbn.
  destruct (v !! "personality") as [p|]; [|done]. cbn.
  destruct (match v !! "system-ip" with Some a => Some <$> IPv4Address a | None => Ok None end)
    as [sip|] eqn:Hsip; [|done]. cbn.
  destruct (match v !! "deviceModel" with
            | Some (JStr m) => Ok (JStr (normalize_model m))
            | Some _ => Err AttributeError
            | None => Ok JNull
            end) as [mo|] eqn:Hmo; [|done]. cbn.
  destruct (v !! "validity") as [x|]; [|done]. cbn.
  intros [= <-]. cbn. split; [done|]. split.
  - intros a Ha. by rewrite Ha in Hsip.
  - intros y Hy. rewrite Hy in Hmo. destruct y; try done.
    injection Hmo as <-. by eexists.
Qed.

(** When the call succeeds: the three mandatory entries are there, the
    address parses and the model is a string. *)
Lemma parse_device_succeeds v :
  is_Some (v !! "uuid") → is_Some (v !! "personality") → is_Some (v !! "validity") →
  (∀ a, v !! "system-ip" = Some a → ∃ ip, IPv4Address a = Ok ip) →
  (∀ x, v !! "deviceModel" = Some x → ∃ m, x = JStr m) →
  ∃ dev, parse_device IPv4Address v = Ok dev.
Proof.
  intros [u Hu] [p Hp] [x Hx] Hip Hmo. unfold parse_device, Py.dict_getitem.
  rewrite Hu, Hp, Hx. cbn.
  destruct (v !! "system-ip") as [a|].
  - destruct (Hip a eq_refl) as [ip ->]. cbn.
    destruct (v !! "deviceModel") as [y|]; [|by eexists].
    destruct (Hmo y eq_refl) as [m ->]. by eexists.
  - cbn. destruct (v !! "deviceModel") as [y|]; [|by eexists].
    destruct (Hmo y eq_refl) as [m ->]. by eexists.
Qed.

(** The exception of the call, entry by entry in the order the arguments
    are written. *)
Lemma parse_device_error v :
  parse_device IPv4Address v =
  match v !! "uuid", v !! "personality" with
  | None, _ => Err (KeyError "uuid")
  | Some _, None => Err (KeyError "personality")
  | Some u, Some p =>
      match (match v !! "system-ip" with
             | Some a => Some <$> IPv4Address a
             | None => Ok None
             end) with
      | Err e => Err e
      | Ok sip =>
          match v !! "deviceModel", v !! "validity" with
          | Some (JStr _), None | None, None => Err (KeyError "validity")
          | Some (JStr _), Some _ | None, Some _ => parse_device IPv4Address v
          | Some _, _ => Err AttributeError
          end
      end
  end.
Proof.
  unfold parse_device at 1, Py.dict_getitem.
  destruct (v !! "uuid") as [u|] eqn:Hu; [|done]. cbn.
  destruct (v !! "personality") as [p|] eqn:Hp; [|done]. cbn.
  destruct (match v !! "system-ip" with Some a => Some <$> IPv4Address a | None => Ok None end)
    as [sip|] eqn:Hsip; [|done]. cbn.
  destruct (v !! "deviceModel") as [[| | | |m| |]|] eqn:Hmo; try done; cbn.
  - destruct (v !! "validity") as [x|] eqn:Hx; [|done]. cbn.
    unfold parse_device, Py.dict_getitem. rewrite Hu, Hp, Hmo, Hx. cbn.
    destruct (v !! "system-ip"); cbn in *; [by rewrite Hsip|]. by injection Hsip as <-.
  - destruct (v !! "validity") as [x|] eqn:Hx; [|done]. cbn.
    unfold parse_device, Py.dict_getitem. rewrite Hu, Hp, Hmo, Hx. cbn.
    destruct (v !! "system-ip"); cbn in *; [by rewrite Hsip|]. by injection Hsip as <-.
Qed.

End DeviceFields.

(** X12: in a device that [get_devices] has built, every optional field
    holds the value of its entry in the merged record, and the default
    when the record has no such entry: [None] for host name, site, model,
    version and template, no address, [0.0] for the coordinates; an address
    entry is parsed, a model entry is normalised, and the merged record is
    kept as it is. *)
Theorem device_optional_fields (IPv4Address : json → res ipaddr) (v : record)
  (dev : DeviceData) :
  parse_device IPv4Address v = Ok dev →
  raw_data dev = v ∧
  v !! "uuid" = Some (uuid dev) ∧
  v !! "personality" = Some (persona dev) ∧
  hostname dev = default JNull (v !! "host-name") ∧
  site_id dev = default JNull (v !! "site-id") ∧
  version dev = default JNull (v !! "version") ∧
  template_id dev = default JNull (v !! "templateId") ∧
  template_name dev = default JNull (v !! "template") ∧
  latitude dev = default (JFloat "0.0") (v !! "latitude") ∧
  longitude dev = default (JFloat "0.0") (v !! "longitude") ∧
  match v !! "system-ip" with
  | Some a => ∃ ip, IPv4Address a = Ok ip ∧ system_ip dev = Some ip
  | None => system_ip dev = None
  end ∧
  match v !! "deviceModel" with
  | Some x => ∃ m, x = JStr m ∧ model dev = JStr (normalize_model m)
  | None => model dev = JNull
  end.
Proof.
  intros Hdev.
  pose proof (parse_device_fields IPv4Address v dev Hdev)
    as (H1 & H2 & H3 & H4 & H5 & H6 & H7 & H8 & H9 & H10 & _ & _ & _ & H14 & H15 & _).
  pose proof (parse_device_managed IPv4Address v dev Hdev) as (_ & Hip & Hmo).
  unfold field_or in *.
  repeat (split; [by first [assumption | destruct (v !! _)]|]).
  split.
  - destruct (v !! "system-ip") as [a|]; [|by apply H14].
    specialize (Hip a eq_refl). destruct (IPv4Address a) as [ip|]; [|done].
    exists ip. split; [done|]. by injection Hip as <-.
  - destruct (v !! "deviceModel") as [x|]; [by apply Hmo|by apply H15].
Qed.

Lemma device_optional_fields_witness :
  parse_device IPRef.IPv4Address bare_record = Ok bare_device ∧
  raw_data bare_device = bare_record ∧
  hostname bare_device = default JNull (bare_record !! "host-name") ∧
  latitude bare_device = default (JFloat "0.0") (bare_record !! "latitude").
Proof.
  assert (parse_device IPRef.IPv4Address bare_record = Ok bare_device) as H
    by (vm_compute; reflexivity).
  split; [exact H|].
  by destruct (device_optional_fields IPRef.IPv4Address bare_record bare_device H)
    as (H1 & _ & _ & H4 & _ & _ & _ & _ & H9 & _).
Defined.

(** X13: the four flags of a device are exact comparisons: a device is
    valid, in sync or reachable exactly when the merged record has the entry
    and it is the string ["valid"], ["In Sync"], ["reachable"]; it is
    managed exactly when the record has a [managed-by] entry that is not
    the string ["Unmanaged"]. *)
Theorem device_flags (IPv4Address : json → res ipaddr) (v : record) (dev : DeviceData) :
  parse_device IPv4Address v = Ok dev →
  (is_valid dev = true ↔ v !! "validity" = Some (JStr "valid")) ∧
  (is_sync dev = true ↔ v !! "configStatusMessage" = Some (JStr "In Sync")) ∧
  (is_reachable dev = true ↔ v !! "reachability" = Some (JStr "reachable")) ∧
  (is_managed dev = true ↔ ∃ x, v !! "managed-by" = Some x ∧ x ≠ JStr "Unmanaged").
Proof.
  intros Hdev.
  pose proof (parse_device_fields IPv4Address v dev Hdev)
    as (_ & _ & _ & _ & _ & _ & _ & _ & _ & _ & Hsync & Hreach & _ & _ & _ & x & Hx & Hvalid).
  pose proof (parse_device_managed IPv4Address v dev Hdev) as (Hman & _ & _).
  rewrite Hvalid, Hsync, Hreach, Hman, Hx. unfold flag_is. repeat split.
  - by intros ->%eq_str_true.
  - intros [= ->]. by apply eq_str_true.
  - destruct (v !! "configStatusMessage"); [|done]. by intros ->%eq_str_true.
  - intros ->. by apply eq_str_true.
  - destruct (v !! "reachability"); [|done]. by intros ->%eq_str_true.
  - intros ->. by apply eq_str_true.
  - destruct (v !! "managed-by") as [y|]; [|done].
    intros Hy. exists y. split; [done|]. intros ->. done.
  - intros (y & -> & Hy). apply negb_true_iff.
    destruct (Py.eq_str y "Unmanaged") eqn:He; [|done]. by apply eq_str_true in He.
Qed.

Lemma device_flags_witness :
  parse_device IPRef.IPv4Address bare_record = Ok bare_device ∧
  (is_valid bare_device = true ↔ bare_record !! "validity" = Some (JStr "valid")) ∧
  (is_managed bare_device = true ↔
   ∃ x, bare_record !! "managed-by" = Some x ∧ x ≠ JStr "Unmanaged").
Proof.
  assert (parse_device IPRef.IPv4Address bare_record = Ok bare_device) as H
    by (vm_compute; reflexivity).
  split; [exact H|].
  by destruct (device_flags IPRef.IPv4Address bare_record bare_device H) as (H1 & _ & _ & H4).
Defined.

(** X14: a merged record gives a device exactly when it has the entries
    [uuid], [personality] and [validity], its [system-ip] entry, if any, is
    accepted by [IPv4Address], and its [deviceModel] entry, if any, is a
    string. *)
Theorem device_built_iff (IPv4Address : json → res ipaddr) (v : record) :
  (∃ dev, parse_device IPv4Address v = Ok dev) ↔
  is_Some (v !! "uuid") ∧ is_Some (v !! "personality") ∧ is_Some (v !! "validity") ∧
  (∀ a, v !! "system-ip" = Some a → ∃ ip, IPv4Address a = Ok ip) ∧
  (∀ x, v !! "deviceModel" = Some x → ∃ m, x = JStr m).
Proof.
  split.
  - intros [dev Hdev].
    pose proof (parse_device_fields IPv4Address v dev Hdev)
      as (_ & Hu & Hp & _ & _ & _ & _ & _ & _ & _ & _ & _ & _ & _ & _ & x & Hx & _).
    pose proof (parse_device_managed IPv4Address v dev Hdev) as (_ & Hip & Hmo).
    split; [by eexists|]. split; [by eexists|]. split; [by eexists|]. split.
    + intros a Ha. specialize (Hip a Ha). destruct (IPv4Address a) as [ip|]; [by exists ip|done].
    + intros y Hy. destruct (Hmo y Hy) as (m & -> & _). by exists m.
  - intros (Hu & Hp & Hx & Hip & Hmo). by apply parse_device_succeeds.
Qed.

(** X15: what the construction of a device raises, in the order its
    arguments are evaluated: [KeyError] for a missing [uuid], then for a
    missing [personality]; then the exception of [IPv4Address] on the
    [system-ip] entry; then [AttributeError] for a [deviceModel] entry that
    is not a string; then [KeyError] for a missing [validity]. *)
Theorem device_raises (IPv4Address : json → res ipaddr) (v : record) :
  (v !! "uuid" = None → parse_device IPv4Address v = Err (KeyError "uuid")) ∧
  (is_Some (v !! "uuid") → v !! "personality" = None →
   parse_device IPv4Address v = Err (KeyError "personality")) ∧
  (is_Some (v !! "uuid") → is_Some (v !! "personality") →
   ∀ a e, v !! "system-ip" = Some a → IPv4Address a = Err e →
          parse_device IPv4Address v = Err e) ∧
  (is_Some (v !! "uuid") → is_Some (v !! "personality") →
   (∀ a, v !! "system-ip" = Some a → ∃ ip, IPv4Address a = Ok ip) →
   ∀ x, v !! "deviceModel" = Some x → (∀ m, x ≠ JStr m) →
        parse_device IPv4Address v = Err AttributeError) ∧
  (is_Some (v !! "uuid") → is_Some (v !! "personality") →
   (∀ a, v !! "system-ip" = Some a → ∃ ip, IPv4Address a = Ok ip) →
   (∀ x, v !! "deviceModel" = Some x → ∃ m, x = JStr m) →
   v !! "validity" = None →
   parse_device IPv4Address v = Err (KeyError "validity")).
Proof.
  rewrite (parse_device_error IPv4Address v). repeat split.
  - by intros ->.
  - by intros [u ->] ->.
  - intros [u ->] [p ->] a e -> ->. done.
  - intros [u ->] [p ->] Hip x Hx Hnot. rewrite Hx.
    destruct (v !! "system-ip") as [a|].
    + destruct (Hip a eq_refl) as [ip ->]. cbn.
      destruct x; try done. by destruct (Hnot s).
    + destruct x; try done. by destruct (Hnot s).
  - intros [u ->] [p ->] Hip Hmo ->.
    destruct (v !! "system-ip") as [a|].
    + destruct (Hip a eq_refl) as [ip ->]. cbn.
      destruct (v !! "deviceModel") as [x|]; [|done]. by destruct (Hmo x eq_refl) as [m ->].
    + destruct (v !! "deviceModel") as [x|]; [|done]. by destruct (Hmo x eq_refl) as [m ->].
Qed.

Lemma device_built_iff_witness :
  ∃ dev, parse_device IPRef.IPv4Address bare_record = Ok dev.
Proof.
  assert (bare_record !! "system-ip" = None) as Hip by (vm_compute; reflexivity).
  assert (bare_record !! "deviceModel" = None) as Hmo by (vm_compute; reflexivity).
  apply (proj2 (device_built_iff IPRef.IPv4Address bare_record)).
  split; [by exists (JStr "B")|]. split; [by exists (JStr "vedge")|].
  split; [by exists (JStr "valid")|]. split.
  - intros a Ha. rewrite Hip in Ha. discriminate Ha.
  - intros x Hx. rewrite Hmo in Hx. discriminate Hx.
Defined.

Lemma device_raises_witness :
  parse_device IPRef.IPv4Address {[ "personality" := JStr "vedge" ]} = Err (KeyError "uuid").
Proof.
  apply (proj1 (device_raises IPRef.IPv4Address {[ "personality" := JStr "vedge" ]})).
  vm_compute. reflexivity.
Defined.

(** ** The event loop at its edges *)

Section LoopEdges.

Context {A : Type} (net : request → reply).

Lemma steps_stuck (st : loop A) sched :
  (∀ i, step net st i = st) → steps net st sched = st.
Proof.
  intros Hst. induction sched as [|i sched IH]; [done|].
  rewrite steps_cons, Hst. exact IH.
Qed.

Lemma step_no_permit (ops : list (coro A)) i :
  step net (start 0 ops) i = start 0 ops.
Proof.
  unfold step, start. cbn. rewrite list_lookup_fmap.
  by destruct (ops !! i).
Qed.

Lemma step_no_task limit i : step net (start limit (@nil (coro A))) i = start limit [].
Proof. done. Qed.

(** Once the awaiter of [gather] has got something, resuming the loop
    further does not change it. *)
Lemma gather_step (st : loop A) i r :
  gather st = Some r → gather (step net st i) = Some r.
Proof.
  unfold gather. destruct (raised st) as [e|] eqn:Hr.
  - intros [= <-]. unfold step.
    destruct (tasks st !! i) as [[c|[a|e'|rq k]|r']|]; cbn; rewrite ?Hr; try done.
    destruct (0 <? sem_value st); cbn; by rewrite ?Hr.
  - destruct (mapM returned (tasks st)) as [vs|] eqn:Hm; [|done]. intros [= <-].
    apply mapM_Some in Hm. unfold step.
    destruct (tasks st !! i) as [t|] eqn:Hi; [|by rewrite Hr, (mapM_Some_2 _ _ _ Hm)].
    destruct (Forall2_lookup_l _ _ _ _ _ Hm Hi) as (v & _ & Hv).
    destruct t as [c|c|[a|e]]; try done. rewrite Hr.
    by rewrite (mapM_Some_2 _ _ _ Hm).
Qed.

Lemma gather_steps sched : ∀ (st : loop A) r,
  gather st = Some r → gather (steps net st sched) = Some r.
Proof.
  induction sched as [|i sched IH]; intros st r Hg; [done|].
  rewrite steps_cons. by apply IH, gather_step.
Qed.

End LoopEdges.

(** X16: with a limit of zero no wrapper is ever admitted: for a batch
    that is not empty [get_all] returns nothing and raises nothing, under
    every schedule, and no request is sent. *)
Theorem get_all_zero_limit_waits {A} (net : request → reply) (self : Vmanage)
  (ops : list (coro A)) (sched : list nat) :
  semaphore self = 0 → ops ≠ [] →
  get_all net self ops sched = None ∧
  wire (steps net (start (semaphore self) ops) sched) = [].
Proof.
  intros Hz Hne. unfold get_all. rewrite Hz. cbn.
  rewrite steps_stuck by (apply step_no_permit).
  split; [|done]. unfold gather, start. cbn.
  destruct ops as [|op ops]; done.
Qed.

Lemma get_all_zero_limit_waits_witness :
  get_all demo_peer (demo_client 0) demo_ops [0; 1; 0; 1; 1; 0]%nat = None.
Proof.
  by apply (get_all_zero_limit_waits demo_peer (demo_client 0) demo_ops [0; 1; 0; 1; 1; 0]%nat).
Defined.

(** X17: a negative limit makes [get_all] raise [ValueError] whatever the
    batch and the schedule; with a limit that is not negative an empty
    batch returns the empty list at once. *)
Theorem get_all_edge_inputs {A} (net : request → reply) (self : Vmanage)
  (ops : list (coro A)) (sched : list nat) :
  (semaphore self < 0 → get_all net self ops sched = Some (Err ValueError)) ∧
  (0 ≤ semaphore self → ops = [] → get_all net self ops sched = Some (Ok [])).
Proof.
  unfold get_all. split.
  - intros Hneg. by apply Z.ltb_lt in Hneg as ->.
  - intros Hpos ->. apply Z.ltb_ge in Hpos as ->.
    by rewrite steps_stuck by (apply step_no_task).
Qed.

Lemma get_all_edge_inputs_witness :
  get_all demo_peer (demo_client (-1)) demo_ops [0; 1]%nat = Some (Err ValueError) ∧
  get_all demo_peer (demo_client 0) (@nil (coro Z)) [0; 1]%nat = Some (Ok []).
Proof.
  split.
  - apply (proj1 (get_all_edge_inputs demo_peer (demo_client (-1)) demo_ops [0; 1]%nat)).
    cbn. lia.
  - apply (proj2 (get_all_edge_inputs demo_peer (demo_client 0) [] [0; 1]%nat)); [cbn; lia|done].
Defined.

(** X18: [get_all] gives all the results or none: when one of the
    operations raises, no schedule makes it return a list; and what it
    raises is the [ValueError] of a negative limit or an exception that one
    of the operations raises. *)
Theorem get_all_all_or_nothing {A} (net : request → reply) (self : Vmanage)
  (ops : list (coro A)) (sched : list nat) :
  (∀ op e, op ∈ ops → outcome net op = Err e →
           ∀ results, get_all net self ops sched ≠ Some (Ok results)) ∧
  (∀ e, get_all net self ops sched = Some (Err e) →
        (semaphore self < 0 ∧ e = ValueError) ∨ ∃ op, op ∈ ops ∧ outcome net op = Err e).
Proof.
  split; [|intros e; apply get_all_raises].
  intros op e Hop He results Hg.
  apply get_all_returned in Hg as [_ Hres].
  apply list_elem_of_lookup in Hop as [i Hi].
  destruct (Hres i op Hi) as (v & _ & Hv). congruence.
Qed.

Lemma get_all_all_or_nothing_witness :
  get_all demo_peer (demo_client 2) [mret 1; Raise TypeError] [0; 0; 1; 1]%nat =
    Some (Err TypeError) ∧
  ((semaphore (demo_client 2) < 0 ∧ TypeError = ValueError) ∨
   ∃ op : coro Z, op ∈ [mret 1; Raise TypeError] ∧ outcome demo_peer op = Err TypeError).
Proof.
  split; [reflexivity|].
  apply (proj2 (get_all_all_or_nothing demo_peer (demo_client 2) [mret 1; Raise TypeError]
                  [0; 0; 1; 1]%nat) TypeError).
  reflexivity.
Defined.

(** X19: what [get_all] has returned or raised is final: resuming the
    wrappers any further leaves it as it is. *)
Theorem get_all_final {A} (net : request → reply) (self : Vmanage) (ops : list (coro A))
  (sched more : list nat) (r : res (list A)) :
  get_all net self ops sched = Some r →
  get_all net self ops (sched ++ more) = Some r.
Proof.
  unfold get_all. destruct (semaphore self <? 0); [done|].
  intros Hg. rewrite steps_app. by apply gather_steps.
Qed.

Lemma get_all_final_witness :
  get_all demo_peer (demo_client 2) demo_ops ([0; 1; 1; 0; 0] ++ [1; 0; 7])%nat =
  Some (Ok [10; 20]).
Proof.
  apply (get_all_final demo_peer (demo_client 2) demo_ops [0; 1; 1; 0; 0]%nat [1; 0; 7]%nat).
  reflexivity.
Defined.

(** ** What [get_all] puts on the wire *)

Section Wire.

Context {A : Type} (net : request → reply).

Lemma unsent_insert_same (l : list (task A)) i t t' :
  l !! i = Some t → unsent net t' = unsent net t →
  concat (unsent net <$> <[i := t']> l) = concat (unsent net <$> l).
Proof.
  intros Hi Ht. rewrite list_fmap_insert, Ht.
  by rewrite list_insert_id by (by rewrite list_lookup_fmap, Hi).
Qed.

Lemma unsent_insert_one (l : list (task A)) : ∀ i t t' rq,
  l !! i = Some t → unsent net t = rq :: unsent net t' →
  concat (unsent net <$> l) ≡ₚ rq :: concat (unsent net <$> <[i := t']> l).
Proof.
  induction l as [|x l IH]; intros [|i] t t' rq Hi Ht; try done.
  - cbn in Hi. injection Hi as ->. cbn. by rewrite Ht.
  - cbn in Hi. cbn. rewrite (IH i t t' rq Hi Ht).
    by rewrite Permutation_middle.
Qed.

Lemma sent_await rq (k : reply → coro A) :
  sent net (Await rq k) = rq :: sent net (k (net rq)).
Proof. unfold sent. cbn. by destruct (run net (k (net rq))). Qed.

(** What has been sent and what is still to be sent make up, at every
    moment, what the operations send. *)
Lemma wire_step (ops : list (coro A)) (st : loop A) i :
  wire st ++ concat (unsent net <$> tasks st) ≡ₚ concat (sent net <$> ops) →
  wire (step net st i) ++ concat (unsent net <$> tasks (step net st i)) ≡ₚ
    concat (sent net <$> ops).
Proof.
  intros Hinv. unfold step.
  destruct (tasks st !! i) as [t|] eqn:Hi; [|done].
  destruct t as [c|[a|e|rq k]|r]; cbn; try done.
  - destruct (0 <? sem_value st); [|done]. cbn.
    by rewrite (unsent_insert_same _ _ _ _ Hi).
  - by rewrite (unsent_insert_same _ _ _ _ Hi).
  - by rewrite (unsent_insert_same _ _ _ _ Hi).
  - rewrite <- Hinv, <- app_assoc. apply Permutation_app_head. cbn.
    symmetry. apply (unsent_insert_one _ _ _ _ _ Hi). cbn. apply sent_await.
Qed.

Lemma wire_steps (ops : list (coro A)) sched : ∀ st : loop A,
  wire st ++ concat (unsent net <$> tasks st) ≡ₚ concat (sent net <$> ops) →
  wire (steps net st sched) ++ concat (unsent net <$> tasks (steps net st sched)) ≡ₚ
    concat (sent net <$> ops).
Proof.
  induction sched as [|i sched IH]; intros st Hinv; [done|].
  rewrite steps_cons. by apply IH, wire_step.
Qed.

Lemma wire_reachable limit (ops : list (coro A)) sched :
  let st := steps net (start limit ops) sched in
  wire st ++ concat (unsent net <$> tasks st) ≡ₚ concat (sent net <$> ops).
Proof.
  apply wire_steps. unfold start. cbn. by rewrite <- list_fmap_compose.
Qed.

Lemma unsent_returned (ts : list (task A)) vs :
  mapM returned ts = Some vs → concat (unsent net <$> ts) = [].
Proof.
  intros Hm%mapM_Some. induction Hm as [|t v ts vs Ht _ IH]; [done|].
  cbn. rewrite IH. by destruct t as [c|c|[a|e]].
Qed.

End Wire.

Lemma wire_returned {A} (net : request → reply) (self : Vmanage) (ops : list (coro A))
  (sched : list nat) (results : list A) :
  get_all net self ops sched = Some (Ok results) →
  wire (steps net (start (semaphore self) ops) sched) ≡ₚ concat (sent net <$> ops).
Proof.
  set (st := steps net (start (semaphore self) ops) sched).
  pose proof (wire_reachable net (semaphore self) ops sched) as Hw.
  cbv zeta in Hw. fold st in Hw.
  unfold get_all, gather. fold st.
  destruct (semaphore self <? 0); [done|].
  destruct (raised st); [done|].
  destruct (mapM returned (tasks st)) as [vs|] eqn:Hm; [|done]. intros _.
  by rewrite (unsent_returned net _ _ Hm), app_nil_r in Hw.
Qed.

(** X20: [get_all] sends nothing of its own and drops nothing: in every
    state, under every schedule, the requests sent so far together with
    those the wrappers have still to send are the requests of the
    operations; and once [get_all] has returned the list of results, what
    was sent is what the operations send, each request once, in some
    order. *)
Theorem get_all_wire {A} (net : request → reply) (self : Vmanage) (ops : list (coro A))
  (sched : list nat) :
  let st := steps net (start (semaphore self) ops) sched in
  wire st ++ concat (unsent net <$> tasks st) ≡ₚ concat (sent net <$> ops) ∧
  ∀ results, get_all net self ops sched = Some (Ok results) →
             wire st ≡ₚ concat (sent net <$> ops).
Proof.
  cbv zeta. split.
  - apply (wire_reachable net (semaphore self) ops sched).
  - intros results. apply wire_returned.
Qed.

Lemma get_all_wire_witness :
  wire (steps demo_peer (start (semaphore (demo_client 2)) demo_ops) [0; 1; 1; 0; 0]%nat) ≡ₚ
  concat (sent demo_peer <$> demo_ops).
Proof.
  apply (proj2 (get_all_wire demo_peer (demo_client 2) demo_ops [0; 1; 1; 0; 0]%nat) [10; 20]).
  reflexivity.
Defined.

(** X21: when [get_devices] returns its devices on a connected client,
    exactly three requests have been sent, in some order: a GET of the
    controller list, of the edge list and of the device status list, each
    with the headers of the session and no parameters. *)
Theorem get_devices_wire (loads : string → option json) (IPv4Address : json → res ipaddr)
  (net : request → reply) (self : Vmanage) (h : list (string * string))
  (sched : list nat) (devices : ODict.t DeviceData) :
  connected self = true → session self = true → headers self = Some h →
  get_devices loads IPv4Address net self sched = Some (Ok devices) →
  wire (steps net (start (semaphore self) (device_tasks loads self)) sched) ≡ₚ
  [Request GET (String.append (base_url self) "/system/device/controllers") h [] [] None;
   Request GET (String.append (base_url self) "/system/device/vedges") h [] [] None;
   Request GET (String.append (base_url self) "/device") h [] [] None].
Proof.
  intros Hc Hs Hh. unfold get_devices.
  destruct (get_all net self (device_tasks loads self) sched) as [[results|e]|] eqn:Hg;
    [|done..].
  intros _. rewrite (wire_returned net self (device_tasks loads self) sched results Hg).
  unfold device_tasks. cbn. rewrite !(get_sent loads net self _ _ h Hc Hs Hh). done.
Qed.

Lemma get_devices_wire_witness :
  wire (steps inventory_peer (start (semaphore Demo.client) (device_tasks Json.loads Demo.client))
          reverse_schedule) ≡ₚ
  [Request GET (String.append (base_url Demo.client) "/system/device/controllers")
     [("Content-Type", "application/json"); ("Cookie", "JSESSIONID=abc123");
      ("X-XSRF-TOKEN", "7F3A9C")] [] [] None;
   Request GET (String.append (base_url Demo.client) "/system/device/vedges")
     [("Content-Type", "application/json"); ("Cookie", "JSESSIONID=abc123");
      ("X-XSRF-TOKEN", "7F3A9C")] [] [] None;
   Request GET (String.append (base_url Demo.client) "/device")
     [("Content-Type", "application/json"); ("Cookie", "JSESSIONID=abc123");
      ("X-XSRF-TOKEN", "7F3A9C")] [] [] None].
Proof.
  assert (has_returned (get_devices Json.loads IPRef.IPv4Address inventory_peer Demo.client
                          reverse_schedule) = true) as Hok by (vm_compute; reflexivity).
  destruct (get_devices _ _ _ _ _) as [[devices|e]|] eqn:Hd; [|discriminate Hok..].
  by apply (get_devices_wire Json.loads IPRef.IPv4Address inventory_peer Demo.client _
              reverse_schedule devices).
Defined.

(** ** Indexing a payload by [uuid] *)

Lemma fold_res_app {A S} (f : S → A → res S) l1 l2 : ∀ s,
  fold_res f s (l1 ++ l2) = s' ← fold_res f s l1; fold_res f s' l2.
Proof.
  induction l1 as [|x l1 IH]; intros s; [done|].
  cbn. destruct (f s x) as [s'|e]; [|done]. cbn. apply IH.
Qed.

(** The body of the comprehension, one record. *)
Lemma index_step (d d' : ODict.t record) (e : json) :
  (u ← Py.getitem e "uuid"; k ← hashkey u;
   match e with JDict r => Ok (ODict.set d k r) | _ => Err TypeError end) = Ok d' →
  ∃ r u k, e = JDict r ∧ r !! "uuid" = Some u ∧ hashkey u = Ok k ∧ d' = ODict.set d k r.
Proof.
  destruct e as [| | | | | |r]; try done. cbn.
  destruct (r !! "uuid") as [u|] eqn:Hu; [|done]. cbn.
  destruct (hashkey u) as [k|] eqn:Hk; [|done]. cbn. intros [= <-].
  by exists r, u, k.
Qed.

Lemma index_step_error (d : ODict.t record) (e : json) (err : exn) :
  (u ← Py.getitem e "uuid"; k ← hashkey u;
   match e with JDict r => Ok (ODict.set d k r) | _ => Err TypeError end) = Err err →
  err = TypeError ∨ err = KeyError "uuid".
Proof.
  destruct e as [| | | | | |r]; cbn; try (intros [= <-]; by left).
  destruct (r !! "uuid") as [u|]; cbn; [|intros [= <-]; by right].
  destruct u; cbn; intros [= <-]; by left.
Qed.

(** X22: among the records of a list that have the same [uuid], the last
    one is the one the map holds: a record after which no record of the
    list hashes to the same key is the entry of its key. *)
Theorem index_by_uuid_last_wins (l1 l2 : list json) (r : record) (u : json) (k : key)
  (d : ODict.t record) :
  index_by_uuid (JList (l1 ++ JDict r :: l2)) = Ok d →
  r !! "uuid" = Some u → hashkey u = Ok k →
  (∀ r' u', JDict r' ∈ l2 → r' !! "uuid" = Some u' → hashkey u' ≠ Ok k) →
  ODict.get d k = Some r.
Proof.
  unfold index_by_uuid. cbn.
  set (f := fun (d : ODict.t record) (e : json) =>
              u ← Py.getitem e "uuid"; k ← hashkey u;
              match e with JDict r => Ok (ODict.set d k r) | _ => Err TypeError end).
  assert (∀ l acc d', fold_res f acc l = Ok d' →
            (∀ r' u', JDict r' ∈ l → r' !! "uuid" = Some u' → hashkey u' ≠ Ok k) →
            ODict.get d' k = ODict.get acc k) as Hkeep.
  { induction l as [|x l IH]; intros acc d'; cbn; [by intros [= <-]|].
    destruct (f acc x) as [acc'|] eqn:Hf; [|done]. cbn. intros Hfold Hl.
    rewrite (IH _ _ Hfold) by (intros r' u' Hin; apply Hl; by right).
    apply index_step in Hf as (r0 & u0 & k0 & -> & Hu0 & Hk0 & ->).
    rewrite get_set. destruct (decide (k0 = k)) as [->|]; [|done].
    destruct (Hl r0 u0); [by left|done..]. }
  rewrite fold_res_app. destruct (fold_res f ODict.empty l1) as [acc|]; [|done]. cbn.
  intros Hfold Hu Hk Hl2.
  unfold f at 1 in Hfold. cbn in Hfold. rewrite Hu in Hfold. cbn in Hfold.
  rewrite Hk in Hfold. cbn in Hfold.
  rewrite (Hkeep _ _ _ Hfold Hl2), get_set. by destruct (decide (k = k)).
Qed.

Lemma index_by_uuid_last_wins_witness :
  match index_by_uuid twice_listed with
  | Ok d => ODict.get d (KStr "A") = Some {[ "uuid" := JStr "A"; "version" := JStr "2" ]}
  | Err _ => False
  end.
Proof.
  assert (is_ok (index_by_uuid twice_listed) = true) as Hok by (vm_compute; reflexivity).
  destruct (index_by_uuid twice_listed) as [d|e] eqn:Hd; [|discriminate Hok].
  apply (index_by_uuid_last_wins
           [JDict {[ "uuid" := JStr "A"; "version" := JStr "1" ]}] []
           {[ "uuid" := JStr "A"; "version" := JStr "2" ]} (JStr "A") (KStr "A") d Hd).
  - vm_compute. reflexivity.
  - reflexivity.
  - by intros r' u' ?%elem_of_nil.
Defined.

Lemma index_fold_elements l : ∀ (acc d : ODict.t record),
  fold_res (fun d e =>
    u ← Py.getitem e "uuid"; k ← hashkey u;
    match e with JDict r => Ok (ODict.set d k r) | _ => Err TypeError end) acc l = Ok d →
  Forall (fun e => ∃ r u k, e = JDict r ∧ r !! "uuid" = Some u ∧ hashkey u = Ok k) l.
Proof.
  induction l as [|x l IH]; intros acc d Hd; [constructor|]. cbn in Hd.
  match type of Hd with (?fx ≫= _) = _ => destruct fx as [acc'|] eqn:Hf end; [|done].
  cbn in Hd. constructor; [|by eapply IH].
  apply index_step in Hf as (r & u & k & -> & Hu & Hk & _). by exists r, u, k.
Qed.

Lemma index_fold_succeeds l :
  Forall (fun e => ∃ r u k, e = JDict r ∧ r !! "uuid" = Some u ∧ hashkey u = Ok k) l →
  ∀ acc : ODict.t record, ∃ d,
    fold_res (fun d e =>
      u ← Py.getitem e "uuid"; k ← hashkey u;
      match e with JDict r => Ok (ODict.set d k r) | _ => Err TypeError end) acc l = Ok d.
Proof.
  induction 1 as [|x l (r & u & k & -> & Hu & Hk) _ IH]; intros acc; [by eexists|].
  cbn. rewrite Hu. cbn. rewrite Hk. cbn. apply IH.
Qed.

Lemma index_fold_error l : ∀ (acc : ODict.t record) err,
  fold_res (fun d e =>
    u ← Py.getitem e "uuid"; k ← hashkey u;
    match e with JDict r => Ok (ODict.set d k r) | _ => Err TypeError end) acc l = Err err →
  err = TypeError ∨ err = KeyError "uuid".
Proof.
  induction l as [|x l IH]; intros acc err; [done|]. cbn.
  match goal with |- (?fx ≫= _) = _ → _ => destruct fx as [acc'|e'] eqn:Hf end; cbn.
  - apply IH.
  - intros [= <-]. by eapply index_step_error.
Qed.

(** X23: a payload can be indexed exactly when it can be iterated over
    and every element is an object whose [uuid] entry is hashable; the map
    then has no key twice, and every record sits under the key of its own
    [uuid].  Otherwise the exception is [TypeError] or [KeyError] for
    [uuid]; an absent payload gives [TypeError], an empty list the empty
    map. *)
Theorem index_by_uuid_spec (v : json) :
  ((∃ d, index_by_uuid v = Ok d) ↔
   ∃ l, Py.iter v = Ok l ∧
        Forall (fun e => ∃ r u k, e = JDict r ∧ r !! "uuid" = Some u ∧ hashkey u = Ok k) l) ∧
  (∀ d, index_by_uuid v = Ok d → NoDup (ODict.keys d) ∧ self_keyed d) ∧
  (∀ e, index_by_uuid v = Err e → e = TypeError ∨ e = KeyError "uuid") ∧
  index_by_uuid JNull = Err TypeError ∧
  index_by_uuid (JList []) = Ok ODict.empty.
Proof.
  split; [|split; [apply index_by_uuid_wf|split; [|done]]].
  - unfold index_by_uuid. destruct (Py.iter v) as [l|e]; cbn.
    + split.
      * intros [d Hd]. exists l. split; [done|]. by eapply index_fold_elements.
      * intros (l' & [= <-] & Hall). by apply index_fold_succeeds.
    + split; [by intros [d ?]|]. by intros (l & ? & _).
  - unfold index_by_uuid. destruct (Py.iter v) as [l|e0] eqn:Hit; cbn.
    + intros e. apply index_fold_error.
    + intros e [= <-]. destruct v; try done; cbn in Hit; injection Hit as <-; by left.
Qed.

(** X24: [get_devices] needs all three payloads: when one of the three
    [get] calls yields [None] (a status other than 200, or a client that is
    not connected), no schedule makes it return devices; and on a client
    that is not connected, with a limit that is not negative, every call
    that finishes raises [TypeError]. *)
Theorem get_devices_needs_payloads (loads : string → option json)
  (IPv4Address : json → res ipaddr) (net : request → reply) (self : Vmanage)
  (sched : list nat) :
  (outcome net (get loads self "/system/device/controllers" []) = Ok JNull ∨
   outcome net (get loads self "/system/device/vedges" []) = Ok JNull ∨
   outcome net (get loads self "/device" []) = Ok JNull →
   ∀ devices, get_devices loads IPv4Address net self sched ≠ Some (Ok devices)) ∧
  (connected self = false → 0 ≤ semaphore self →
   ∀ r, get_devices loads IPv4Address net self sched = Some r → r = Err TypeError).
Proof.
  split.
  - intros Hnone devices
      (r0 & r1 & r2 & c & v & s & H0 & H1 & H2 & Hc & Hv & Hs & _)%get_devices_returns.
    destruct Hnone as [H|[H|H]].
    + rewrite H0 in H. by injection H as ->.
    + rewrite H1 in H. by injection H as ->.
    + rewrite H2 in H. by injection H as ->.
  - intros Hc Hsem r. by apply unauthenticated_get_devices.
Qed.

Lemma get_devices_needs_payloads_witness :
  has_returned
    (get_devices Json.loads IPRef.IPv4Address empty_peer Demo.client reverse_schedule) = false.
Proof.
  assert (outcome empty_peer (get Json.loads Demo.client "/system/device/controllers" []) =
          Ok JNull) as Hnone by (vm_compute; reflexivity).
  destruct (get_devices _ _ _ _ _) as [[devices|e]|] eqn:Hd; [|reflexivity..].
  by destruct (proj1 (get_devices_needs_payloads Json.loads IPRef.IPv4Address empty_peer
                        Demo.client reverse_schedule) (or_introl Hnone) devices).
Defined.

(** ** The records of the per-device normalisers *)

Lemma mapM_res_Ok {A B} (f : A → res B) l k :
  mapM f l = Ok k ↔ Forall2 (fun x y => f x = Ok y) l k.
Proof.
  revert k. induction l as [|x l IH]; intros k; cbn.
  - split; [intros [= <-]; constructor|by intros ->%Forall2_nil_inv_l].
  - split.
    + destruct (f x) as [y|] eqn:Hx; [|done]. cbn.
      destruct (mapM f l) as [k'|]; [|done]. cbn. intros [= <-].
      constructor; [done|]. by apply IH.
    + intros (y & k' & Hy & Hk & ->)%Forall2_cons_inv_l.
      rewrite Hy. cbn. apply IH in Hk. by rewrite Hk.
Qed.



(** X25: a virtual-IP record is the master exactly when the [vrrp-state]
    entry of its raw element is the string ["proto-state-master"]; the
    other fields are the entries [if-name], [group-id], [priority] and
    [preempt] as they are, the parsed [virtual-ip], and the raw element. *)
Theorem parse_vrrp_fields (IPv4Address : json → res ipaddr) (vip : json) (x : VrrpData) :
  parse_vrrp IPv4Address vip = Ok x →
  (master x = true ↔ Py.getitem vip "vrrp-state" = Ok (JStr "proto-state-master")) ∧
  Py.getitem vip "if-name" = Ok (vrrp_if_name x) ∧
  Py.getitem vip "group-id" = Ok (group x) ∧
  Py.getitem vip "priority" = Ok (priority x) ∧
  Py.getitem vip "preempt" = Ok (preempt x) ∧
  (∃ a, Py.getitem vip "virtual-ip" = Ok a ∧ IPv4Address a = Ok (vrrp_ip x)) ∧
  vrrp_raw_data x = vip.
Proof.
  unfold parse_vrrp.
  destruct (Py.getitem vip "vrrp-state") as [st|]; [|done]. cbn.
  destruct (Py.getitem vip "if-name") as [n|]; [|done]. cbn.
  destruct (Py.getitem vip "virtual-ip") as [a|]; [|done]. cbn.
  destruct (IPv4Address a) as [ip|] eqn:Hip; [|done]. cbn.
  destruct (Py.getitem vip "group-id") as [g|]; [|done]. cbn.
  destruct (Py.getitem vip "priority") as [pr|]; [|done]. cbn.
  destruct (Py.getitem vip "preempt") as [pe|]; [|done]. cbn.
  intros [= <-]. cbn. repeat split; try done.
  - destruct (Py.eq_str st "proto-state-master") eqn:He; [|done].
    intros _. by apply eq_str_true in He as ->.
  - intros [= ->]. done.
  - by exists a.
Qed.

Lemma parse_vrrp_fields_witness :
  match parse_vrrp IPRef.IPv4Address backup_vip with
  | Ok x => master x = false ∧ vrrp_raw_data x = backup_vip
  | Err _ => False
  end.
Proof.
  assert (is_ok (parse_vrrp IPRef.IPv4Address backup_vip) = true) as Hok
    by (vm_compute; reflexivity).
  assert (Py.getitem backup_vip "vrrp-state" = Ok (JStr "proto-state-backup")) as Hst
    by (vm_compute; reflexivity).
  destruct (parse_vrrp IPRef.IPv4Address backup_vip) as [x|e] eqn:Hx; [|discriminate Hok].
  destruct (parse_vrrp_fields IPRef.IPv4Address backup_vip x Hx)
    as (Hm & _ & _ & _ & _ & _ & Hraw).
  split; [|exact Hraw]. destruct (master x) eqn:Hmx; [|reflexivity].
  rewrite Hst in Hm. discriminate (proj1 Hm eq_refl).
Defined.



(** X27: the description of an interface record is the [description]
    entry of its raw element, and the string ["N/A"] when there is none;
    its address is the parsed [ip-address], its network is built from
    [ip-address] and [ipv4-subnet-mask], and a raw element without one of
    the entries [ifname], [interface-type], [hwaddr], [vpn-id],
    [ip-address], [ipv4-subnet-mask] gives no record. *)
Theorem parse_interface_fields (IPv4Address : json → res ipaddr)
  (IPv4Network : json → json → res ipnet) (raw : json) (x : InterfaceData) :
  parse_interface IPv4Address IPv4Network raw = Ok x →
  ∃ d a m,
    raw = JDict d ∧
    if_desc x = default (JStr "N/A") (d !! "description") ∧
    d !! "ifname" = Some (if_name x) ∧
    d !! "interface-type" = Some (if_type x) ∧
    d !! "hwaddr" = Some (if_mac x) ∧
    d !! "vpn-id" = Some (vpn_id x) ∧
    d !! "ip-address" = Some a ∧ d !! "ipv4-subnet-mask" = Some m ∧
    IPv4Address a = Ok (ip x) ∧ IPv4Network a m = Ok (network x) ∧
    if_raw_data x = raw.
Proof.
  unfold parse_interface. destruct raw as [| | | | | |d]; try done. cbn.
  destruct (d !! "ifname") as [n|] eqn:H1; [|done]. cbn.
  destruct (d !! "interface-type") as [ty|] eqn:H2; [|done]. cbn.
  destruct (d !! "hwaddr") as [hw|] eqn:H3; [|done]. cbn.
  destruct (d !! "vpn-id") as [vp|] eqn:H4; [|done]. cbn.
  destruct (d !! "ip-address") as [a|] eqn:H5; [|done]. cbn.
  destruct (IPv4Address a) as [i|] eqn:Hi; [|done]. cbn.
  destruct (d !! "ipv4-subnet-mask") as [m|] eqn:H6; [|done]. cbn.
  destruct (IPv4Network a m) as [nw|] eqn:Hn; [|done]. cbn.
  intros [= <-]. cbn. exists d, a, m. by repeat split.
Qed.

Lemma parse_interface_fields_witness :
  match parse_interface IPRef.IPv4Address IPRef.IPv4Network ge0_interface with
  | Ok x => if_desc x = JStr "N/A" ∧ network x = IPv4Net 167772160 24 ∧
            if_raw_data x = ge0_interface
  | Err _ => False
  end.
Proof.
  assert (is_ok (parse_interface IPRef.IPv4Address IPRef.IPv4Network ge0_interface) = true)
    as Hok by (vm_compute; reflexivity).
  assert (∀ d, ge0_interface = JDict d →
               d !! "description" = None ∧ d !! "ip-address" = Some (JStr "10.0.0.5") ∧
               d !! "ipv4-subnet-mask" = Some (JStr "255.255.255.0")) as Hraw.
  { intros d [= <-]. repeat split; vm_compute; reflexivity. }
  assert (IPRef.IPv4Network (JStr "10.0.0.5") (JStr "255.255.255.0") =
          Ok (IPv4Net 167772160 24)) as Hnet by (vm_compute; reflexivity).
  destruct (parse_interface IPRef.IPv4Address IPRef.IPv4Network ge0_interface) as [x|e] eqn:Hx;
    [|discriminate Hok].
  destruct (parse_interface_fields IPRef.IPv4Address IPRef.IPv4Network ge0_interface x Hx)
    as (d & a & m & Hd & Hdesc & _ & _ & _ & _ & Ha & Hm & _ & Hn & Hr).
  destruct (Hraw d Hd) as (Hdn & Han & Hmn).
  rewrite Hdn in Hdesc. rewrite Han in Ha. rewrite Hmn in Hm.
  injection Ha as <-. injection Hm as <-. rewrite Hnet in Hn. injection Hn as <-.
  by repeat split.
Defined.

Lemma mapM_res_Err {A B} (f : A → res B) l x e :
  x ∈ l → f x = Err e → ∃ e', mapM f l = Err e'.
Proof.
  induction l as [|y l IH]; intros Hin Hx; [by apply elem_of_nil in Hin|].
  cbn. apply elem_of_cons in Hin as [<-|Hin].
  - rewrite Hx. by eexists.
  - destruct (f y); [|by eexists]. cbn.
    destruct (IH Hin Hx) as [e' ->]. by eexists.
Qed.

Lemma guard_parses_all {B} (net : request → reply) (fetch : coro json)
  (parse : json → res B) :
  parses_all net fetch parse
    (raw_data ← fetch;
     if negb (Py.truthy raw_data) then mret None
     else of_res (l ← Py.iter raw_data; Some <$> mapM parse l)).
Proof.
  unfold parses_all. rewrite outcome_bind.
  destruct (outcome net fetch) as [payload|e0]; cbn.
  - destruct (Py.truthy payload) eqn:Ht; cbn.
    + rewrite outcome_of_res. split; [|split; [done|split]].
      * intros xs. destruct (Py.iter payload) as [l|] eqn:Hl; cbn.
        -- destruct (mapM parse l) as [ys|] eqn:Hm; cbn.
           ++ split.
              ** intros [= <-]. exists payload, l. by rewrite <- mapM_res_Ok.
              ** intros (p & l' & [= <-] & _ & Hl' & Hall). rewrite Hl in Hl'.
                 injection Hl' as <-. apply mapM_res_Ok in Hall. congruence.
           ++ split; [done|].
              intros (p & l' & [= <-] & _ & Hl' & Hall). rewrite Hl in Hl'.
              injection Hl' as <-. apply mapM_res_Ok in Hall. congruence.
        -- split; [done|]. intros (p & l' & [= <-] & _ & Hl' & _). congruence.
      * intros p e [= <-] _ ->. done.
      * intros p l raw e [= <-] _ -> Hin Hraw. cbn.
        destruct (mapM_res_Err parse l raw e Hin Hraw) as [e' ->]. by eexists.
    + split; [|split; [done|split]].
      * intros xs. split; [done|]. intros (p & l & [= <-] & ? & _). congruence.
      * intros p e [= <-] ?. congruence.
      * intros p l raw e [= <-] ?. congruence.
  - split; [|split; [by intros e [= <-]|split]].
    + intros xs. split; [done|]. by intros (p & l & ? & _).
    + by intros p e ?.
    + by intros p l raw e ?.
Qed.

(** X28: each of the three per-device normalisers returns a list exactly
    when the payload of its endpoint is true, can be iterated over and
    every element parses; the list then has one record per element, in the
    order of the payload.  There is no partial list: an element that does
    not parse makes the call raise, and so do a payload that is true and
    cannot be iterated over, and a [get] that raises. *)
Theorem normalisers_parse_all (loads : string → option json)
  (IPv4Address : json → res ipaddr) (IPv4Network : json → json → res ipnet)
  (net : request → reply) (self : Vmanage) (device : DeviceData) :
  parses_all net
    (get loads self "/device/interface/synced" [("deviceId", system_ip device)])
    (parse_interface IPv4Address IPv4Network)
    (get_device_interfaces loads IPv4Address IPv4Network self device) ∧
  parses_all net
    (get loads self "/device/omp/tlocs/advertised" [("deviceId", system_ip device)])
    (parse_tloc IPv4Address)
    (get_device_tlocs loads IPv4Address self device) ∧
  parses_all net
    (get loads self "/device/vrrp" [("deviceId", system_ip device)])
    (parse_vrrp IPv4Address)
    (get_device_vrrp loads IPv4Address self device).
Proof. repeat split; apply guard_parses_all. Qed.

Lemma normalisers_parse_all_witness :
  match parse_interface IPRef.IPv4Address IPRef.IPv4Network ge0_interface with
  | Ok x =>
      outcome interface_peer
        (get_device_interfaces Json.loads IPRef.IPv4Address IPRef.IPv4Network Demo.client
           edge_device) = Ok (Some [x])
  | Err _ => False
  end.
Proof.
  assert (is_ok (parse_interface IPRef.IPv4Address IPRef.IPv4Network ge0_interface) = true)
    as Hok by (vm_compute; reflexivity).
  assert (outcome interface_peer
            (get Json.loads Demo.client "/device/interface/synced"
               [("deviceId", system_ip edge_device)]) = Ok (JList [ge0_interface])) as Hget
    by (vm_compute; reflexivity).
  destruct (parse_interface IPRef.IPv4Address IPRef.IPv4Network ge0_interface) as [x|e] eqn:Hx;
    [|discriminate Hok].
  destruct (normalisers_parse_all Json.loads IPRef.IPv4Address IPRef.IPv4Network interface_peer
              Demo.client edge_device) as [(Hiff & _) _].
  apply Hiff. exists (JList [ge0_interface]), [ge0_interface].
  split; [exact Hget|]. split; [reflexivity|]. split; [reflexivity|].
  by repeat constructor.
Defined.
